(** * Ministry of Truth backend: request router and upstream proxy

    A shallow embedding of the two Go entry points of the repository:

    - [Main]: the standalone server of [main.go] (gorilla/mux router,
      CORS middleware, four API routes, static file fallback);
    - [Api]: the serverless function whose single exported [Handler]
      dispatches on the request path itself.

    Handlers are state transformers over the response writer they are
    given and over the trace of upstream HTTP calls they make.  Everything
    outside the repository (environment, network, listener, clock, file
    system, the JSON codec of the Go standard library) is collected in a
    [World], so
    that a test double can be plugged in and the handlers evaluated.
    Calls to [log.Printf] write to the process log only and are left out. *)

From stdpp Require Import base option list strings pretty gmap.
From Stdlib Require Import ZArith QArith.

Local Open Scope Z_scope.
Local Open Scope string_scope.
Local Open Scope list_scope.

(** ** Wire structures (identical in both entry points) *)

Record Source := {
  Source_ID : string;
  Source_Name : string
}.

Record Article := {
  Article_Source : Source;
  Article_Author : string;
  Article_Title : string;
  Article_Description : string;
  Article_URL : string;
  Article_URLToImage : string;
  Article_PublishedAt : string;
  Article_Content : string
}.

Record NewsResponse := {
  NewsResponse_Status : string;
  NewsResponse_TotalResults : Z;
  NewsResponse_Articles : list Article
}.

Record Message := {
  Message_Role : string;
  Message_Content : string
}.

Record OpenAIRequest := {
  OpenAIRequest_Model : string;
  OpenAIRequest_Messages : list Message;
  OpenAIRequest_MaxTokens : Z;
  OpenAIRequest_Temperature : Q
}.

Record Choice := {
  Choice_Message : Message
}.

Record OpenAIResponse := {
  OpenAIResponse_Choices : list Choice
}.

(** The anonymous struct that the transform handlers decode the request
    body into. *)
Record requestData := {
  requestData_Title : string;
  requestData_Description : string
}.

(** Go's [(value, error)] results; the error is kept as its message,
    which is what [%v] prints. *)
Inductive result (A : Type) : Type :=
| Ok (a : A)
| Err (e : string).
Arguments Ok {A} a.
Arguments Err {A} e.

(** ** Inbound requests *)

(** [Request_Path] is [r.URL.Path] and [Request_Query] is the value of
    [r.URL.Query()], a [url.Values], that is a [map[string][]string]. *)
Record Request := {
  Request_Method : string;
  Request_Path : string;
  Request_Query : gmap string (list string);
  Request_Body : string
}.

(** [url.Values.Get]: the first value of the key, or the empty string. *)
Definition Values_Get (v : gmap string (list string)) (key : string) : string :=
  match v !! key with
  | Some (x :: _) => x
  | _ => ""
  end.

(** ** The response writer *)

(** What a handler hands to [json.NewEncoder(w).Encode]: either a
    [map[string]string] or a [*NewsResponse]. *)
Inductive Payload :=
| MapPayload (m : gmap string string)
| NewsPayload (n : NewsResponse).

(** One write to the response body: a line of plain text (as [http.Error]
    prints with [Fprintln]) or the JSON encoding of a payload. *)
Inductive Chunk :=
| Text (s : string)
| JSON (v : Payload).

(** [Status = None] until the status line is committed, by [WriteHeader]
    or by the first write to the body. *)
Record ResponseWriter := {
  Header : gmap string string;
  Status : option Z;
  Written : list Chunk
}.

Definition StatusOK : Z := 200.
Definition StatusMovedPermanently : Z := 301.
Definition StatusBadRequest : Z := 400.
Definition StatusNotFound : Z := 404.
Definition StatusMethodNotAllowed : Z := 405.
Definition StatusInternalServerError : Z := 500.

(** ** Upstream calls *)

(** An outbound request: [http.Get(url)], or the POST that the transform
    handlers build, with its headers and the structure they marshal into
    its body. *)
Inductive Call :=
| GET (url : string)
| POST (url : string) (headers : gmap string string) (body : OpenAIRequest).

Inductive ReadResult :=
| ReadOK (b : string)
| ReadErr (e : string).

(** What the HTTP client returns: a transport error, or a response with
    its status code and a body that is still to be read. *)
Inductive RoundTrip :=
| TransportErr (e : string)
| Response (code : Z) (body : ReadResult).

(** ** The world outside the repository *)

Record World := {
  (** [os.Getenv] *)
  Getenv : string → string;
  (** the network, as seen through [net/http]'s client *)
  RoundTripper : Call → RoundTrip;
  (** [time.Now().Format(time.RFC3339)] *)
  Now : string;
  (** [json.Unmarshal(body, &newsResponse)] *)
  Unmarshal_NewsResponse : string → result NewsResponse;
  (** [json.NewDecoder(r.Body).Decode(&requestData)] *)
  Decode_requestData : string → result requestData;
  (** [json.NewDecoder(resp.Body).Decode(&openAIResponse)] *)
  Decode_OpenAIResponse : string → result OpenAIResponse;
  (** [http.FileServer(http.Dir("./public/"))] *)
  FileServer : Request → ResponseWriter → ResponseWriter;
  (** [url.String()] of the request's URL with its path replaced, as
      gorilla/mux computes the target of a redirect *)
  URL_String : Request → string → string;
  (** setting up the listener inside [http.ListenAndServe(addr, ...)]:
      the error it returns, or [None] when the address is being served *)
  Listen : string → option string
}.

(** ** Handler monad: response writer and trace of upstream calls *)

Record State := {
  Resp : ResponseWriter;
  Calls : list Call
}.

Definition M (A : Type) : Type := State → A * State.

#[global] Instance M_ret : MRet M := λ A a st, (a, st).
#[global] Instance M_bind : MBind M := λ A B f m st,
  let '(a, st') := m st in f a st'.

Definition HandlerFunc : Type := Request → M unit.

Definition modify_resp (f : ResponseWriter → ResponseWriter) : M unit :=
  λ st, (tt, {| Resp := f (Resp st); Calls := Calls st |}).

(** [w.Header().Set(k, v)]; once the status line is committed the header
    map no longer reaches the client. *)
Definition Header_Set (k v : string) : M unit :=
  modify_resp (λ w,
    match Status w with
    | None => {| Header := <[k := v]> (Header w); Status := None; Written := Written w |}
    | Some _ => w
    end).

(** [w.WriteHeader(code)]; a second call is ignored. *)
Definition WriteHeader (code : Z) : M unit :=
  modify_resp (λ w,
    match Status w with
    | None => {| Header := Header w; Status := Some code; Written := Written w |}
    | Some _ => w
    end).

(** [w.Write]: commits status 200 if nothing was committed yet. *)
Definition Write (c : Chunk) : M unit :=
  modify_resp (λ w,
    {| Header := Header w;
       Status := Some (default StatusOK (Status w));
       Written := Written w ++ [c] |}).

(** The line feed that [Fprintln] appends. *)
Definition LF : string := String (Ascii.ascii_of_nat 10) EmptyString.

(** [http.Error(w, msg, code)] *)
Definition http_Error (msg : string) (code : Z) : M unit :=
  Header_Set "Content-Type" "text/plain; charset=utf-8";;
  Header_Set "X-Content-Type-Options" "nosniff";;
  WriteHeader code;;
  Write (Text (msg +:+ LF)).

(** [json.NewEncoder(w).Encode(v)]; the handlers discard its error. *)
Definition json_Encode (v : Payload) : M unit :=
  Write (JSON v).

(** The HTTP client: the call is appended to the trace and answered by the
    world. *)
Definition http_Do (W : World) (c : Call) : M RoundTrip :=
  λ st, (RoundTripper W c, {| Resp := Resp st; Calls := Calls st ++ [c] |}).

(** A fresh response writer and an empty trace. *)
Definition init : State :=
  {| Resp := {| Header := ∅; Status := None; Written := [] |}; Calls := [] |}.

Definition serve (h : HandlerFunc) (r : Request) : State :=
  (h r init).2.

(** The status line the client receives: 200 when the handler returned
    without committing one. *)
Definition status_of (st : State) : Z :=
  default StatusOK (Status (Resp st)).

Definition body_of (st : State) : list Chunk :=
  Written (Resp st).

Definition headers_of (st : State) : gmap string string :=
  Header (Resp st).

(** ** Paths in canonical form

    [strings.Split(s, sep)] for a separator of one byte. *)
Fixpoint split (sep : Ascii.ascii) (s : string) : list string :=
  match s with
  | EmptyString => [EmptyString]
  | String a s' =>
    if Ascii.eqb a sep then EmptyString :: split sep s'
    else match split sep s' with
         | x :: xs => String a x :: xs
         | [] => [String a EmptyString]
         end
  end.

Definition slash : Ascii.ascii := Ascii.ascii_of_nat 47.

(** The elements of a rooted path that [path.Clean] keeps, outermost
    first: empty elements and [.] are dropped, [..] takes the element
    before it with it, and is dropped itself at the root. *)
Fixpoint clean_elements (kept : list string) (elems : list string) : list string :=
  match elems with
  | [] => kept
  | e :: rest =>
    if decide (e = "" ∨ e = ".") then clean_elements kept rest
    else if decide (e = "..") then clean_elements (removelast kept) rest
    else clean_elements (kept ++ [e]) rest
  end.

(** [path.Clean] on a rooted path, which is the only kind [cleanPath]
    gives it. *)
Definition path_Clean (p : string) : string :=
  "/" +:+ String.concat "/" (clean_elements [] (split slash p)).

Fixpoint ends_with_slash (p : string) : bool :=
  match p with
  | EmptyString => false
  | String a EmptyString => Ascii.eqb a slash
  | String _ p' => ends_with_slash p'
  end.

(** gorilla/mux's [cleanPath]: the canonical form of a request path. *)
Definition cleanPath (p : string) : string :=
  if decide (p = "") then "/"
  else
    let p := if String.prefix "/" p then p else "/" +:+ p in
    let np := path_Clean p in
    if ends_with_slash p && negb (bool_decide (np = "/")) then np +:+ "/" else np.

(** The canonical form described by itself: the path starts with a slash
    and none of its elements is [.] or [..] or, except the last one,
    empty.  [cleanPath_canonical] shows that these are the paths that
    [cleanPath] leaves as they are. *)
Definition real (e : string) : Prop := e ≠ "" ∧ e ≠ "." ∧ e ≠ "..".

Definition real_element (e : string) : bool :=
  negb (bool_decide (e = "" ∨ e = "." ∨ e = "..")).

Fixpoint canonical_elements (elems : list string) : bool :=
  match elems with
  | [] => true
  | [e] => real_element e || bool_decide (e = "")
  | e :: rest => real_element e && canonical_elements rest
  end.

Definition canonical_path (p : string) : bool :=
  match p with
  | EmptyString => false
  | String c rest => Ascii.eqb c slash && canonical_elements (split slash rest)
  end.

(** ** gorilla/mux, as far as [main] uses it

    A router that was not told to skip it first brings the path into
    canonical form: when [cleanPath] changes the path, the router answers
    by itself with a redirect to the cleaned URL, status 301, and neither
    matches a route nor runs a middleware.  Otherwise routes are tried in
    registration order and the first route all of whose matchers accept
    the request wins; the router's middlewares are wrapped around the
    handler of the matched route only.  When no route matches, the router
    answers by itself, without middleware: 405 if some route failed on
    its method matcher alone, 404 otherwise. *)

Inductive matcher :=
| Path (tpl : string)
| PathPrefix (tpl : string)
| Methods (ms : list string).

Record Route := {
  Route_matchers : list matcher;
  Route_handler : HandlerFunc
}.

Record Router := {
  Router_routes : list Route;
  Router_middlewares : list (HandlerFunc → HandlerFunc)
}.

(** The path templates of [main] have no variables: a [Path] matcher
    accepts exactly its template, a [PathPrefix] matcher every path that
    starts with it. *)
Definition matcher_Match (m : matcher) (r : Request) : bool :=
  match m with
  | Path tpl => bool_decide (Request_Path r = tpl)
  | PathPrefix tpl => String.prefix tpl (Request_Path r)
  | Methods ms => bool_decide (Request_Method r ∈ ms)
  end.

Definition is_methodMatcher (m : matcher) : bool :=
  match m with
  | Methods _ => true
  | _ => false
  end.

Inductive RouteMatch :=
| Matched
| MethodMismatch
| NotMatched.

Definition Route_Match (rt : Route) (r : Request) : RouteMatch :=
  if forallb (λ m, is_methodMatcher m || matcher_Match m r) (Route_matchers rt)
  then if forallb (λ m, matcher_Match m r) (Route_matchers rt)
       then Matched
       else MethodMismatch
  else NotMatched.

Inductive MatchResult :=
| Found (h : HandlerFunc)
| ErrMethodMismatch
| ErrNotFound.

Fixpoint Router_Match (routes : list Route) (r : Request) (mismatch : bool) : MatchResult :=
  match routes with
  | [] => if mismatch then ErrMethodMismatch else ErrNotFound
  | rt :: rest =>
    match Route_Match rt r with
    | Matched => Found (Route_handler rt)
    | MethodMismatch => Router_Match rest r true
    | NotMatched => Router_Match rest r mismatch
    end
  end.

Definition Router_ServeHTTP (W : World) (rt : Router) : HandlerFunc := λ r,
  let p := cleanPath (Request_Path r) in
  if decide (p ≠ Request_Path r) then
    Header_Set "Location" (URL_String W r p);;
    WriteHeader StatusMovedPermanently
  else
    match Router_Match (Router_routes rt) r false with
    | Found h => foldr (λ mw next, mw next) h (Router_middlewares rt) r
    | ErrMethodMismatch => WriteHeader StatusMethodNotAllowed
    | ErrNotFound => http_Error "404 page not found" StatusNotFound
    end.

(** The fixed system instruction of both transform handlers. *)
Definition systemPrompt : string :=
  "You are the Ministry of Truth from George Orwell's 1984. Transform news headlines and descriptions into dystopian propaganda using doublespeak, references to Big Brother, the Party, thoughtcrime, etc. Keep responses under 200 characters.".

(** The completion request both transform handlers build from the title
    and the description. *)
Definition openAIRequest (title description : string) : OpenAIRequest :=
  {| OpenAIRequest_Model := "gpt-3.5-turbo";
     OpenAIRequest_Messages :=
       [ {| Message_Role := "system"; Message_Content := systemPrompt |};
         {| Message_Role := "user";
            Message_Content :=
              "Transform this news: Title: " +:+ title +:+ ", Description: " +:+ description |} ];
     OpenAIRequest_MaxTokens := 200;
     OpenAIRequest_Temperature := (9 # 10)%Q |}.

(** The POST both transform handlers send: [json.Marshal] cannot fail on
    an [OpenAIRequest] and [http.NewRequest] cannot fail on this constant
    method and URL, so the two [err != nil] branches that follow them in
    the source are never taken. *)
Definition completionCall (apiKey title description : string) : Call :=
  POST "https://api.openai.com/v1/chat/completions"
       (<["Content-Type" := "application/json"]>
          (<["Authorization" := "Bearer " +:+ apiKey]> ∅))
       (openAIRequest title description).

(** * The standalone server, [main.go] *)

Module Main.

Record Config := {
  Config_NewsAPIKey : string;
  Config_OpenAIAPIKey : string;
  Config_Port : string
}.

Definition loadConfig (W : World) : result Config :=
  let newsAPIKey := Getenv W "NEWS_API_KEY" in
  if decide (newsAPIKey = "") then
    Err "NEWS_API_KEY environment variable is required"
  else
    let openAIAPIKey := Getenv W "OPENAI_API_KEY" in
    if decide (openAIAPIKey = "") then
      Err "OPENAI_API_KEY environment variable is required"
    else
      let port := Getenv W "PORT" in
      let port := if decide (port = "") then "8080" else port in
      Ok {| Config_NewsAPIKey := newsAPIKey;
            Config_OpenAIAPIKey := openAIAPIKey;
            Config_Port := port |}.

Section Handlers.

Variable W : World.

(** The global [config], assigned once by [main] before the server
    starts. *)
Variable config : Config.

Definition corsMiddleware (next : HandlerFunc) : HandlerFunc := λ r,
  Header_Set "Access-Control-Allow-Origin" "*";;
  Header_Set "Access-Control-Allow-Methods" "GET, POST, PUT, DELETE, OPTIONS";;
  Header_Set "Access-Control-Allow-Headers" "Content-Type, Authorization";;
  if decide (Request_Method r = "OPTIONS") then
    WriteHeader StatusOK
  else
    next r.

Definition fetchNews (endpoint : string) : M (result NewsResponse) :=
  let url := "https://newsapi.org/v2" +:+ endpoint +:+ "&apiKey=" +:+ Config_NewsAPIKey config in
  resp ← http_Do W (GET url);
  match resp with
  | TransportErr err => mret (Err ("failed to fetch news: " +:+ err))
  | Response StatusCode (ReadErr err) =>
    mret (Err ("failed to read response body: " +:+ err))
  | Response StatusCode (ReadOK body) =>
    if decide (StatusCode ≠ StatusOK) then
      mret (Err ("NewsAPI returned status " +:+ pretty StatusCode))
    else
      match Unmarshal_NewsResponse W body with
      | Err err => mret (Err ("failed to parse JSON response: " +:+ err))
      | Ok newsResponse => mret (Ok newsResponse)
      end
  end.

Definition getTopHeadlines : HandlerFunc := λ r,
  Header_Set "Content-Type" "application/json";;
  let category := Values_Get (Request_Query r) "category" in
  let endpoint :=
    if decide (category ≠ "") then "/top-headlines?country=us&category=" +:+ category
    else "/top-headlines?country=us" in
  res ← fetchNews endpoint;
  match res with
  | Err err => http_Error ("Error fetching news: " +:+ err) StatusInternalServerError
  | Ok newsResponse => json_Encode (NewsPayload newsResponse)
  end.

Definition searchNews : HandlerFunc := λ r,
  Header_Set "Content-Type" "application/json";;
  let query := Values_Get (Request_Query r) "q" in
  if decide (query = "") then
    http_Error "Query parameter 'q' is required" StatusBadRequest
  else
    let endpoint := "/everything?q=" +:+ query in
    res ← fetchNews endpoint;
    match res with
    | Err err => http_Error ("Error searching news: " +:+ err) StatusInternalServerError
    | Ok newsResponse => json_Encode (NewsPayload newsResponse)
    end.

Definition transformNews : HandlerFunc := λ r,
  Header_Set "Content-Type" "application/json";;
  if decide (Request_Method r ≠ "POST") then
    http_Error "Method not allowed" StatusMethodNotAllowed
  else
    match Decode_requestData W (Request_Body r) with
    | Err _ => http_Error "Invalid JSON" StatusBadRequest
    | Ok data =>
      resp ← http_Do W (completionCall (Config_OpenAIAPIKey config)
                          (requestData_Title data) (requestData_Description data));
      match resp with
      | TransportErr _ =>
        http_Error "Error making request to OpenAI" StatusInternalServerError
      | Response StatusCode body =>
        if decide (StatusCode ≠ StatusOK) then
          http_Error "Error from OpenAI API" StatusInternalServerError
        else
          match body with
          | ReadErr _ =>
            http_Error "Error parsing OpenAI response" StatusInternalServerError
          | ReadOK b =>
            match Decode_OpenAIResponse W b with
            | Err _ =>
              http_Error "Error parsing OpenAI response" StatusInternalServerError
            | Ok openAIResponse =>
              match OpenAIResponse_Choices openAIResponse with
              | [] => http_Error "No response from OpenAI" StatusInternalServerError
              | c :: _ =>
                json_Encode (MapPayload
                  {[ "transformedContent" := Message_Content (Choice_Message c) ]})
              end
            end
          end
      end
    end.

Definition healthCheck : HandlerFunc := λ r,
  let response : gmap string string :=
    <["time" := Now W]>
      (<["service" := "Ministry of Truth Backend"]>
         (<["status" := "healthy"]> ∅)) in
  Header_Set "Content-Type" "application/json";;
  json_Encode (MapPayload response).

(** The static file handler mounted under the prefix ["/"]. *)
Definition staticFiles : HandlerFunc := λ r,
  modify_resp (FileServer W r).

(** The router [main] builds, in registration order. *)
Definition router : Router :=
  {| Router_routes :=
       [ {| Route_matchers := [Path "/api/news/headlines"; Methods ["GET"]];
            Route_handler := getTopHeadlines |};
         {| Route_matchers := [Path "/api/news/search"; Methods ["GET"]];
            Route_handler := searchNews |};
         {| Route_matchers := [Path "/api/transform"; Methods ["POST"]];
            Route_handler := transformNews |};
         {| Route_matchers := [Path "/health"; Methods ["GET"]];
            Route_handler := healthCheck |};
         {| Route_matchers := [PathPrefix "/"];
            Route_handler := staticFiles |} ];
     Router_middlewares := [corsMiddleware] |}.

End Handlers.

(** What [main] ends in.  [Fatal]: the process has left through
    [log.Fatalf] or [log.Fatal], with exit code 1 and no listener, either
    because the configuration did not load or because
    [http.ListenAndServe] returned at once with the error of the listener
    it could not set up.  [ListenAndServe]: the process stays inside
    [http.ListenAndServe], which accepts connections on the address and
    serves them with the handler. *)
Inductive Process :=
| Fatal (msg : string)
| ListenAndServe (addr : string) (handler : HandlerFunc).

Definition main (W : World) : Process :=
  match loadConfig W with
  | Err err => Fatal ("Failed to load configuration: " +:+ err)
  | Ok config =>
    let addr := ":" +:+ Config_Port config in
    match Listen W addr with
    | Some err => Fatal err
    | None => ListenAndServe addr (Router_ServeHTTP W (router W config))
    end
  end.

Definition accepts_connections (p : Process) : bool :=
  match p with
  | Fatal _ => false
  | ListenAndServe _ _ => true
  end.

End Main.

(** * The serverless entry point *)

Module Api.

Record Config := {
  Config_NewsAPIKey : string;
  Config_OpenAIAPIKey : string
}.

Definition loadConfig (W : World) : result Config :=
  let newsAPIKey := Getenv W "NEWS_API_KEY" in
  if decide (newsAPIKey = "") then
    Err "NEWS_API_KEY environment variable is required"
  else
    let openAIAPIKey := Getenv W "OPENAI_API_KEY" in
    if decide (openAIAPIKey = "") then
      Err "OPENAI_API_KEY environment variable is required"
    else
      Ok {| Config_NewsAPIKey := newsAPIKey;
            Config_OpenAIAPIKey := openAIAPIKey |}.

Definition setCORS : M unit :=
  Header_Set "Access-Control-Allow-Origin" "*";;
  Header_Set "Access-Control-Allow-Methods" "GET, POST, PUT, DELETE, OPTIONS";;
  Header_Set "Access-Control-Allow-Headers" "Content-Type, Authorization".

Section Handlers.

Variable W : World.

Definition fetchNews (endpoint : string) (config : Config) : M (result NewsResponse) :=
  let url := "https://newsapi.org/v2" +:+ endpoint +:+ "&apiKey=" +:+ Config_NewsAPIKey config in
  resp ← http_Do W (GET url);
  match resp with
  | TransportErr err => mret (Err ("failed to fetch news: " +:+ err))
  | Response StatusCode (ReadErr err) =>
    mret (Err ("failed to read response body: " +:+ err))
  | Response StatusCode (ReadOK body) =>
    if decide (StatusCode ≠ StatusOK) then
      mret (Err ("NewsAPI returned status " +:+ pretty StatusCode))
    else
      match Unmarshal_NewsResponse W body with
      | Err err => mret (Err ("failed to parse JSON response: " +:+ err))
      | Ok newsResponse => mret (Ok newsResponse)
      end
  end.

Definition transformContent (title description : string) (config : Config)
  : M (result (gmap string string)) :=
  resp ← http_Do W (completionCall (Config_OpenAIAPIKey config) title description);
  match resp with
  | TransportErr err => mret (Err err)
  | Response StatusCode body =>
    if decide (StatusCode ≠ StatusOK) then
      mret (Err ("OpenAI API returned status " +:+ pretty StatusCode))
    else
      match body with
      | ReadErr err => mret (Err err)
      | ReadOK b =>
        match Decode_OpenAIResponse W b with
        | Err err => mret (Err err)
        | Ok openAIResponse =>
          match OpenAIResponse_Choices openAIResponse with
          | [] => mret (Err "no response from OpenAI")
          | c :: _ =>
            mret (Ok {[ "transformedContent" := Message_Content (Choice_Message c) ]})
          end
        end
      end
  end.

Definition handleHealth : HandlerFunc := λ r,
  Header_Set "Content-Type" "application/json";;
  let response : gmap string string :=
    <["time" := Now W]>
      (<["service" := "Ministry of Truth Backend"]>
         (<["status" := "healthy"]> ∅)) in
  json_Encode (MapPayload response).

Definition handleHeadlines (r : Request) (config : Config) : M unit :=
  Header_Set "Content-Type" "application/json";;
  let category := Values_Get (Request_Query r) "category" in
  let endpoint :=
    if decide (category ≠ "") then "/top-headlines?country=us&category=" +:+ category
    else "/top-headlines?country=us" in
  res ← fetchNews endpoint config;
  match res with
  | Err err => http_Error ("Error fetching news: " +:+ err) StatusInternalServerError
  | Ok newsResponse => json_Encode (NewsPayload newsResponse)
  end.

Definition handleSearch (r : Request) (config : Config) : M unit :=
  Header_Set "Content-Type" "application/json";;
  let query := Values_Get (Request_Query r) "q" in
  if decide (query = "") then
    http_Error "Query parameter 'q' is required" StatusBadRequest
  else
    let endpoint := "/everything?q=" +:+ query in
    res ← fetchNews endpoint config;
    match res with
    | Err err => http_Error ("Error searching news: " +:+ err) StatusInternalServerError
    | Ok newsResponse => json_Encode (NewsPayload newsResponse)
    end.

Definition handleTransform (r : Request) (config : Config) : M unit :=
  Header_Set "Content-Type" "application/json";;
  match Decode_requestData W (Request_Body r) with
  | Err _ => http_Error "Invalid JSON" StatusBadRequest
  | Ok data =>
    res ← transformContent (requestData_Title data) (requestData_Description data) config;
    match res with
    | Err _ => http_Error "Error transforming content" StatusInternalServerError
    | Ok result => json_Encode (MapPayload result)
    end
  end.

Definition Handler : HandlerFunc := λ r,
  setCORS;;
  if decide (Request_Method r = "OPTIONS") then
    WriteHeader StatusOK
  else
    match loadConfig W with
    | Err _ => http_Error "Server configuration error" StatusInternalServerError
    | Ok config =>
      let path := Request_Path r in
      if decide (path = "/api/health") then
        handleHealth r
      else if String.prefix "/api/news/headlines" path then
        handleHeadlines r config
      else if String.prefix "/api/news/search" path then
        handleSearch r config
      else if decide (path = "/api/transform" ∧ Request_Method r = "POST") then
        handleTransform r config
      else
        http_Error "Not found" StatusNotFound
    end.

End Handlers.

End Api.

(** * Vocabulary of the specification *)

(** A state whose status line is not committed yet, and one whose status
    line is. *)
Definition fresh (h : gmap string string) (w : list Chunk) (c : list Call) : State :=
  {| Resp := {| Header := h; Status := None; Written := w |}; Calls := c |}.

Definition replied (h : gmap string string) (code : Z) (w : list Chunk) (c : list Call)
  : State :=
  {| Resp := {| Header := h; Status := Some code; Written := w |}; Calls := c |}.

(** The state a computation ends in. *)
Definition exec {A : Type} (m : M A) (st : State) : State := (m st).2.


Definition is_server_error (code : Z) : Prop := 500 ≤ code < 600.

(** The permissive CORS headers, in the order both entry points set them. *)
Definition corsHeaders : gmap string string :=
  <["Access-Control-Allow-Headers" := "Content-Type, Authorization"]>
    (<["Access-Control-Allow-Methods" := "GET, POST, PUT, DELETE, OPTIONS"]>
       (<["Access-Control-Allow-Origin" := "*"]> ∅)).

(** The answer to a preflight request: status 200, the CORS headers and
    nothing in the body, no upstream call. *)
Definition preflight : State := replied corsHeaders StatusOK [] [].

(** The answer of the router to a path that is not in canonical form: a
    redirect to [location], with no other header, nothing in the body and
    no upstream call. *)
Definition redirect (location : string) : State :=
  replied (<["Location" := location]> ∅) StatusMovedPermanently [] [].

(** The headers [http.Error] leaves on top of [h]. *)
Definition errorHeaders (h : gmap string string) : gmap string string :=
  <["X-Content-Type-Options" := "nosniff"]>
    (<["Content-Type" := "text/plain; charset=utf-8"]> h).

(** [needle] occurs verbatim in [hay]. *)
Definition contains (needle hay : string) : Prop :=
  ∃ pre post, hay = pre +:+ needle +:+ post.

(** The handlers that fetch news, and the handlers that ask for a
    completion, of either entry point. *)
Inductive news_handler (W : World) : HandlerFunc → Prop :=
| news_getTopHeadlines cfg : news_handler W (Main.getTopHeadlines W cfg)
| news_searchNews cfg : news_handler W (Main.searchNews W cfg)
| news_handleHeadlines cfg : news_handler W (λ r, Api.handleHeadlines W r cfg)
| news_handleSearch cfg : news_handler W (λ r, Api.handleSearch W r cfg).

Inductive transform_handler (W : World) : HandlerFunc → Prop :=
| transform_transformNews cfg : transform_handler W (Main.transformNews W cfg)
| transform_handleTransform cfg : transform_handler W (λ r, Api.handleTransform W r cfg).

(** The four routes of the specification, as method and path, for the
    standalone server and for the serverless entry point. *)
Definition Main_defined_route (r : Request) : bool :=
  bool_decide (Request_Method r = "GET" ∧ Request_Path r = "/health")
  || bool_decide (Request_Method r = "GET" ∧ Request_Path r = "/api/news/headlines")
  || bool_decide (Request_Method r = "GET" ∧ Request_Path r = "/api/news/search")
  || bool_decide (Request_Method r = "POST" ∧ Request_Path r = "/api/transform").

Definition Api_defined_route (r : Request) : bool :=
  bool_decide (Request_Method r = "GET" ∧ Request_Path r = "/api/health")
  || bool_decide (Request_Method r = "GET" ∧ Request_Path r = "/api/news/headlines")
  || bool_decide (Request_Method r = "GET" ∧ Request_Path r = "/api/news/search")
  || bool_decide (Request_Method r = "POST" ∧ Request_Path r = "/api/transform").

(** The upstream URLs of a search and of a headline request. *)
Definition searchURL (q key : string) : string :=
  "https://newsapi.org/v2/everything?q=" +:+ q +:+ "&apiKey=" +:+ key.

Definition categoryURL (category key : string) : string :=
  "https://newsapi.org/v2/top-headlines?country=us&category=" +:+ category
  +:+ "&apiKey=" +:+ key.

(** How the receiver of a URL reads its query: the text after the first
    [?], cut at every [&] (with [split]), each piece cut at its first
    [=]. *)
Fixpoint cut (sep : Ascii.ascii) (s : string) : string * string :=
  match s with
  | EmptyString => (EmptyString, EmptyString)
  | String a s' =>
    if Ascii.eqb a sep then (EmptyString, s')
    else let '(k, v) := cut sep s' in (String a k, v)
  end.

(** [sep] does not occur in [s]. *)
Fixpoint free_of (sep : Ascii.ascii) (s : string) : bool :=
  match s with
  | EmptyString => true
  | String a s' => negb (Ascii.eqb a sep) && free_of sep s'
  end.

Definition url_parameters (url : string) : list (string * string) :=
  cut (Ascii.ascii_of_nat 61) <$> split (Ascii.ascii_of_nat 38) (cut (Ascii.ascii_of_nat 63) url).2.

(** The reply [st] of a news handler that sent [GET url], written on top
    of the body [w], by the upstream's answer: 500 when the upstream's
    status is not 200; the decoded news result, re-encoded as it is, when
    the status is 200 and the body decodes. *)
Definition news_outcome (W : World) (st : State) (w : list Chunk) (url : string) : Prop :=
  ∀ code body,
    RoundTripper W (GET url) = Response code body →
    (code ≠ 200 → status_of st = 500)
    ∧ (∀ b n, code = 200 → body = ReadOK b → Unmarshal_NewsResponse W b = Ok n →
              status_of st = 200
              ∧ body_of st = w ++ [JSON (NewsPayload n)]
              ∧ headers_of st !! "Content-Type" = Some "application/json").

(** The same for a transform handler that sent [call]: the text of the
    first choice comes back as the only field of the reply. *)
Definition completion_outcome (W : World) (st : State) (w : list Chunk) (call : Call)
  : Prop :=
  ∀ code body,
    RoundTripper W call = Response code body →
    (code ≠ 200 → status_of st = 500)
    ∧ (∀ b resp ch rest,
         code = 200 → body = ReadOK b →
         Decode_OpenAIResponse W b = Ok resp →
         OpenAIResponse_Choices resp = ch :: rest →
         status_of st = 200
         ∧ body_of st
           = w ++ [JSON (MapPayload
                     {[ "transformedContent" := Message_Content (Choice_Message ch) ]})]).

(** The completion request [call] carries a user message in which both
    [title] and [description] occur verbatim. *)
Definition user_message_with (call : Call) (title description : string) : Prop :=
  match call with
  | GET _ => False
  | POST _ _ req =>
    ∃ m, m ∈ OpenAIRequest_Messages req
         ∧ Message_Role m = "user"
         ∧ contains title (Message_Content m)
         ∧ contains description (Message_Content m)
  end.

(** A completion with exactly one choice, whose message has text [x]. *)
Definition one_choice (role x : string) : OpenAIResponse :=
  {| OpenAIResponse_Choices :=
       [ {| Choice_Message := {| Message_Role := role; Message_Content := x |} |} ] |}.

(** One of the two credentials is empty or absent from the environment. *)
Definition credentials_missing (W : World) : Prop :=
  Getenv W "NEWS_API_KEY" = "" ∨ Getenv W "OPENAI_API_KEY" = "".

(** The requests the serverless dispatcher hands to one of its handlers:
    its health path, the two news prefixes (whatever the method), and a
    POST to its transform path. *)
Definition Api_dispatched (r : Request) : bool :=
  bool_decide (Request_Path r = "/api/health")
  || String.prefix "/api/news/headlines" (Request_Path r)
  || String.prefix "/api/news/search" (Request_Path r)
  || bool_decide (Request_Path r = "/api/transform" ∧ Request_Method r = "POST").

(** The route table of the specification, for the standalone server: the
    handler a request other than OPTIONS is meant to reach. *)
Definition Main_dispatch (W : World) (config : Main.Config) : HandlerFunc := λ r,
  if decide (Request_Method r = "GET" ∧ Request_Path r = "/api/news/headlines") then
    Main.getTopHeadlines W config r
  else if decide (Request_Method r = "GET" ∧ Request_Path r = "/api/news/search") then
    Main.searchNews W config r
  else if decide (Request_Method r = "POST" ∧ Request_Path r = "/api/transform") then
    Main.transformNews W config r
  else if decide (Request_Method r = "GET" ∧ Request_Path r = "/health") then
    Main.healthCheck W r
  else
    Main.staticFiles W r.

(** [st] is the reply of a handler that started from the headers [h] and
    the calls [c]: its status line is committed, with one of the five
    codes the handlers use; apart from the content type and the sniffing
    guard its headers are those of [h]; and it made at most one call. *)
Definition proxy_reply (h : gmap string string) (c : list Call) (st : State) : Prop :=
  (∃ code, Status (Resp st) = Some code ∧ code ∈ [200; 400; 404; 405; 500])
  ∧ (∀ k, k ≠ "Content-Type" → k ≠ "X-Content-Type-Options" →
          headers_of st !! k = h !! k)
  ∧ (Calls st = c ∨ ∃ call, Calls st = c ++ [call]).

(** * JSON texts, as [encoding/json] scans them

    Which texts are JSON is needed to say what a well-formed body is, and
    how much of a body a [json.Decoder] reads is needed to say which
    bodies a transform handler accepts.  What a decoded value is stays
    with the [World]. *)

Definition byte_of (c : Ascii.ascii) : N := Ascii.N_of_ascii c.

Definition is_byte (n : N) (c : Ascii.ascii) : bool := (byte_of c =? n)%N.

(** Space, tab, carriage return and line feed. *)
Definition isSpace (c : Ascii.ascii) : bool :=
  is_byte 32 c || is_byte 9 c || is_byte 13 c || is_byte 10 c.

Definition is_digit (c : Ascii.ascii) : bool :=
  (48 <=? byte_of c)%N && (byte_of c <=? 57)%N.

Definition is_hex (c : Ascii.ascii) : bool :=
  is_digit c
  || (97 <=? byte_of c)%N && (byte_of c <=? 102)%N
  || (65 <=? byte_of c)%N && (byte_of c <=? 70)%N.

Fixpoint skip_space (s : string) : string :=
  match s with
  | EmptyString => EmptyString
  | String c s' => if isSpace c then skip_space s' else s
  end.

(** Inside a string literal: plain, after a backslash, or with [more]
    hexadecimal digits of a [\u] escape still to come. *)
Inductive string_state :=
| InString
| InStringEsc
| InStringEscU (more : nat).

(** The text after the closing quote of the string literal that [s]
    continues. *)
Fixpoint scan_string (st : string_state) (s : string) : option string :=
  match s with
  | EmptyString => None
  | String c s' =>
    match st with
    | InString =>
      if is_byte 34 c then Some s'
      else if is_byte 92 c then scan_string InStringEsc s'
      else if (byte_of c <? 32)%N then None
      else scan_string InString s'
    | InStringEsc =>
      if is_byte 98 c || is_byte 102 c || is_byte 110 c || is_byte 114 c
         || is_byte 116 c || is_byte 92 c || is_byte 47 c || is_byte 34 c
      then scan_string InString s'
      else if is_byte 117 c then scan_string (InStringEscU 4) s'
      else None
    | InStringEscU more =>
      if is_hex c then
        match more with
        | S O => scan_string InString s'
        | S more' => scan_string (InStringEscU more') s'
        | O => None
        end
      else None
    end
  end.

(** Inside a number: after the sign, after a leading zero, in the integer
    digits, after the point, in the fraction digits, after the exponent
    mark, after its sign, in the exponent digits. *)
Inductive number_state :=
| NumNeg
| Num0
| Num1
| NumDot
| NumDot0
| NumE
| NumESign
| NumE0.

Definition is_exponent_mark (c : Ascii.ascii) : bool := is_byte 101 c || is_byte 69 c.

(** The text after the number that [s] continues, when what was read of
    it is a number. *)
Fixpoint scan_number (st : number_state) (s : string) : option string :=
  let stop :=
    match st with
    | Num0 | Num1 | NumDot0 | NumE0 => Some s
    | _ => None
    end in
  match s with
  | EmptyString => stop
  | String c s' =>
    match st with
    | NumNeg =>
      if is_byte 48 c then scan_number Num0 s'
      else if is_digit c then scan_number Num1 s'
      else None
    | Num1 =>
      if is_digit c then scan_number Num1 s'
      else if is_byte 46 c then scan_number NumDot s'
      else if is_exponent_mark c then scan_number NumE s'
      else stop
    | Num0 =>
      if is_byte 46 c then scan_number NumDot s'
      else if is_exponent_mark c then scan_number NumE s'
      else stop
    | NumDot => if is_digit c then scan_number NumDot0 s' else None
    | NumDot0 =>
      if is_digit c then scan_number NumDot0 s'
      else if is_exponent_mark c then scan_number NumE s'
      else stop
    | NumE =>
      if is_byte 43 c || is_byte 45 c then scan_number NumESign s'
      else if is_digit c then scan_number NumE0 s'
      else None
    | NumESign => if is_digit c then scan_number NumE0 s' else None
    | NumE0 => if is_digit c then scan_number NumE0 s' else stop
    end
  end.

(** [s[n:]] for [n] within the string. *)
Fixpoint string_drop (n : nat) (s : string) : string :=
  match n, s with
  | O, _ => s
  | S n', String _ s' => string_drop n' s'
  | S _, EmptyString => EmptyString
  end.

(** The scanner gives up on more than this many open objects and arrays. *)
Definition maxNestingDepth : N := 10000.

(** The text after the JSON value that starts [s]; [depth] counts the
    objects and arrays that are open.  [scan_members] starts at the key
    of a member, [scan_elements] at an element. *)
Fixpoint scan_value (fuel : nat) (depth : N) (s : string) : option string :=
  match fuel with
  | O => None
  | S fuel' =>
    match s with
    | EmptyString => None
    | String c s' =>
      if is_byte 123 c then
        if (maxNestingDepth <? depth + 1)%N then None
        else
          match skip_space s' with
          | EmptyString => None
          | String c' s'' =>
            if is_byte 125 c' then Some s''
            else scan_members fuel' (depth + 1)%N (String c' s'')
          end
      else if is_byte 91 c then
        if (maxNestingDepth <? depth + 1)%N then None
        else
          match skip_space s' with
          | EmptyString => None
          | String c' s'' =>
            if is_byte 93 c' then Some s''
            else scan_elements fuel' (depth + 1)%N (String c' s'')
          end
      else if is_byte 34 c then scan_string InString s'
      else if is_byte 45 c then scan_number NumNeg s'
      else if is_byte 48 c then scan_number Num0 s'
      else if is_digit c then scan_number Num1 s'
      else if String.prefix "true" s then Some (string_drop 4 s)
      else if String.prefix "false" s then Some (string_drop 5 s)
      else if String.prefix "null" s then Some (string_drop 4 s)
      else None
    end
  end
with scan_members (fuel : nat) (depth : N) (s : string) : option string :=
  match fuel with
  | O => None
  | S fuel' =>
    match s with
    | EmptyString => None
    | String c s' =>
      if is_byte 34 c then
        match scan_string InString s' with
        | None => None
        | Some s1 =>
          match skip_space s1 with
          | EmptyString => None
          | String c1 s2 =>
            if is_byte 58 c1 then
              match scan_value fuel' depth (skip_space s2) with
              | None => None
              | Some s3 =>
                match skip_space s3 with
                | EmptyString => None
                | String c3 s4 =>
                  if is_byte 44 c3 then scan_members fuel' depth (skip_space s4)
                  else if is_byte 125 c3 then Some s4
                  else None
                end
              end
            else None
          end
        end
      else None
    end
  end
with scan_elements (fuel : nat) (depth : N) (s : string) : option string :=
  match fuel with
  | O => None
  | S fuel' =>
    match scan_value fuel' depth s with
    | None => None
    | Some s1 =>
      match skip_space s1 with
      | EmptyString => None
      | String c s2 =>
        if is_byte 44 c then scan_elements fuel' depth (skip_space s2)
        else if is_byte 93 c then Some s2
        else None
      end
    end
  end.

(** Every step of the scanner that uses fuel reads a byte, except the
    step from an element to its value: twice the length is enough. *)
Definition scan_fuel (s : string) : nat := 2 * String.length s + 2.

(** [json.Valid]: the whole text is one JSON value, with white space
    around it at most. *)
Definition json_Valid (text : string) : bool :=
  let s := skip_space text in
  match scan_value (scan_fuel s) 0 s with
  | None => false
  | Some rest => bool_decide (skip_space rest = "")
  end.

(** What one [Decode] of a [json.Decoder] reads of a stream: the first
    JSON value after leading white space.  An object or an array ends at
    its closing bracket and what follows is not looked at; a string, a
    number or a literal must be followed by white space or by the end of
    the stream.  [None] is the decoder's error: nothing but white space,
    or no well-formed value. *)
Definition json_readValue (stream : string) : option string :=
  let s := skip_space stream in
  match s with
  | EmptyString => None
  | String c _ =>
    match scan_value (scan_fuel s) 0 s with
    | None => None
    | Some rest =>
      let value := String.substring 0 (String.length s - String.length rest) s in
      if is_byte 123 c || is_byte 91 c then Some value
      else
        match rest with
        | EmptyString => Some value
        | String c' _ => if isSpace c' then Some value else None
        end
    end
  end.

(** [json.NewDecoder(stream).Decode(&v)], given what [json.Unmarshal]
    makes of a JSON value: the first value of the stream is read and
    decoded. *)
Definition Decoder_Decode {A : Type} (unmarshal : string → result A) (stream : string)
  : result A :=
  match json_readValue stream with
  | None => Err "invalid character looking for beginning of value"
  | Some value => unmarshal value
  end.


(** * Test doubles *)

Definition DQ : string := String (Ascii.ascii_of_nat 34) EmptyString.

Definition quoted (s : string) : string := DQ +:+ s +:+ DQ.

(** The JSON text of a transform request, of a completion with one choice
    and of a news result with one article. *)
Definition transformBody (title description : string) : string :=
  "{" +:+ quoted "title" +:+ ":" +:+ quoted title +:+ ","
  +:+ quoted "description" +:+ ":" +:+ quoted description +:+ "}".

Definition completionBody (text : string) : string :=
  "{" +:+ quoted "choices" +:+ ":[{" +:+ quoted "message" +:+ ":{"
  +:+ quoted "role" +:+ ":" +:+ quoted "assistant" +:+ ","
  +:+ quoted "content" +:+ ":" +:+ quoted text +:+ "}}]}".

Definition article0 : Article :=
  {| Article_Source := {| Source_ID := "bbc-news"; Source_Name := "BBC News" |};
     Article_Author := "A. Reporter";
     Article_Title := "Chocolate ration raised";
     Article_Description := "The ration goes up to twenty grammes.";
     Article_URL := "https://example.org/a";
     Article_URLToImage := "https://example.org/a.png";
     Article_PublishedAt := "2025-07-01T08:00:00Z";
     Article_Content := "It was announced today" |}.

Definition news0 : NewsResponse :=
  {| NewsResponse_Status := "ok";
     NewsResponse_TotalResults := 1;
     NewsResponse_Articles := [article0] |}.

Definition field (name value : string) : string := quoted name +:+ ":" +:+ quoted value.

Definition articleBody : string :=
  "{" +:+ quoted "source" +:+ ":{" +:+ field "id" "bbc-news" +:+ ","
  +:+ field "name" "BBC News" +:+ "},"
  +:+ field "author" "A. Reporter" +:+ ","
  +:+ field "title" "Chocolate ration raised" +:+ ","
  +:+ field "description" "The ration goes up to twenty grammes." +:+ ","
  +:+ field "url" "https://example.org/a" +:+ ","
  +:+ field "urlToImage" "https://example.org/a.png" +:+ ","
  +:+ field "publishedAt" "2025-07-01T08:00:00Z" +:+ ","
  +:+ field "content" "It was announced today" +:+ "}".

Definition newsBody : string :=
  "{" +:+ field "status" "ok" +:+ "," +:+ quoted "totalResults" +:+ ":1,"
  +:+ quoted "articles" +:+ ":[" +:+ articleBody +:+ "]}".

(** The same result as the upstream sends it with a field that
    [NewsResponse] does not have. *)
Definition newsBody_with_code : string :=
  "{" +:+ field "status" "ok" +:+ "," +:+ field "code" "cached" +:+ ","
  +:+ quoted "totalResults" +:+ ":1,"
  +:+ quoted "articles" +:+ ":[" +:+ articleBody +:+ "]}".

(** [json.Unmarshal] for the documents of a table; every other text is
    rejected. *)
Fixpoint decodeTable {A : Type} (table : list (string * A)) (text : string) : result A :=
  match table with
  | [] => Err "invalid character"
  | (doc, a) :: rest => if decide (text = doc) then Ok a else decodeTable rest text
  end.

Definition publicDir (r : Request) (w : ResponseWriter) : ResponseWriter :=
  if decide (Request_Path r = "/") then
    {| Header := <["Content-Type" := "text/html; charset=utf-8"]> (Header w);
       Status := Some StatusOK;
       Written := Written w ++ [Text "<!DOCTYPE html>"] |}
  else
    {| Header := errorHeaders (Header w);
       Status := Some StatusNotFound;
       Written := Written w ++ [Text ("404 page not found" +:+ LF)] |}.

Fixpoint all_digits (s : string) : bool :=
  match s with
  | EmptyString => true
  | String c s' => is_digit c && all_digits s'
  end.

(** A listener that can be set up on every numeric port. *)
Definition stubListen (addr : string) : option string :=
  match addr with
  | String c port =>
    if is_byte 58 c && negb (bool_decide (port = "")) && all_digits port then None
    else Some ("listen tcp: lookup tcp/" +:+ port +:+ ": unknown port")
  | EmptyString => None
  end.

(** The two decoders of request and response bodies read their stream as
    a [json.Decoder] does; an empty object and [null] leave the fields of
    a request empty; unknown fields are dropped by [json.Unmarshal], so
    that the two news documents decode alike.  The URLs of the test
    requests that get redirected have no query and nothing to escape. *)
Definition stubWorld (env : gmap string string) (net : Call → RoundTrip) : World :=
  {| Getenv := λ name, default "" (env !! name);
     RoundTripper := net;
     Now := "2025-07-01T12:00:00Z";
     Unmarshal_NewsResponse :=
       decodeTable [(newsBody, news0); (newsBody_with_code, news0)];
     Decode_requestData :=
       Decoder_Decode
         (decodeTable
            [ (transformBody "T" "D",
               {| requestData_Title := "T"; requestData_Description := "D" |});
              (transformBody "" "",
               {| requestData_Title := ""; requestData_Description := "" |});
              ("{}", {| requestData_Title := ""; requestData_Description := "" |});
              ("null", {| requestData_Title := ""; requestData_Description := "" |}) ]);
     Decode_OpenAIResponse :=
       Decoder_Decode
         (decodeTable
            [ (completionBody "X",
               {| OpenAIResponse_Choices :=
                    [ {| Choice_Message :=
                           {| Message_Role := "assistant"; Message_Content := "X" |} |} ] |}) ]);
     FileServer := publicDir;
     URL_String := λ _ p, p;
     Listen := stubListen |}.

Definition env0 : gmap string string :=
  <["OPENAI_API_KEY" := "sk-openai"]> (<["NEWS_API_KEY" := "k-news"]> ∅).

(** Upstreams that answer every call with 200, and with a given status. *)
Definition upstreamOK (c : Call) : RoundTrip :=
  match c with
  | GET _ => Response 200 (ReadOK newsBody)
  | POST _ _ _ => Response 200 (ReadOK (completionBody "X"))
  end.

Definition upstreamStatus (code : Z) (c : Call) : RoundTrip :=
  Response code (ReadOK "").

Definition W0 : World := stubWorld env0 upstreamOK.

Definition W_no_credentials : World := stubWorld ∅ upstreamOK.

Definition mainConfig0 : Main.Config :=
  {| Main.Config_NewsAPIKey := "k-news";
     Main.Config_OpenAIAPIKey := "sk-openai";
     Main.Config_Port := "8080" |}.

Definition apiConfig0 : Api.Config :=
  {| Api.Config_NewsAPIKey := "k-news";
     Api.Config_OpenAIAPIKey := "sk-openai" |}.

Definition request (method path : string) (query : gmap string (list string))
  (body : string) : Request :=
  {| Request_Method := method; Request_Path := path;
     Request_Query := query; Request_Body := body |}.

(** * More vocabulary: replies, requests and the request log *)

(** The request [r] sent with the method [m] instead of its own. *)
Definition with_method (m : string) (r : Request) : Request :=
  {| Request_Method := m;
     Request_Path := Request_Path r;
     Request_Query := Request_Query r;
     Request_Body := Request_Body r |}.

(** The request [r] sent to the path [p] instead of its own. *)
Definition with_path (p : string) (r : Request) : Request :=
  {| Request_Method := Request_Method r;
     Request_Path := p;
     Request_Query := Request_Query r;
     Request_Body := Request_Body r |}.

(** The two forms a reply of the API takes: status 200 with one JSON
    document and the JSON content type, or another status with one line
    of plain text, the plain-text content type and the sniffing guard. *)
Definition json_reply (st : State) : Prop :=
  status_of st = 200
  ∧ (∃ v, body_of st = [JSON v])
  ∧ headers_of st !! "Content-Type" = Some "application/json"
  ∧ headers_of st !! "X-Content-Type-Options" = None.

Definition error_reply (st : State) : Prop :=
  status_of st ≠ 200
  ∧ (∃ msg, body_of st = [Text (msg +:+ LF)])
  ∧ headers_of st !! "Content-Type" = Some "text/plain; charset=utf-8"
  ∧ headers_of st !! "X-Content-Type-Options" = Some "nosniff".

(** The reply [st] is status 500 with the one line [msg] written after
    the body [w]. *)
Definition internal_error (st : State) (w : list Chunk) (msg : string) : Prop :=
  status_of st = 500 ∧ body_of st = w ++ [Text (msg +:+ LF)].

(** The texts with which the transform handlers of the two entry points
    answer when they do not answer 200. *)
Definition transform_error_texts : list string :=
  [ "Method not allowed"; "Invalid JSON"; "Error creating request";
    "Error making request to OpenAI"; "Error from OpenAI API";
    "Error parsing OpenAI response"; "No response from OpenAI";
    "Error transforming content" ].

(** [strings.Replace(s, old, new, 1)]: the first occurrence of [old] in
    [s], if there is one, is replaced by [new]; an empty [old] occurs at
    the very start. *)
Fixpoint strings_Replace1 (s old new : string) : string :=
  if String.prefix old s then new +:+ string_drop (String.length old) s
  else match s with
       | EmptyString => EmptyString
       | String a s' => String a (strings_Replace1 s' old new)
       end.

(** The URL that [fetchNews] of [main.go] writes to the log before it
    calls the upstream, in the line [Making request to: %s]. *)
Definition fetchNews_maskedURL (config : Main.Config) (endpoint : string) : string :=
  strings_Replace1
    ("https://newsapi.org/v2" +:+ endpoint +:+ "&apiKey=" +:+ Main.Config_NewsAPIKey config)
    (Main.Config_NewsAPIKey config) "[REDACTED]".

(** ** What the handlers make of an upstream answer

    The part of each handler that follows its upstream call, as a function
    of the answer; the lemmas below show that the handlers compute
    exactly these. *)

(** The result of [fetchNews], of either entry point. *)
Definition news_fetch_result (W : World) (answer : RoundTrip) : result NewsResponse :=
  match answer with
  | TransportErr err => Err ("failed to fetch news: " +:+ err)
  | Response _ (ReadErr err) => Err ("failed to read response body: " +:+ err)
  | Response code (ReadOK body) =>
    if decide (code ≠ StatusOK) then
      Err ("NewsAPI returned status " +:+ pretty code)
    else
      match Unmarshal_NewsResponse W body with
      | Err err => Err ("failed to parse JSON response: " +:+ err)
      | Ok newsResponse => Ok newsResponse
      end
  end.

(** The reply of a news handler to the result of [fetchNews]; [what] is
    the handler's own prefix of the error text. *)
Definition news_reply (what : string) (h : gmap string string) (w : list Chunk)
  (c : list Call) (res : result NewsResponse) : State :=
  match res with
  | Err err =>
    replied (errorHeaders h) StatusInternalServerError
            (w ++ [Text ((what +:+ err) +:+ LF)]) c
  | Ok newsResponse => replied h StatusOK (w ++ [JSON (NewsPayload newsResponse)]) c
  end.

(** The text [transformNews] of [main.go] answers 500 with, or the text of
    the first choice. *)
Definition completion_result (W : World) (answer : RoundTrip) : result string :=
  match answer with
  | TransportErr _ => Err "Error making request to OpenAI"
  | Response code body =>
    if decide (code ≠ StatusOK) then Err "Error from OpenAI API"
    else
      match body with
      | ReadErr _ => Err "Error parsing OpenAI response"
      | ReadOK b =>
        match Decode_OpenAIResponse W b with
        | Err _ => Err "Error parsing OpenAI response"
        | Ok openAIResponse =>
          match OpenAIResponse_Choices openAIResponse with
          | [] => Err "No response from OpenAI"
          | ch :: _ => Ok (Message_Content (Choice_Message ch))
          end
        end
      end
  end.

(** The reply of a transform handler: [say] turns the reason of a failure
    into the text sent to the client. *)
Definition transform_reply (say : string → string) (h : gmap string string)
  (w : list Chunk) (c : list Call) (res : result string) : State :=
  match res with
  | Err reason =>
    replied (errorHeaders h) StatusInternalServerError (w ++ [Text (say reason +:+ LF)]) c
  | Ok text =>
    replied h StatusOK (w ++ [JSON (MapPayload {[ "transformedContent" := text ]})]) c
  end.

(** The URL of a headline request, with or without a category. *)
Definition headlinesURL (category key : string) : string :=
  "https://newsapi.org/v2"
  +:+ (if decide (category ≠ "") then "/top-headlines?country=us&category=" +:+ category
       else "/top-headlines?country=us")
  +:+ "&apiKey=" +:+ key.

(** The only two calls the proxy makes, given its two keys: a GET of a
    URL under the news API's base that ends in the news key, or a POST of
    a completion request, with its fixed model and limits and the system
    prompt first, to the completion endpoint under the other key. *)
Definition upstream_target (newsAPIKey openAIAPIKey : string) (call : Call) : Prop :=
  match call with
  | GET url =>
    ∃ rest, url = "https://newsapi.org/v2/" +:+ rest +:+ "&apiKey=" +:+ newsAPIKey
  | POST url headers req =>
    url = "https://api.openai.com/v1/chat/completions"
    ∧ headers = <["Content-Type" := "application/json"]>
                  (<["Authorization" := "Bearer " +:+ openAIAPIKey]> ∅)
    ∧ OpenAIRequest_Model req = "gpt-3.5-turbo"
    ∧ OpenAIRequest_MaxTokens req = 200
    ∧ OpenAIRequest_Temperature req = (9 # 10)%Q
    ∧ ∃ content,
        OpenAIRequest_Messages req
        = [ {| Message_Role := "system"; Message_Content := systemPrompt |};
            {| Message_Role := "user"; Message_Content := content |} ]
  end.

(** [needle] occurs in [hay] at one of the first [n] positions. *)
Fixpoint occurs_within (n : nat) (needle hay : string) : bool :=
  match n with
  | O => false
  | S n' =>
    String.prefix needle hay
    || match hay with
       | EmptyString => false
       | String _ hay' => occurs_within n' needle hay'
       end
  end.

(** * Verification *)

(** ** Strings *)

Lemma append_empty_r (x : string) : x +:+ "" = x.
Proof.
  induction x as [| a x IH]; [done |].
  change (String a (x +:+ "") = String a x). by rewrite IH.
Qed.

Lemma app_assoc_string (a b c : string) : (a +:+ b) +:+ c = a +:+ b +:+ c.
Proof.
  induction a as [| x a IH]; [done |].
  change (String x ((a +:+ b) +:+ c) = String x (a +:+ b +:+ c)). by rewrite IH.
Qed.

Lemma prefix_app_inv (p q : string) :
  String.prefix p q = true → ∃ t, q = p +:+ t.
Proof.
  revert q. induction p as [| a p IH]; intros q H.
  - by exists q.
  - destruct q as [| b q]; [done |]. cbn in H.
    destruct (Ascii.ascii_dec a b) as [-> |]; [| done].
    destruct (IH q H) as [t ->]. by exists t.
Qed.

Lemma cut_app_hit sep s1 s2 :
  free_of sep s1 = true → cut sep (s1 +:+ String sep s2) = (s1, s2).
Proof.
  induction s1 as [| a s1 IH]; intros Hfree.
  - change (cut sep (String sep s2) = ("", s2)). unfold cut.
    by rewrite Ascii.eqb_refl.
  - change (free_of sep (String a s1)) with (negb (Ascii.eqb a sep) && free_of sep s1)
      in Hfree.
    apply andb_prop in Hfree as [Ha Hs1]. apply negb_true_iff in Ha.
    change (cut sep (String a (s1 +:+ String sep s2)) = (String a s1, s2)).
    cbn [cut]. rewrite Ha. by rewrite (IH Hs1).
Qed.

Lemma split_app_hit sep s1 s2 :
  free_of sep s1 = true → split sep (s1 +:+ String sep s2) = s1 :: split sep s2.
Proof.
  induction s1 as [| a s1 IH]; intros Hfree.
  - change (split sep (String sep s2) = "" :: split sep s2). cbn [split].
    by rewrite Ascii.eqb_refl.
  - change (free_of sep (String a s1)) with (negb (Ascii.eqb a sep) && free_of sep s1)
      in Hfree.
    apply andb_prop in Hfree as [Ha Hs1]. apply negb_true_iff in Ha.
    change (split sep (String a (s1 +:+ String sep s2)) = String a s1 :: split sep s2).
    cbn [split]. rewrite Ha. by rewrite (IH Hs1).
Qed.

(** ** Running a handler step by step *)

Lemma bind_run {A B : Type} (m : M A) (f : A → M B) (st : State) :
  (m ≫= f) st = f (m st).1 (m st).2.
Proof. unfold mbind, M_bind. by destruct (m st). Qed.

Lemma ret_run {A : Type} (a : A) (st : State) : (mret a : M A) st = (a, st).
Proof. done. Qed.

Lemma Header_Set_fresh k v h w c :
  Header_Set k v (fresh h w c) = (tt, fresh (<[k := v]> h) w c).
Proof. done. Qed.

Lemma WriteHeader_fresh code h w c :
  WriteHeader code (fresh h w c) = (tt, replied h code w c).
Proof. done. Qed.

Lemma json_Encode_fresh v h w c :
  json_Encode v (fresh h w c) = (tt, replied h StatusOK (w ++ [JSON v]) c).
Proof. done. Qed.

Lemma http_Do_fresh W call h w c :
  http_Do W call (fresh h w c) = (RoundTripper W call, fresh h w (c ++ [call])).
Proof. done. Qed.

Lemma http_Error_fresh msg code h w c :
  http_Error msg code (fresh h w c)
  = (tt, replied (errorHeaders h) code (w ++ [Text (msg +:+ LF)]) c).
Proof. done. Qed.

Lemma setCORS_fresh w c :
  Api.setCORS (fresh ∅ w c) = (tt, fresh corsHeaders w c).
Proof. done. Qed.

Lemma init_fresh : init = fresh ∅ [] [].
Proof. done. Qed.

Create Rewrite HintDb handler.

#[local] Hint Rewrite @bind_run @ret_run Header_Set_fresh WriteHeader_fresh
  json_Encode_fresh http_Do_fresh http_Error_fresh setCORS_fresh : handler.

Ltac hsimpl :=
  repeat (autorewrite with handler; cbn beta iota zeta delta [fst snd]).


Lemma Calls_replied h code w c : Calls (replied h code w c) = c.
Proof. done. Qed.

Lemma snoc_inj {A : Type} (l : list A) (x y : A) : l ++ [x] = l ++ [y] → x = y.
Proof. intros H. apply app_inv_head in H. congruence. Qed.

Lemma snoc_neq {A : Type} (l : list A) (x : A) : l ≠ l ++ [x].
Proof.
  intros H. apply (f_equal length) in H. rewrite length_app in H. simpl in H. lia.
Qed.

(** ** What the news handlers do, case by case *)

Section FetchNews.

Variable W : World.

(** Outcome of a news fetch as a function of the upstream answer. *)
Lemma Main_fetchNews_run cfg endpoint h w c :
  ∃ res,
    Main.fetchNews W cfg endpoint (fresh h w c)
    = (res, fresh h w (c ++ [GET ("https://newsapi.org/v2" +:+ endpoint +:+ "&apiKey="
                                   +:+ Main.Config_NewsAPIKey cfg)]))
    ∧ (∀ code body,
         RoundTripper W (GET ("https://newsapi.org/v2" +:+ endpoint +:+ "&apiKey="
                               +:+ Main.Config_NewsAPIKey cfg)) = Response code body →
         (code ≠ 200 → ∃ e, res = Err e)
         ∧ (∀ b n, code = 200 → body = ReadOK b →
                   Unmarshal_NewsResponse W b = Ok n → res = Ok n)).
Proof.
  unfold Main.fetchNews. hsimpl.
  destruct (RoundTripper W _) as [e | code [b | e]]; hsimpl.
  - eexists; split; [done | intros ?? [=]].
  - case_decide as Hc; hsimpl.
    + eexists; split; [done |]. intros ?? [= <- <-]. split; [eauto |].
      intros ?? ->. by destruct Hc.
    + destruct (Unmarshal_NewsResponse W b) as [n | e] eqn:Hn; hsimpl;
        (eexists; split; [done |]); intros ?? [= <- <-];
        (split; [intros Hne; by destruct Hne |]);
        intros ?? _ [= <-]; congruence.
  - eexists; split; [done |]. intros ?? [= <- <-]. split; [eauto |].
    intros ?? _ [=].
Qed.

Lemma Api_fetchNews_run cfg endpoint h w c :
  ∃ res,
    Api.fetchNews W endpoint cfg (fresh h w c)
    = (res, fresh h w (c ++ [GET ("https://newsapi.org/v2" +:+ endpoint +:+ "&apiKey="
                                   +:+ Api.Config_NewsAPIKey cfg)]))
    ∧ (∀ code body,
         RoundTripper W (GET ("https://newsapi.org/v2" +:+ endpoint +:+ "&apiKey="
                               +:+ Api.Config_NewsAPIKey cfg)) = Response code body →
         (code ≠ 200 → ∃ e, res = Err e)
         ∧ (∀ b n, code = 200 → body = ReadOK b →
                   Unmarshal_NewsResponse W b = Ok n → res = Ok n)).
Proof.
  unfold Api.fetchNews. hsimpl.
  destruct (RoundTripper W _) as [e | code [b | e]]; hsimpl.
  - eexists; split; [done | intros ?? [=]].
  - case_decide as Hc; hsimpl.
    + eexists; split; [done |]. intros ?? [= <- <-]. split; [eauto |].
      intros ?? ->. by destruct Hc.
    + destruct (Unmarshal_NewsResponse W b) as [n | e] eqn:Hn; hsimpl;
        (eexists; split; [done |]); intros ?? [= <- <-];
        (split; [intros Hne; by destruct Hne |]);
        intros ?? _ [= <-]; congruence.
  - eexists; split; [done |]. intros ?? [= <- <-]. split; [eauto |].
    intros ?? _ [=].
Qed.

End FetchNews.

Section NewsHandlers.

Variable W : World.

(** Upstream calls of the headline and of the search handlers. *)
Lemma Main_getTopHeadlines_calls cfg r h w c :
  Calls (exec (Main.getTopHeadlines W cfg r) (fresh h w c))
  = c ++ [GET ("https://newsapi.org/v2"
               +:+ (if decide (Values_Get (Request_Query r) "category" ≠ "")
                    then "/top-headlines?country=us&category="
                         +:+ Values_Get (Request_Query r) "category"
                    else "/top-headlines?country=us")
               +:+ "&apiKey=" +:+ Main.Config_NewsAPIKey cfg)].
Proof.
  unfold exec, Main.getTopHeadlines. hsimpl.
  edestruct Main_fetchNews_run as (res & -> & _). hsimpl.
  by destruct res; hsimpl.
Qed.

Lemma Api_handleHeadlines_calls cfg r h w c :
  Calls (exec (Api.handleHeadlines W r cfg) (fresh h w c))
  = c ++ [GET ("https://newsapi.org/v2"
               +:+ (if decide (Values_Get (Request_Query r) "category" ≠ "")
                    then "/top-headlines?country=us&category="
                         +:+ Values_Get (Request_Query r) "category"
                    else "/top-headlines?country=us")
               +:+ "&apiKey=" +:+ Api.Config_NewsAPIKey cfg)].
Proof.
  unfold exec, Api.handleHeadlines. hsimpl.
  edestruct Api_fetchNews_run as (res & -> & _). hsimpl.
  by destruct res; hsimpl.
Qed.

Lemma Main_searchNews_calls cfg r h w c :
  Calls (exec (Main.searchNews W cfg r) (fresh h w c))
  = if decide (Values_Get (Request_Query r) "q" = "") then c
    else c ++ [GET (searchURL (Values_Get (Request_Query r) "q")
                              (Main.Config_NewsAPIKey cfg))].
Proof.
  unfold exec, Main.searchNews. hsimpl. case_decide; hsimpl; [done |].
  edestruct Main_fetchNews_run as (res & -> & _). hsimpl.
  by destruct res; hsimpl.
Qed.

Lemma Api_handleSearch_calls cfg r h w c :
  Calls (exec (Api.handleSearch W r cfg) (fresh h w c))
  = if decide (Values_Get (Request_Query r) "q" = "") then c
    else c ++ [GET (searchURL (Values_Get (Request_Query r) "q")
                              (Api.Config_NewsAPIKey cfg))].
Proof.
  unfold exec, Api.handleSearch. hsimpl. case_decide; hsimpl; [done |].
  edestruct Api_fetchNews_run as (res & -> & _). hsimpl.
  by destruct res; hsimpl.
Qed.

(** A search without a query is answered 400 on the spot. *)
Lemma Main_searchNews_no_query cfg r h w c :
  Values_Get (Request_Query r) "q" = "" →
  exec (Main.searchNews W cfg r) (fresh h w c)
  = replied (errorHeaders (<["Content-Type" := "application/json"]> h))
            StatusBadRequest
            (w ++ [Text ("Query parameter 'q' is required" +:+ LF)]) c.
Proof.
  intros Hq. unfold exec, Main.searchNews. hsimpl. rewrite Hq.
  case_decide; [by hsimpl | done].
Qed.

Lemma Api_handleSearch_no_query cfg r h w c :
  Values_Get (Request_Query r) "q" = "" →
  exec (Api.handleSearch W r cfg) (fresh h w c)
  = replied (errorHeaders (<["Content-Type" := "application/json"]> h))
            StatusBadRequest
            (w ++ [Text ("Query parameter 'q' is required" +:+ LF)]) c.
Proof.
  intros Hq. unfold exec, Api.handleSearch. hsimpl. rewrite Hq.
  case_decide; [by hsimpl | done].
Qed.

Ltac news_outcome_tac fetch :=
  hsimpl;
  edestruct fetch as (res & -> & Hres); hsimpl;
  eexists; split; [by destruct res; hsimpl |];
  intros code body Hrt; destruct (Hres _ _ Hrt) as [Hbad Hgood]; split;
  [ intros Hne; destruct (Hbad Hne) as [e ->]; by hsimpl
  | intros b n Hc Hb Hn; rewrite (Hgood b n Hc Hb Hn); hsimpl;
    split; [done |]; split; [done |]; apply lookup_insert_eq ].

Lemma news_handler_outcome hd r h w c :
  news_handler W hd →
  let st := exec (hd r) (fresh h w c) in
  (status_of st = 400 ∧ Calls st = c)
  ∨ (∃ url, Calls st = c ++ [GET url] ∧ news_outcome W st w url).
Proof.
  intros [cfg | cfg | cfg | cfg]; cbv zeta; unfold exec.
  - right. unfold Main.getTopHeadlines. news_outcome_tac Main_fetchNews_run.
  - unfold Main.searchNews. hsimpl. case_decide.
    + left. by hsimpl.
    + right. news_outcome_tac Main_fetchNews_run.
  - right. unfold Api.handleHeadlines. news_outcome_tac Api_fetchNews_run.
  - unfold Api.handleSearch. hsimpl. case_decide.
    + left. by hsimpl.
    + right. news_outcome_tac Api_fetchNews_run.
Qed.

End NewsHandlers.

(** ** What the transform handlers do, case by case *)

Section TransformHandlers.

Variable W : World.

Lemma Main_transformNews_run cfg r h w c :
  let st := exec (Main.transformNews W cfg r) (fresh h w c) in
  if decide (Request_Method r ≠ "POST") then
    st = replied (errorHeaders (<["Content-Type" := "application/json"]> h))
                 StatusMethodNotAllowed (w ++ [Text ("Method not allowed" +:+ LF)]) c
  else
    match Decode_requestData W (Request_Body r) with
    | Err _ =>
      st = replied (errorHeaders (<["Content-Type" := "application/json"]> h))
                   StatusBadRequest (w ++ [Text ("Invalid JSON" +:+ LF)]) c
    | Ok data =>
      let call := completionCall (Main.Config_OpenAIAPIKey cfg)
                    (requestData_Title data) (requestData_Description data) in
      Calls st = c ++ [call]
      ∧ completion_outcome W st w call
      ∧ (status_of st = 200 ∨ status_of st = 500)
    end.
Proof.
  cbv zeta. unfold exec, Main.transformNews. hsimpl.
  case_decide; hsimpl; [done |].
  destruct (Decode_requestData W _) as [data | e]; hsimpl; [| done].
  unfold completion_outcome.
  destruct (RoundTripper W _) as [e | code [b | e]]; hsimpl.
  - split; [done |]. split; [intros ?? [=] | by right].
  - case_decide as Hc; hsimpl.
    + split; [done |]. split; [| by right]. intros ?? [= <- <-].
      split; [done |]. intros ???? ->. by destruct Hc.
    + destruct (Decode_OpenAIResponse W b) as [resp | e] eqn:Hd; hsimpl.
      * destruct (OpenAIResponse_Choices resp) as [| ch rest] eqn:Hch; hsimpl.
        -- split; [done |]. split; [| by right]. intros ?? [= <- <-].
           split; [intros Hne; by destruct Hne |].
           intros ???? _ [= <-]. rewrite Hd. intros [= <-]. by rewrite Hch.
        -- split; [done |]. split; [| by left]. intros ?? [= <- <-].
           split; [intros Hne; by destruct Hne |].
           intros ???? _ [= <-]. rewrite Hd. intros [= <-]. rewrite Hch.
           by intros [= <- <-].
      * split; [done |]. split; [| by right]. intros ?? [= <- <-].
        split; [intros Hne; by destruct Hne |].
        intros ???? _ [= <-]. by rewrite Hd.
  - case_decide as Hc; hsimpl.
    + split; [done |]. split; [| by right]. intros ?? [= <- <-].
      split; [done |]. intros ???? ->. by destruct Hc.
    + split; [done |]. split; [| by right]. intros ?? [= <- <-].
      split; [intros Hne; by destruct Hne |]. intros ???? _ [=].
Qed.

Lemma Api_handleTransform_run cfg r h w c :
  let st := exec (Api.handleTransform W r cfg) (fresh h w c) in
  match Decode_requestData W (Request_Body r) with
  | Err _ =>
    st = replied (errorHeaders (<["Content-Type" := "application/json"]> h))
                 StatusBadRequest (w ++ [Text ("Invalid JSON" +:+ LF)]) c
  | Ok data =>
    let call := completionCall (Api.Config_OpenAIAPIKey cfg)
                  (requestData_Title data) (requestData_Description data) in
    Calls st = c ++ [call]
    ∧ completion_outcome W st w call
    ∧ (status_of st = 200 ∨ status_of st = 500)
  end.
Proof.
  cbv zeta. unfold exec, Api.handleTransform. hsimpl.
  destruct (Decode_requestData W _) as [data | e]; hsimpl; [| done].
  unfold completion_outcome, Api.transformContent. hsimpl.
  destruct (RoundTripper W _) as [e | code [b | e]]; hsimpl.
  - split; [done |]. split; [intros ?? [=] | by right].
  - case_decide as Hc; hsimpl.
    + split; [done |]. split; [| by right]. intros ?? [= <- <-].
      split; [done |]. intros ???? ->. by destruct Hc.
    + destruct (Decode_OpenAIResponse W b) as [resp | e] eqn:Hd; hsimpl.
      * destruct (OpenAIResponse_Choices resp) as [| ch rest] eqn:Hch; hsimpl.
        -- split; [done |]. split; [| by right]. intros ?? [= <- <-].
           split; [intros Hne; by destruct Hne |].
           intros ???? _ [= <-]. rewrite Hd. intros [= <-]. by rewrite Hch.
        -- split; [done |]. split; [| by left]. intros ?? [= <- <-].
           split; [intros Hne; by destruct Hne |].
           intros ???? _ [= <-]. rewrite Hd. intros [= <-]. rewrite Hch.
           by intros [= <- <-].
      * split; [done |]. split; [| by right]. intros ?? [= <- <-].
        split; [intros Hne; by destruct Hne |].
        intros ???? _ [= <-]. by rewrite Hd.
  - case_decide as Hc; hsimpl.
    + split; [done |]. split; [| by right]. intros ?? [= <- <-].
      split; [done |]. intros ???? ->. by destruct Hc.
    + split; [done |]. split; [| by right]. intros ?? [= <- <-].
      split; [intros Hne; by destruct Hne |]. intros ???? _ [=].
Qed.

End TransformHandlers.

(** ** Routing *)

Lemma api_route_Matched p ms hd r :
  Route_Match {| Route_matchers := [Path p; Methods ms]; Route_handler := hd |} r = Matched
  ↔ Request_Path r = p ∧ Request_Method r ∈ ms.
Proof.
  unfold Route_Match. cbn.
  destruct (bool_decide_reflect (Request_Path r = p)) as [Hp | Hp];
    destruct (bool_decide_reflect (Request_Method r ∈ ms)) as [Hm | Hm];
    cbn; split; try done; by intros [??].
Qed.

Lemma prefix_route_Matched p hd r :
  Route_Match {| Route_matchers := [PathPrefix p]; Route_handler := hd |} r = Matched
  ↔ String.prefix p (Request_Path r) = true.
Proof.
  unfold Route_Match. cbn. destruct (String.prefix p (Request_Path r)); cbn; split; done.
Qed.

(** The first route that matches wins, whatever mismatches came before. *)
Lemma Router_Match_first pre rt post r mismatch :
  Forall (λ rt', Route_Match rt' r ≠ Matched) pre →
  Route_Match rt r = Matched →
  Router_Match (pre ++ rt :: post) r mismatch = Found (Route_handler rt).
Proof.
  intros Hpre Hrt. revert mismatch.
  induction Hpre as [| rt' pre Hrt' _ IH]; intros mismatch; simpl.
  - by rewrite Hrt.
  - destruct (Route_Match rt' r); [done | apply IH | apply IH].
Qed.

(** ** Which paths are in canonical form *)

Lemma split_nonempty sep s : split sep s ≠ [].
Proof.
  destruct s as [| a s]; [done |]. cbn [split].
  destruct (Ascii.eqb a sep); [done |]. by destruct (split sep s).
Qed.

Lemma concat_cons (sep x : string) (xs : list string) :
  xs ≠ [] → String.concat sep (x :: xs) = x +:+ sep +:+ String.concat sep xs.
Proof. by destruct xs. Qed.

Lemma concat_split (s : string) : String.concat "/" (split slash s) = s.
Proof.
  induction s as [| a s IH]; [done |]. cbn [split].
  destruct (Ascii.eqb a slash) eqn:Ha.
  - apply Ascii.eqb_eq in Ha as ->.
    rewrite concat_cons by apply split_nonempty. by rewrite IH.
  - destruct (split slash s) as [| x xs] eqn:Hs; [by apply split_nonempty in Hs |].
    destruct xs as [| y ys].
    + cbn in IH |- *. by rewrite IH.
    + rewrite concat_cons in IH |- * by done.
      change (String a x +:+ ?t) with (String a (x +:+ t)). by rewrite IH.
Qed.

Lemma split_free sep s : Forall (λ e, free_of sep e = true) (split sep s).
Proof.
  induction s as [| a s IH]; [by repeat constructor |]. cbn [split].
  destruct (Ascii.eqb a sep) eqn:Ha; [by constructor |].
  destruct (split sep s) as [| x xs]; [by repeat constructor; cbn; rewrite Ha |].
  inversion IH as [| ?? Hx Hxs]; subst. constructor; [| done].
  cbn. by rewrite Ha, Hx.
Qed.

Lemma split_free_one sep s : free_of sep s = true → split sep s = [s].
Proof.
  induction s as [| a s IH]; [done |]. cbn. intros [Ha Hs]%andb_prop.
  apply negb_true_iff in Ha. rewrite Ha, (IH Hs). done.
Qed.

Lemma split_concat (K : list string) :
  K ≠ [] → Forall (λ e, free_of slash e = true) K →
  split slash (String.concat "/" K) = K.
Proof.
  induction K as [| x K IH]; [done |]. intros _ HK.
  inversion HK as [| ?? Hx HK']; subst.
  destruct K as [| y K]; [by apply split_free_one |].
  rewrite concat_cons by done.
  change ("/" +:+ ?t) with (String slash t).
  rewrite split_app_hit by done. by rewrite IH.
Qed.

Lemma real_element_spec e : real_element e = true ↔ real e.
Proof.
  unfold real_element, real. rewrite negb_true_iff, bool_decide_eq_false. tauto.
Qed.

Lemma Forall_removelast {A} (P : A → Prop) (l : list A) :
  Forall P l → Forall P (removelast l).
Proof.
  induction 1 as [| x l Hx Hl IH]; [constructor |].
  destruct l; [constructor |]. cbn. by constructor.
Qed.

Lemma clean_elements_real kept elems :
  Forall real kept → Forall real (clean_elements kept elems).
Proof.
  revert kept. induction elems as [| e elems IH]; intros kept Hkept; [done |].
  cbn [clean_elements]. case_decide as H1; [by apply IH |].
  case_decide as H2; [by apply IH, Forall_removelast |].
  apply IH, Forall_app. split; [done |]. repeat constructor; unfold real; tauto.
Qed.

Lemma clean_elements_free kept elems :
  Forall (λ e, free_of slash e = true) kept →
  Forall (λ e, free_of slash e = true) elems →
  Forall (λ e, free_of slash e = true) (clean_elements kept elems).
Proof.
  revert kept. induction elems as [| e elems IH]; intros kept Hkept Hel; [done |].
  inversion Hel as [| ?? He Helems]; subst.
  cbn [clean_elements]. case_decide as Hskip; [by apply IH |].
  case_decide as Hup; [by apply IH; [apply Forall_removelast |] |].
  apply IH; [| done]. apply Forall_app. split; [done |]. by repeat constructor.
Qed.

Lemma clean_elements_app kept R elems :
  Forall real R → clean_elements kept (R ++ elems) = clean_elements (kept ++ R) elems.
Proof.
  intros HR. revert kept. induction HR as [| e R (He1 & He2 & He3) _ IH]; intros kept.
  - by rewrite app_nil_r.
  - cbn [app clean_elements].
    rewrite decide_False by tauto. rewrite decide_False by done.
    rewrite IH. by rewrite <- app_assoc.
Qed.

Lemma canonical_elements_inv elems :
  elems ≠ [] → canonical_elements elems = true →
  ∃ R l, elems = R ++ [l] ∧ Forall real R ∧ (real l ∨ l = "").
Proof.
  induction elems as [| e elems IH]; [done |]. intros _ Hcan.
  destruct elems as [| e' elems].
  - exists [], e. split; [done |]. split; [constructor |].
    cbn in Hcan. apply orb_prop in Hcan as [H | H].
    + left. by apply real_element_spec.
    + right. by apply bool_decide_eq_true in H.
  - change (real_element e && canonical_elements (e' :: elems) = true) in Hcan.
    apply andb_prop in Hcan as [He Hrest].
    destruct (IH ltac:(done) Hrest) as (R & l & Heq & HR & Hl).
    exists (e :: R), l. rewrite Heq. split; [done |].
    split; [| done]. constructor; [by apply real_element_spec | done].
Qed.

Lemma canonical_elements_intro R l :
  Forall real R → real l ∨ l = "" → canonical_elements (R ++ [l]) = true.
Proof.
  intros HR Hl. induction HR as [| e R He _ IH].
  - cbn. destruct Hl as [Hl | ->]; [| by rewrite orb_true_r].
    apply real_element_spec in Hl. by rewrite Hl.
  - change ((e :: R) ++ [l]) with (e :: (R ++ [l])).
    destruct (R ++ [l]) as [| x xs] eqn:Hx; [by destruct R |].
    change (real_element e && canonical_elements (x :: xs) = true).
    apply real_element_spec in He. by rewrite He, IH.
Qed.

Lemma ends_with_slash_app a b :
  b ≠ "" → ends_with_slash (a +:+ b) = ends_with_slash b.
Proof.
  intros Hb. induction a as [| x a IH]; [done |].
  change (String x a +:+ b) with (String x (a +:+ b)).
  cbn [ends_with_slash]. destruct (a +:+ b) eqn:Hab; [| done].
  destruct a; [| done]. by destruct Hb.
Qed.

Lemma ends_with_slash_free l : free_of slash l = true → ends_with_slash l = false.
Proof.
  induction l as [| x l IH]; [done |]. cbn. intros [Hx Hl]%andb_prop.
  apply negb_true_iff in Hx. destruct l; [done |]. by apply IH.
Qed.

Lemma concat_snoc (sep : string) (R : list string) (l : string) :
  R ≠ [] → String.concat sep (R ++ [l]) = String.concat sep R +:+ sep +:+ l.
Proof.
  induction R as [| x R IH]; [done |]. intros _.
  destruct R as [| y R]; [done |].
  change ((x :: y :: R) ++ [l]) with (x :: ((y :: R) ++ [l])).
  rewrite concat_cons by (by destruct R).
  rewrite IH by done. rewrite (concat_cons sep x (y :: R)) by done.
  by rewrite !app_assoc_string.
Qed.

Lemma concat_real_nonempty (x : string) (xs : list string) :
  x ≠ "" → String.concat "/" (x :: xs) ≠ "".
Proof. destruct x; [done |]. by destruct xs. Qed.

(** A path in canonical form starts with a slash. *)
Lemma cleanPath_rooted (p : string) : cleanPath p = p → String.prefix "/" p = true.
Proof.
  unfold cleanPath. case_decide as Hempty; [by intros <- |]. cbv zeta.
  destruct (String.prefix "/" p) eqn:Hslash; [done |].
  unfold path_Clean. destruct p as [| a p]; [done |].
  destruct (_ && _); intros [= <- _]; cbn in Hslash; by destruct p.
Qed.

Lemma cleanPath_slash (rest : string) :
  cleanPath (String slash rest)
  = if ends_with_slash (String slash rest)
       && negb (bool_decide
                  ("/" +:+ String.concat "/" (clean_elements [] (split slash rest)) = "/"))
    then ("/" +:+ String.concat "/" (clean_elements [] (split slash rest))) +:+ "/"
    else "/" +:+ String.concat "/" (clean_elements [] (split slash rest)).
Proof.
  unfold cleanPath. rewrite decide_False by done. cbv zeta.
  assert (String.prefix "/" (String slash rest) = true) as -> by (by destruct rest).
  unfold path_Clean.
  assert (clean_elements [] (split slash (String slash rest))
          = clean_elements [] (split slash rest)) as ->; [| done].
  cbn [split]. rewrite Ascii.eqb_refl. cbn [clean_elements].
  rewrite decide_True by (by left). done.
Qed.

Lemma slash_concat_is_root (K : list string) :
  Forall real K → "/" +:+ String.concat "/" K = "/" → K = [].
Proof.
  intros HK Heq. destruct K as [| x K]; [done |].
  inversion HK as [| ?? (Hx & _) _]; subst.
  pose proof (concat_real_nonempty x K Hx) as Hne.
  destruct (String.concat "/" (x :: K)); [done | discriminate Heq].
Qed.

(** The paths in canonical form are the paths that start with a slash
    and have no empty element, except the last one, and no element [.] or
    [..]. *)
Lemma cleanPath_canonical (p : string) : cleanPath p = p ↔ canonical_path p = true.
Proof.
  split.
  - intros Hclean. pose proof (cleanPath_rooted p Hclean) as Hslash.
    destruct p as [| c rest]; [done |].
    assert (c = slash) as ->.
    { apply prefix_app_inv in Hslash as [t Ht].
      change ("/" +:+ t) with (String slash t) in Ht. by injection Ht. }
    unfold canonical_path. rewrite Ascii.eqb_refl. cbn [andb].
    rewrite cleanPath_slash in Hclean.
    pose proof (clean_elements_real [] (split slash rest) (List.Forall_nil _)) as Hreal.
    pose proof (clean_elements_free [] (split slash rest) (List.Forall_nil _)
                  (split_free slash rest)) as Hfree.
    remember (clean_elements [] (split slash rest)) as K eqn:HK0. clear HK0.
    destruct (ends_with_slash (String slash rest) && _) eqn:Htrail.
    + apply andb_prop in Htrail as [_ Hroot].
      apply negb_true_iff, bool_decide_eq_false in Hroot.
      assert (K ≠ []) as HK by (by intros HK; apply Hroot; rewrite HK).
      assert (rest = String.concat "/" (K ++ [""])) as Hrest.
      { rewrite concat_snoc by done. rewrite app_assoc_string in Hclean.
        by injection Hclean as <-. }
      rewrite Hrest, split_concat.
      * apply canonical_elements_intro; [done | by right].
      * by destruct K.
      * apply Forall_app. split; [done |]. by repeat constructor.
    + assert (rest = String.concat "/" K) as Hrest by (by injection Hclean as <-).
      destruct K as [| x K'] eqn:HK.
      * cbn in Hrest. by rewrite Hrest.
      * rewrite Hrest, split_concat by done.
        destruct (exists_last (l := x :: K') ltac:(done)) as (R & l & Heq).
        rewrite Heq in Hreal |- *. apply Forall_app in Hreal as [HR Hl].
        apply canonical_elements_intro; [done |]. left. by inversion Hl.
  - destruct p as [| c rest]; [done |]. unfold canonical_path.
    intros [Hc Hcan]%andb_prop. apply Ascii.eqb_eq in Hc as ->.
    destruct (canonical_elements_inv _ (split_nonempty slash rest) Hcan)
      as (R & l & Hsplit & HR & Hl).
    pose proof (concat_split rest) as Hrest. rewrite Hsplit in Hrest.
    pose proof (split_free slash rest) as Hfree. rewrite Hsplit in Hfree.
    apply Forall_app in Hfree as [_ Hfree]. inversion Hfree as [| ?? Hfl _]; subst.
    rewrite cleanPath_slash, Hsplit, clean_elements_app by done.
    cbn [app clean_elements].
    destruct Hl as [(Hl1 & Hl2 & Hl3) | ->].
    + rewrite decide_False by tauto. rewrite decide_False by done.
      cbn [clean_elements].
      assert (ends_with_slash (String slash (String.concat "/" (R ++ [l]))) = false) as ->.
      { destruct R as [| x R].
        - cbn [app String.concat]. change (String slash l) with ("/" +:+ l).
          rewrite ends_with_slash_app by done. by apply ends_with_slash_free.
        - rewrite concat_snoc, <- app_assoc_string by done.
          change (String slash (?a +:+ l)) with (String slash a +:+ l).
          rewrite ends_with_slash_app by done. by apply ends_with_slash_free. }
      done.
    + rewrite decide_True by (by left). cbn [clean_elements].
      destruct R as [| x R].
      * cbn. done.
      * rewrite concat_snoc by done. rewrite append_empty_r.
        assert (ends_with_slash (String slash (String.concat "/" (x :: R) +:+ "/")) = true)
          as ->.
        { change (String slash (?a +:+ "/")) with ((String slash a) +:+ "/").
          by rewrite ends_with_slash_app. }
        rewrite bool_decide_eq_false_2.
        -- cbn [andb negb]. by rewrite app_assoc_string.
        -- intros Heq%slash_concat_is_root; done.
Qed.

Lemma cleanPath_not_canonical (p : string) :
  canonical_path p = false → cleanPath p ≠ p.
Proof. intros Hcan Hclean%cleanPath_canonical. congruence. Qed.

(** The router on a path in canonical form, and on any other path. *)
Lemma Router_ServeHTTP_clean W rt r :
  cleanPath (Request_Path r) = Request_Path r →
  Router_ServeHTTP W rt r
  = match Router_Match (Router_routes rt) r false with
    | Found h => foldr (λ mw next, mw next) h (Router_middlewares rt) r
    | ErrMethodMismatch => WriteHeader StatusMethodNotAllowed
    | ErrNotFound => http_Error "404 page not found" StatusNotFound
    end.
Proof.
  intros Hclean. unfold Router_ServeHTTP. cbv zeta.
  rewrite decide_False; [done | by intros Hne].
Qed.

Lemma Router_ServeHTTP_redirect W rt r :
  cleanPath (Request_Path r) ≠ Request_Path r →
  serve (Router_ServeHTTP W rt) r
  = redirect (URL_String W r (cleanPath (Request_Path r))).
Proof.
  intros Hne. unfold serve, Router_ServeHTTP. cbv zeta.
  rewrite decide_True by done. rewrite init_fresh. by hsimpl.
Qed.

Section MainRouter.

Variables (W : World) (config : Main.Config).

(** A request that is none of the four API routes, or that has a method
    none of them accepts, goes to the static files, behind the CORS
    middleware. *)
Lemma Main_router_fallback r :
  Main_defined_route r = false →
  cleanPath (Request_Path r) = Request_Path r →
  Router_ServeHTTP W (Main.router W config) r
  = Main.corsMiddleware (Main.staticFiles W) r.
Proof.
  intros Hnone Hclean. pose proof (cleanPath_rooted _ Hclean) as Hslash.
  unfold Main_defined_route in Hnone.
  repeat (apply orb_false_elim in Hnone as [Hnone ?]).
  repeat match goal with
         | H : bool_decide _ = false |- _ => apply bool_decide_eq_false in H
         end.
  rewrite Router_ServeHTTP_clean by done.
  assert (Router_Match (Router_routes (Main.router W config)) r false
          = Found (Main.staticFiles W)) as ->; [| done].
  apply (Router_Match_first
           [_; _; _; _]
           {| Route_matchers := [PathPrefix "/"]; Route_handler := Main.staticFiles W |}
           []).
  - repeat constructor; rewrite api_route_Matched, list_elem_of_singleton; tauto.
  - by apply prefix_route_Matched.
Qed.

(** A request to one of the four API routes reaches its handler, behind
    the CORS middleware. *)
Tactic Notation "route_tac" uconstr(pre) :=
  intros Hm Hp; rewrite Router_ServeHTTP_clean by (by rewrite Hp);
  match goal with
  | |- match ?m with _ => _ end = Main.corsMiddleware ?hd _ =>
    assert (m = Found hd) as ->; [| done]
  end;
  unfold Main.router; cbn [Router_routes];
  etrans; [apply (Router_Match_first pre _ _) | reflexivity];
  [ repeat constructor; rewrite api_route_Matched, Hp; by intros [? _]
  | apply api_route_Matched; rewrite Hm, Hp; split; [done | by apply list_elem_of_singleton] ].

Lemma Main_router_headlines r :
  Request_Method r = "GET" → Request_Path r = "/api/news/headlines" →
  Router_ServeHTTP W (Main.router W config) r
  = Main.corsMiddleware (Main.getTopHeadlines W config) r.
Proof. route_tac (@nil Route). Qed.

Lemma Main_router_search r :
  Request_Method r = "GET" → Request_Path r = "/api/news/search" →
  Router_ServeHTTP W (Main.router W config) r
  = Main.corsMiddleware (Main.searchNews W config) r.
Proof. route_tac [_ : Route]. Qed.

Lemma Main_router_transform r :
  Request_Method r = "POST" → Request_Path r = "/api/transform" →
  Router_ServeHTTP W (Main.router W config) r
  = Main.corsMiddleware (Main.transformNews W config) r.
Proof. route_tac [_ : Route; _]. Qed.

Lemma Main_router_health r :
  Request_Method r = "GET" → Request_Path r = "/health" →
  Router_ServeHTTP W (Main.router W config) r
  = Main.corsMiddleware (Main.healthCheck W) r.
Proof. route_tac [_ : Route; _; _]. Qed.

(** The middleware on a fresh writer: the preflight answer for OPTIONS,
    the next handler on top of the CORS headers otherwise. *)
Lemma Main_corsMiddleware_run next r :
  exec (Main.corsMiddleware next r) init
  = if decide (Request_Method r = "OPTIONS") then preflight
    else exec (next r) (fresh corsHeaders [] []).
Proof.
  unfold exec, Main.corsMiddleware. rewrite init_fresh. hsimpl.
  case_decide; by hsimpl.
Qed.

End MainRouter.

(** ** The handlers as functions of the upstream answer *)

Section Summaries.

Variable W : World.

Lemma Main_fetchNews_eq cfg endpoint h w c :
  Main.fetchNews W cfg endpoint (fresh h w c)
  = (news_fetch_result W
       (RoundTripper W (GET ("https://newsapi.org/v2" +:+ endpoint +:+ "&apiKey="
                             +:+ Main.Config_NewsAPIKey cfg))),
     fresh h w (c ++ [GET ("https://newsapi.org/v2" +:+ endpoint +:+ "&apiKey="
                           +:+ Main.Config_NewsAPIKey cfg)])).
Proof.
  unfold Main.fetchNews, news_fetch_result. hsimpl.
  destruct (RoundTripper W _) as [e | code [b | e]]; hsimpl; [done | | done].
  case_decide; hsimpl; [done |]. by destruct (Unmarshal_NewsResponse W b).
Qed.

Lemma Api_fetchNews_eq cfg endpoint h w c :
  Api.fetchNews W endpoint cfg (fresh h w c)
  = (news_fetch_result W
       (RoundTripper W (GET ("https://newsapi.org/v2" +:+ endpoint +:+ "&apiKey="
                             +:+ Api.Config_NewsAPIKey cfg))),
     fresh h w (c ++ [GET ("https://newsapi.org/v2" +:+ endpoint +:+ "&apiKey="
                           +:+ Api.Config_NewsAPIKey cfg)])).
Proof.
  unfold Api.fetchNews, news_fetch_result. hsimpl.
  destruct (RoundTripper W _) as [e | code [b | e]]; hsimpl; [done | | done].
  case_decide; hsimpl; [done |]. by destruct (Unmarshal_NewsResponse W b).
Qed.

Lemma Main_getTopHeadlines_eq cfg r h w c :
  exec (Main.getTopHeadlines W cfg r) (fresh h w c)
  = news_reply "Error fetching news: " (<["Content-Type" := "application/json"]> h) w
      (c ++ [GET (headlinesURL (Values_Get (Request_Query r) "category")
                               (Main.Config_NewsAPIKey cfg))])
      (news_fetch_result W
         (RoundTripper W
            (GET (headlinesURL (Values_Get (Request_Query r) "category")
                               (Main.Config_NewsAPIKey cfg))))).
Proof.
  cbv zeta. unfold exec, Main.getTopHeadlines, headlinesURL. hsimpl.
  rewrite Main_fetchNews_eq. hsimpl.
  by destruct (news_fetch_result W _); hsimpl.
Qed.

Lemma Api_handleHeadlines_eq cfg r h w c :
  exec (Api.handleHeadlines W r cfg) (fresh h w c)
  = news_reply "Error fetching news: " (<["Content-Type" := "application/json"]> h) w
      (c ++ [GET (headlinesURL (Values_Get (Request_Query r) "category")
                               (Api.Config_NewsAPIKey cfg))])
      (news_fetch_result W
         (RoundTripper W
            (GET (headlinesURL (Values_Get (Request_Query r) "category")
                               (Api.Config_NewsAPIKey cfg))))).
Proof.
  cbv zeta. unfold exec, Api.handleHeadlines, headlinesURL. hsimpl.
  rewrite Api_fetchNews_eq. hsimpl.
  by destruct (news_fetch_result W _); hsimpl.
Qed.

Lemma Main_searchNews_eq cfg r h w c :
  Values_Get (Request_Query r) "q" ≠ "" →
  exec (Main.searchNews W cfg r) (fresh h w c)
  = news_reply "Error searching news: " (<["Content-Type" := "application/json"]> h) w
      (c ++ [GET (searchURL (Values_Get (Request_Query r) "q") (Main.Config_NewsAPIKey cfg))])
      (news_fetch_result W
         (RoundTripper W
            (GET (searchURL (Values_Get (Request_Query r) "q") (Main.Config_NewsAPIKey cfg))))).
Proof.
  intros Hq. cbv zeta. unfold exec, Main.searchNews. hsimpl.
  case_decide; [done |]. hsimpl. rewrite Main_fetchNews_eq. hsimpl.
  change ("https://newsapi.org/v2" +:+ ("/everything?q=" +:+ ?q) +:+ "&apiKey=" +:+ ?k)
    with (searchURL q k).
  by destruct (news_fetch_result W _); hsimpl.
Qed.

Lemma Api_handleSearch_eq cfg r h w c :
  Values_Get (Request_Query r) "q" ≠ "" →
  exec (Api.handleSearch W r cfg) (fresh h w c)
  = news_reply "Error searching news: " (<["Content-Type" := "application/json"]> h) w
      (c ++ [GET (searchURL (Values_Get (Request_Query r) "q") (Api.Config_NewsAPIKey cfg))])
      (news_fetch_result W
         (RoundTripper W
            (GET (searchURL (Values_Get (Request_Query r) "q") (Api.Config_NewsAPIKey cfg))))).
Proof.
  intros Hq. cbv zeta. unfold exec, Api.handleSearch. hsimpl.
  case_decide; [done |]. hsimpl. rewrite Api_fetchNews_eq. hsimpl.
  change ("https://newsapi.org/v2" +:+ ("/everything?q=" +:+ ?q) +:+ "&apiKey=" +:+ ?k)
    with (searchURL q k).
  by destruct (news_fetch_result W _); hsimpl.
Qed.

Lemma Main_transformNews_eq cfg r data h w c :
  Request_Method r = "POST" →
  Decode_requestData W (Request_Body r) = Ok data →
  exec (Main.transformNews W cfg r) (fresh h w c)
  = transform_reply id (<["Content-Type" := "application/json"]> h) w
      (c ++ [completionCall (Main.Config_OpenAIAPIKey cfg)
                            (requestData_Title data) (requestData_Description data)])
      (completion_result W
         (RoundTripper W
            (completionCall (Main.Config_OpenAIAPIKey cfg)
                            (requestData_Title data) (requestData_Description data)))).
Proof.
  intros Hm Hdata. cbv zeta. unfold exec, Main.transformNews, completion_result. hsimpl.
  case_decide; [done |]. rewrite Hdata. hsimpl.
  destruct (RoundTripper W _) as [e | code [b | e]]; hsimpl; [done | |].
  - case_decide; hsimpl; [done |].
    destruct (Decode_OpenAIResponse W b) as [resp | e]; hsimpl; [| done].
    by destruct (OpenAIResponse_Choices resp); hsimpl.
  - by case_decide; hsimpl.
Qed.

Lemma Api_handleTransform_eq cfg r data h w c :
  Decode_requestData W (Request_Body r) = Ok data →
  exec (Api.handleTransform W r cfg) (fresh h w c)
  = transform_reply (λ _, "Error transforming content")
      (<["Content-Type" := "application/json"]> h) w
      (c ++ [completionCall (Api.Config_OpenAIAPIKey cfg)
                            (requestData_Title data) (requestData_Description data)])
      (completion_result W
         (RoundTripper W
            (completionCall (Api.Config_OpenAIAPIKey cfg)
                            (requestData_Title data) (requestData_Description data)))).
Proof.
  intros Hdata. cbv zeta.
  unfold exec, Api.handleTransform, Api.transformContent, completion_result. hsimpl.
  rewrite Hdata. hsimpl.
  destruct (RoundTripper W _) as [e | code [b | e]]; hsimpl; [done | |].
  - case_decide; hsimpl; [done |].
    destruct (Decode_OpenAIResponse W b) as [resp | e]; hsimpl; [| done].
    by destruct (OpenAIResponse_Choices resp); hsimpl.
  - by case_decide; hsimpl.
Qed.

(** Without a decodable body, and in [main.go] without a POST, the
    transform handlers stop before the upstream. *)
Lemma Main_transformNews_not_post cfg r h w c :
  Request_Method r ≠ "POST" →
  exec (Main.transformNews W cfg r) (fresh h w c)
  = replied (errorHeaders (<["Content-Type" := "application/json"]> h))
            StatusMethodNotAllowed (w ++ [Text ("Method not allowed" +:+ LF)]) c.
Proof.
  intros Hm. unfold exec, Main.transformNews. hsimpl. case_decide; [by hsimpl | done].
Qed.

Lemma Main_transformNews_invalid cfg r e h w c :
  Request_Method r = "POST" →
  Decode_requestData W (Request_Body r) = Err e →
  exec (Main.transformNews W cfg r) (fresh h w c)
  = replied (errorHeaders (<["Content-Type" := "application/json"]> h))
            StatusBadRequest (w ++ [Text ("Invalid JSON" +:+ LF)]) c.
Proof.
  intros Hm He. unfold exec, Main.transformNews. hsimpl.
  case_decide; [done |]. rewrite He. by hsimpl.
Qed.

Lemma Api_handleTransform_invalid cfg r e h w c :
  Decode_requestData W (Request_Body r) = Err e →
  exec (Api.handleTransform W r cfg) (fresh h w c)
  = replied (errorHeaders (<["Content-Type" := "application/json"]> h))
            StatusBadRequest (w ++ [Text ("Invalid JSON" +:+ LF)]) c.
Proof.
  intros He. unfold exec, Api.handleTransform. hsimpl. rewrite He. by hsimpl.
Qed.

End Summaries.

Ltac in_list_tac :=
  unfold transform_error_texts;
  repeat first [ apply list_elem_of_here | apply list_elem_of_further ].

Lemma Calls_news_reply what h w c res : Calls (news_reply what h w c res) = c.
Proof. by destruct res. Qed.

Lemma Calls_transform_reply say h w c res : Calls (transform_reply say h w c res) = c.
Proof. by destruct res. Qed.

(** * The claims *)

(** C1: a search request whose [q] parameter is absent or empty is answered
    with status 400, by the search handler of either entry point, and the
    handler makes no upstream call: the trace of calls is the one it
    started with. *)
Theorem search_without_query_is_rejected
  (W : World) (cfgM : Main.Config) (cfgA : Api.Config) (r : Request)
  (h : gmap string string) (w : list Chunk) (c : list Call) :
  Values_Get (Request_Query r) "q" = "" →
  let stM := exec (Main.searchNews W cfgM r) (fresh h w c) in
  let stA := exec (Api.handleSearch W r cfgA) (fresh h w c) in
  (status_of stM = 400 ∧ Calls stM = c) ∧ (status_of stA = 400 ∧ Calls stA = c).
Proof.
  intros Hq. cbv zeta.
  by rewrite Main_searchNews_no_query, Api_handleSearch_no_query.
Qed.

Lemma search_without_query_is_rejected_witness :
  let r := request "GET" "/api/news/search" (<["q" := [""]]> ∅) "" in
  (status_of (exec (Main.searchNews W0 mainConfig0 r) (fresh ∅ [] [])) = 400
   ∧ Calls (exec (Main.searchNews W0 mainConfig0 r) (fresh ∅ [] [])) = [])
  ∧ (status_of (exec (Api.handleSearch W0 r apiConfig0) (fresh ∅ [] [])) = 400
     ∧ Calls (exec (Api.handleSearch W0 r apiConfig0) (fresh ∅ [] [])) = []).
Proof.
  exact (search_without_query_is_rejected W0 mainConfig0 apiConfig0
           (request "GET" "/api/news/search" (<["q" := [""]]> ∅) "") ∅ [] []
           eq_refl).
Defined.

Lemma contains_middle (pre x post : string) : contains x (pre +:+ x +:+ post).
Proof. by exists pre, post. Qed.

Lemma contains_end (pre x : string) : contains x (pre +:+ x).
Proof. exists pre, "". by rewrite append_empty_r. Qed.

Lemma completionCall_user_message key title description :
  user_message_with (completionCall key title description) title description.
Proof.
  unfold completionCall, openAIRequest, user_message_with. cbn.
  eexists. split; [apply elem_of_cons; right; apply elem_of_cons; by left |].
  cbn. split; [done |]. split.
  - apply contains_middle.
  - rewrite <- app_assoc_string, <- app_assoc_string. apply contains_end.
Qed.

(** C2: for a transform request whose body decodes to title [T] and
    description [D], the completion request that either transform handler
    sends upstream contains a user message in which [T] and [D] occur
    verbatim; and when the upstream answers that request with status 200
    and exactly one choice of text [X], the handler replies with status
    200 and the JSON object whose only field, [transformedContent], is
    [X]. *)
Theorem transform_sends_title_and_description_and_returns_choice
  (W : World) (cfgM : Main.Config) (cfgA : Api.Config) (r : Request)
  (T D : string) (h : gmap string string) (w : list Chunk) (c : list Call) :
  Request_Method r = "POST" →
  Decode_requestData W (Request_Body r)
  = Ok {| requestData_Title := T; requestData_Description := D |} →
  let callM := completionCall (Main.Config_OpenAIAPIKey cfgM) T D in
  let callA := completionCall (Api.Config_OpenAIAPIKey cfgA) T D in
  let stM := exec (Main.transformNews W cfgM r) (fresh h w c) in
  let stA := exec (Api.handleTransform W r cfgA) (fresh h w c) in
  (Calls stM = c ++ [callM] ∧ user_message_with callM T D
   ∧ ∀ b role X,
       RoundTripper W callM = Response 200 (ReadOK b) →
       Decode_OpenAIResponse W b = Ok (one_choice role X) →
       status_of stM = 200
       ∧ body_of stM = w ++ [JSON (MapPayload {[ "transformedContent" := X ]})])
  ∧ (Calls stA = c ++ [callA] ∧ user_message_with callA T D
     ∧ ∀ b role X,
         RoundTripper W callA = Response 200 (ReadOK b) →
         Decode_OpenAIResponse W b = Ok (one_choice role X) →
         status_of stA = 200
         ∧ body_of stA = w ++ [JSON (MapPayload {[ "transformedContent" := X ]})]).
Proof.
  intros Hm Hbody callM callA stM stA.
  pose proof (Main_transformNews_run W cfgM r h w c) as HM.
  pose proof (Api_handleTransform_run W cfgA r h w c) as HA.
  cbv zeta in HM, HA. rewrite Hbody in HM, HA.
  destruct (decide (Request_Method r ≠ "POST")) as [Hne | _]; [done |].
  cbn [requestData_Title requestData_Description] in HM, HA.
  destruct HM as (HcM & HoM & _), HA as (HcA & HoA & _).
  split; (split; [done |]; split; [apply completionCall_user_message |]);
    intros b role X Hup Hdec.
  - destruct (HoM _ _ Hup) as [_ Hok].
    by apply (Hok b (one_choice role X) _ [] eq_refl eq_refl Hdec eq_refl).
  - destruct (HoA _ _ Hup) as [_ Hok].
    by apply (Hok b (one_choice role X) _ [] eq_refl eq_refl Hdec eq_refl).
Qed.

Lemma transform_sends_title_and_description_and_returns_choice_witness :
  let r := request "POST" "/api/transform" ∅ (transformBody "T" "D") in
  let stM := exec (Main.transformNews W0 mainConfig0 r) (fresh ∅ [] []) in
  let stA := exec (Api.handleTransform W0 r apiConfig0) (fresh ∅ [] []) in
  (Calls stM = [completionCall "sk-openai" "T" "D"]
   ∧ user_message_with (completionCall "sk-openai" "T" "D") "T" "D"
   ∧ status_of stM = 200
   ∧ body_of stM = [JSON (MapPayload {[ "transformedContent" := "X" ]})])
  ∧ (Calls stA = [completionCall "sk-openai" "T" "D"]
     ∧ user_message_with (completionCall "sk-openai" "T" "D") "T" "D"
     ∧ status_of stA = 200
     ∧ body_of stA = [JSON (MapPayload {[ "transformedContent" := "X" ]})]).
Proof.
  cbv zeta.
  pose proof (transform_sends_title_and_description_and_returns_choice
                W0 mainConfig0 apiConfig0
                (request "POST" "/api/transform" ∅ (transformBody "T" "D"))
                "T" "D" ∅ [] [] eq_refl eq_refl)
    as [(HcM & HuM & HrM) (HcA & HuA & HrA)].
  destruct (HrM (completionBody "X") "assistant" "X" eq_refl eq_refl) as [HsM HbM].
  destruct (HrA (completionBody "X") "assistant" "X" eq_refl eq_refl) as [HsA HbA].
  split; (split; [assumption |]; split; [assumption |]; split; assumption).
Defined.





(** Every handler that talks to an upstream sends at most one call, and a
    non-200 answer to that call makes it reply 500. *)
Lemma upstream_failure_replies_500 (W : World) (hd : HandlerFunc) (r : Request)
  (h : gmap string string) (w : list Chunk) (c : list Call)
  (call : Call) (code : Z) (body : ReadResult) :
  news_handler W hd ∨ transform_handler W hd →
  Calls (exec (hd r) (fresh h w c)) = c ++ [call] →
  RoundTripper W call = Response code body →
  code ≠ 200 →
  status_of (exec (hd r) (fresh h w c)) = 500.
Proof.
  intros [Hnews | Htrans] Hcalls Hup Hcode.
  - destruct (news_handler_outcome W hd r h w c Hnews) as [[_ Hc] | (url & Hc & Hout)].
    + rewrite Hc in Hcalls. by apply snoc_neq in Hcalls.
    + rewrite Hc in Hcalls. apply snoc_inj in Hcalls as <-.
      by apply (Hout _ _ Hup).
  - destruct Htrans as [cfg | cfg].
    + pose proof (Main_transformNews_run W cfg r h w c) as Hrun. cbv zeta in Hrun.
      case_decide; [rewrite Hrun, Calls_replied in Hcalls; by apply snoc_neq in Hcalls |].
      destruct (Decode_requestData W _);
        [| rewrite Hrun, Calls_replied in Hcalls; by apply snoc_neq in Hcalls].
      destruct Hrun as (Hc & Hout & _).
      rewrite Hc in Hcalls. apply snoc_inj in Hcalls as <-.
      by apply (Hout _ _ Hup).
    + pose proof (Api_handleTransform_run W cfg r h w c) as Hrun. cbv zeta in Hrun.
      destruct (Decode_requestData W _);
        [| rewrite Hrun, Calls_replied in Hcalls; by apply snoc_neq in Hcalls].
      destruct Hrun as (Hc & Hout & _).
      rewrite Hc in Hcalls. apply snoc_inj in Hcalls as <-.
      by apply (Hout _ _ Hup).
Qed.

(** C3, as the code has it: when the upstream (news or completion) answers
    the call of a handler with a status other than 200, the handler
    replies with status 500, a server error, whatever the upstream's
    status was; so the client never sees the upstream's status, except
    that the two coincide when the upstream itself answered 500. *)
Theorem upstream_failure_is_internal_server_error
  (W : World) (hd : HandlerFunc) (r : Request)
  (h : gmap string string) (w : list Chunk) (c : list Call)
  (call : Call) (code : Z) (body : ReadResult) :
  news_handler W hd ∨ transform_handler W hd →
  let st := exec (hd r) (fresh h w c) in
  Calls st = c ++ [call] →
  RoundTripper W call = Response code body →
  code ≠ 200 →
  status_of st = 500
  ∧ is_server_error (status_of st)
  ∧ (code ≠ 500 → status_of st ≠ code).
Proof.
  intros Hhd st Hcalls Hup Hcode.
  assert (status_of st = 500) as Hst by by eapply upstream_failure_replies_500.
  rewrite Hst. unfold is_server_error. split; [done |]. split; [lia | congruence].
Qed.

Lemma upstream_failure_is_internal_server_error_witness :
  let W := stubWorld env0 (upstreamStatus 429) in
  let st := exec (Main.searchNews W mainConfig0
                    (request "GET" "/api/news/search" (<["q" := ["oceania"]]> ∅) ""))
                 (fresh ∅ [] []) in
  status_of st = 500 ∧ is_server_error (status_of st) ∧ (429 ≠ 500 → status_of st ≠ 429).
Proof.
  exact (upstream_failure_is_internal_server_error
           (stubWorld env0 (upstreamStatus 429))
           (Main.searchNews (stubWorld env0 (upstreamStatus 429)) mainConfig0)
           (request "GET" "/api/news/search" (<["q" := ["oceania"]]> ∅) "")
           ∅ [] [] (GET (searchURL "oceania" "k-news")) 429 (ReadOK "")
           (or_introl (news_searchNews _ mainConfig0))
           eq_refl eq_refl ltac:(discriminate)).
Defined.

(** C3 as stated fails when the upstream itself answers 500: the status
    the client gets, 500, is the upstream's. *)
Lemma upstream_status_500_reaches_client :
  let W := stubWorld env0 (upstreamStatus 500) in
  let r := request "GET" "/api/news/headlines" ∅ "" in
  let st := exec (Main.getTopHeadlines W mainConfig0 r) (fresh ∅ [] []) in
  Calls st = [GET "https://newsapi.org/v2/top-headlines?country=us&apiKey=k-news"]
  ∧ RoundTripper W (GET "https://newsapi.org/v2/top-headlines?country=us&apiKey=k-news")
    = Response 500 (ReadOK "")
  ∧ 500 ≠ 200
  ∧ status_of st = 500
  ∧ ¬ (status_of st ≠ 500).
Proof.
  cbv zeta. split; [reflexivity |]. split; [reflexivity |].
  split; [discriminate |]. split; [reflexivity |]. intros H. by apply H.
Qed.

(** C8, as the code has it.  When the upstream answers the call of a news
    handler (headlines or search, of either entry point) with status 200
    and a body that decodes as a news result, the handler replies with
    status 200 and a JSON body that is the encoding of the decoded
    result: no field of it is read, changed or checked on the way, and
    the handler has made that one call.  The reply is built from the
    decoded result alone, not from the text the upstream sent. *)
Theorem news_result_is_decoded_and_encoded_again
  (W : World) (cfgM : Main.Config) (cfgA : Api.Config) (r : Request)
  (h : gmap string string) (w : list Chunk) (c : list Call)
  (b : string) (n : NewsResponse) :
  Unmarshal_NewsResponse W b = Ok n →
  let category := Values_Get (Request_Query r) "category" in
  let q := Values_Get (Request_Query r) "q" in
  let keyM := Main.Config_NewsAPIKey cfgM in
  let keyA := Api.Config_NewsAPIKey cfgA in
  let reply url :=
    replied (<["Content-Type" := "application/json"]> h) 200
            (w ++ [JSON (NewsPayload n)]) (c ++ [GET url]) in
  (RoundTripper W (GET (headlinesURL category keyM)) = Response 200 (ReadOK b) →
   exec (Main.getTopHeadlines W cfgM r) (fresh h w c) = reply (headlinesURL category keyM))
  ∧ (q ≠ "" → RoundTripper W (GET (searchURL q keyM)) = Response 200 (ReadOK b) →
     exec (Main.searchNews W cfgM r) (fresh h w c) = reply (searchURL q keyM))
  ∧ (RoundTripper W (GET (headlinesURL category keyA)) = Response 200 (ReadOK b) →
     exec (Api.handleHeadlines W r cfgA) (fresh h w c) = reply (headlinesURL category keyA))
  ∧ (q ≠ "" → RoundTripper W (GET (searchURL q keyA)) = Response 200 (ReadOK b) →
     exec (Api.handleSearch W r cfgA) (fresh h w c) = reply (searchURL q keyA)).
Proof.
  intros Hn. cbv zeta.
  assert (news_fetch_result W (Response 200 (ReadOK b)) = Ok n) as Hres.
  { unfold news_fetch_result. rewrite decide_False by (intros Hne; by apply Hne).
    by rewrite Hn. }
  split; [| split; [| split]].
  - intros Hup. by rewrite Main_getTopHeadlines_eq, Hup, Hres.
  - intros Hq Hup. by rewrite Main_searchNews_eq, Hup, Hres.
  - intros Hup. by rewrite Api_handleHeadlines_eq, Hup, Hres.
  - intros Hq Hup. by rewrite Api_handleSearch_eq, Hup, Hres.
Qed.

Lemma news_result_is_decoded_and_encoded_again_witness :
  let headlines := request "GET" "/api/news/headlines" (<["category" := ["science"]]> ∅) "" in
  let search := request "GET" "/api/news/search" (<["q" := ["war"]]> ∅) "" in
  exec (Api.handleHeadlines W0 headlines apiConfig0) (fresh corsHeaders [] [])
  = replied (<["Content-Type" := "application/json"]> corsHeaders) 200
            ([] ++ [JSON (NewsPayload news0)])
            ([] ++ [GET (categoryURL "science" "k-news")])
  ∧ exec (Main.searchNews W0 mainConfig0 search) (fresh corsHeaders [] [])
    = replied (<["Content-Type" := "application/json"]> corsHeaders) 200
              ([] ++ [JSON (NewsPayload news0)])
              ([] ++ [GET (searchURL "war" "k-news")]).
Proof.
  cbv zeta. split.
  - exact (proj1 (proj2 (proj2 (news_result_is_decoded_and_encoded_again W0
             mainConfig0 apiConfig0
             (request "GET" "/api/news/headlines" (<["category" := ["science"]]> ∅) "")
             corsHeaders [] [] newsBody news0 eq_refl))) eq_refl).
  - refine (proj1 (proj2 (news_result_is_decoded_and_encoded_again W0
             mainConfig0 apiConfig0
             (request "GET" "/api/news/search" (<["q" := ["war"]]> ∅) "")
             corsHeaders [] [] newsBody news0 eq_refl)) _ eq_refl).
    discriminate.
Defined.

(** C8 as stated fails: the reply is not the upstream's JSON as it came.
    Two upstream bodies that differ, one of them with a field outside the
    expected shape, decode to the same news result, and the handler gives
    the same reply to both: the field does not reach the client. *)
Lemma upstream_json_is_not_passed_verbatim :
  let W1 := stubWorld env0 (λ _, Response 200 (ReadOK newsBody_with_code)) in
  let W2 := stubWorld env0 (λ _, Response 200 (ReadOK newsBody)) in
  let r := request "GET" "/api/news/headlines" ∅ "" in
  newsBody_with_code ≠ newsBody
  ∧ json_Valid newsBody_with_code = true
  ∧ json_Valid newsBody = true
  ∧ Unmarshal_NewsResponse W1 newsBody_with_code = Ok news0
  ∧ Unmarshal_NewsResponse W2 newsBody = Ok news0
  ∧ status_of (exec (Main.getTopHeadlines W1 mainConfig0 r) (fresh ∅ [] [])) = 200
  ∧ exec (Main.getTopHeadlines W1 mainConfig0 r) (fresh ∅ [] [])
    = exec (Main.getTopHeadlines W2 mainConfig0 r) (fresh ∅ [] [])
  ∧ exec (Api.handleHeadlines W1 r apiConfig0) (fresh ∅ [] [])
    = exec (Api.handleHeadlines W2 r apiConfig0) (fresh ∅ [] []).
Proof.
  cbv zeta. split; [discriminate |]. repeat split; reflexivity.
Qed.

(** ** The health handlers *)

Lemma healthCheck_run (W : World) (r : Request) h w c :
  exec (Main.healthCheck W r) (fresh h w c)
  = replied (<["Content-Type" := "application/json"]> h) 200
            (w ++ [JSON (MapPayload
                     (<["time" := Now W]>
                        (<["service" := "Ministry of Truth Backend"]>
                           (<["status" := "healthy"]> ∅))))]) c.
Proof. unfold exec, Main.healthCheck. by hsimpl. Qed.

Lemma handleHealth_run (W : World) (r : Request) h w c :
  exec (Api.handleHealth W r) (fresh h w c)
  = replied (<["Content-Type" := "application/json"]> h) 200
            (w ++ [JSON (MapPayload
                     (<["time" := Now W]>
                        (<["service" := "Ministry of Truth Backend"]>
                           (<["status" := "healthy"]> ∅))))]) c.
Proof. unfold exec, Api.handleHealth. by hsimpl. Qed.

(** ** Reading the query of an upstream URL *)

(** A query that smuggles two parameters of its own into the upstream
    URL, whatever the server's key is. *)
Lemma search_query_injects_parameters key :
  ∃ rest,
    url_parameters (searchURL "war&apiKey=forged&sortBy=popularity" key)
    = ("q", "war") :: ("apiKey", "forged") :: ("sortBy", "popularity") :: rest.
Proof.
  unfold url_parameters.
  change (searchURL "war&apiKey=forged&sortBy=popularity" key)
    with ("https://newsapi.org/v2/everything"
          +:+ String (Ascii.ascii_of_nat 63)
                ("q=war" +:+ String (Ascii.ascii_of_nat 38)
                   ("apiKey=forged" +:+ String (Ascii.ascii_of_nat 38)
                      ("sortBy=popularity" +:+ String (Ascii.ascii_of_nat 38)
                         ("apiKey=" +:+ key))))).
  rewrite cut_app_hit by done. cbn [snd].
  rewrite !split_app_hit by done.
  eexists. reflexivity.
Qed.

(** C10: for a non-empty search query [q] the upstream URL is, character
    for character, ["https://newsapi.org/v2/everything?q=" ++ q ++
    "&apiKey=" ++ key], and likewise for a non-empty category; nothing is
    escaped, so that a query with [&] and [=] in it adds parameters of its
    own to the upstream request, one of them an [apiKey] that comes before
    the server's. *)
Theorem upstream_url_is_verbatim_concatenation :
  (∀ (W : World) (cfgM : Main.Config) (cfgA : Api.Config) (r : Request) h w c,
     let q := Values_Get (Request_Query r) "q" in
     q ≠ "" →
     Calls (exec (Main.searchNews W cfgM r) (fresh h w c))
     = c ++ [GET ("https://newsapi.org/v2/everything?q=" +:+ q +:+ "&apiKey="
                  +:+ Main.Config_NewsAPIKey cfgM)]
     ∧ Calls (exec (Api.handleSearch W r cfgA) (fresh h w c))
       = c ++ [GET ("https://newsapi.org/v2/everything?q=" +:+ q +:+ "&apiKey="
                    +:+ Api.Config_NewsAPIKey cfgA)])
  ∧ (∀ (W : World) (cfgM : Main.Config) (cfgA : Api.Config) (r : Request) h w c,
       let category := Values_Get (Request_Query r) "category" in
       category ≠ "" →
       Calls (exec (Main.getTopHeadlines W cfgM r) (fresh h w c))
       = c ++ [GET ("https://newsapi.org/v2/top-headlines?country=us&category="
                    +:+ category +:+ "&apiKey=" +:+ Main.Config_NewsAPIKey cfgM)]
       ∧ Calls (exec (Api.handleHeadlines W r cfgA) (fresh h w c))
         = c ++ [GET ("https://newsapi.org/v2/top-headlines?country=us&category="
                      +:+ category +:+ "&apiKey=" +:+ Api.Config_NewsAPIKey cfgA)])
  ∧ (∃ q, q ≠ ""
          ∧ ∀ key, ∃ rest,
              url_parameters ("https://newsapi.org/v2/everything?q=" +:+ q
                              +:+ "&apiKey=" +:+ key)
              = ("q", "war") :: ("apiKey", "forged") :: ("sortBy", "popularity") :: rest).
Proof.
  split; [| split].
  - intros W cfgM cfgA r h w c q Hq.
    rewrite Main_searchNews_calls, Api_handleSearch_calls.
    by destruct (decide (Values_Get (Request_Query r) "q" = "")).
  - intros W cfgM cfgA r h w c category Hcat.
    rewrite Main_getTopHeadlines_calls, Api_handleHeadlines_calls.
    by destruct (decide (Values_Get (Request_Query r) "category" ≠ "")).
  - exists "war&apiKey=forged&sortBy=popularity". split; [done |].
    apply search_query_injects_parameters.
Qed.

Lemma upstream_url_is_verbatim_concatenation_witness :
  Calls (exec (Main.searchNews W0 mainConfig0
                 (request "GET" "/api/news/search"
                          (<["q" := ["war&apiKey=forged&sortBy=popularity"]]> ∅) ""))
              (fresh ∅ [] []))
  = [GET "https://newsapi.org/v2/everything?q=war&apiKey=forged&sortBy=popularity&apiKey=k-news"].
Proof.
  refine (proj1 (proj1 upstream_url_is_verbatim_concatenation
                   W0 mainConfig0 apiConfig0
                   (request "GET" "/api/news/search"
                            (<["q" := ["war&apiKey=forged&sortBy=popularity"]]> ∅) "")
                   ∅ [] [] _)).
  intros H. vm_compute in H. discriminate H.
Defined.

(** ** Loading the configuration *)

Lemma Api_loadConfig_missing W :
  credentials_missing W → ∃ e, Api.loadConfig W = Err e.
Proof.
  unfold Api.loadConfig. intros [H | H].
  - rewrite H. eauto.
  - destruct (decide (Getenv W "NEWS_API_KEY" = "")); [eauto |]. rewrite H. eauto.
Qed.

Lemma Api_loadConfig_present W :
  ¬ credentials_missing W →
  Api.loadConfig W
  = Ok {| Api.Config_NewsAPIKey := Getenv W "NEWS_API_KEY";
          Api.Config_OpenAIAPIKey := Getenv W "OPENAI_API_KEY" |}.
Proof.
  unfold Api.loadConfig, credentials_missing. intros H.
  destruct (decide (Getenv W "NEWS_API_KEY" = "")); [tauto |].
  destruct (decide (Getenv W "OPENAI_API_KEY" = "")); [tauto | done].
Qed.

Lemma Main_loadConfig_missing W :
  credentials_missing W → ∃ e, Main.loadConfig W = Err e.
Proof.
  unfold Main.loadConfig. intros [H | H].
  - rewrite H. eauto.
  - destruct (decide (Getenv W "NEWS_API_KEY" = "")); [eauto |]. rewrite H. eauto.
Qed.

Lemma Main_loadConfig_present W :
  ¬ credentials_missing W → ∃ cfg, Main.loadConfig W = Ok cfg.
Proof.
  unfold Main.loadConfig, credentials_missing. intros H.
  destruct (decide (Getenv W "NEWS_API_KEY" = "")); [tauto |].
  destruct (decide (Getenv W "OPENAI_API_KEY" = "")); [tauto | eauto].
Qed.

(** The serverless entry point on a fresh writer. *)
Lemma Api_Handler_options W r :
  Request_Method r = "OPTIONS" → serve (Api.Handler W) r = preflight.
Proof.
  intros Hm. unfold serve, Api.Handler. rewrite init_fresh. hsimpl.
  case_decide; [by hsimpl | done].
Qed.

Lemma Api_Handler_missing W r :
  Request_Method r ≠ "OPTIONS" → credentials_missing W →
  serve (Api.Handler W) r
  = replied (errorHeaders corsHeaders) StatusInternalServerError
            [Text ("Server configuration error" +:+ LF)] [].
Proof.
  intros Hm [e He]%Api_loadConfig_missing.
  unfold serve, Api.Handler. rewrite init_fresh. hsimpl.
  case_decide; [done |]. rewrite He. by hsimpl.
Qed.

Lemma Api_Handler_not_found W r :
  Request_Method r ≠ "OPTIONS" → ¬ credentials_missing W →
  Api_dispatched r = false →
  serve (Api.Handler W) r
  = replied (errorHeaders corsHeaders) StatusNotFound [Text ("Not found" +:+ LF)] [].
Proof.
  intros Hm Hcfg%Api_loadConfig_present Hnone.
  unfold Api_dispatched in Hnone.
  repeat (apply orb_false_elim in Hnone as [Hnone ?]).
  repeat match goal with
         | H : bool_decide _ = false |- _ => apply bool_decide_eq_false in H
         end.
  unfold serve, Api.Handler. rewrite init_fresh. hsimpl.
  case_decide; [done |]. rewrite Hcfg. cbv zeta.
  repeat case_decide; try done.
  repeat match goal with H : String.prefix _ _ = false |- _ => rewrite H end.
  by hsimpl.
Qed.

Lemma serve_exec (hd : HandlerFunc) (r : Request) : serve hd r = exec (hd r) init.
Proof. done. Qed.

Lemma options_is_no_defined_route r :
  Request_Method r = "OPTIONS" → Main_defined_route r = false.
Proof.
  intros Hm. unfold Main_defined_route. rewrite Hm.
  repeat (apply orb_false_intro); apply bool_decide_eq_false; by intros [? _].
Qed.

(** C6, as the code has it.  An OPTIONS request is answered with status
    200, an empty body and the three permissive CORS headers, and nothing
    else happens: the serverless entry point answers so for every path,
    and the standalone server for every path in canonical form (a path
    that starts with a slash and has no element [.] or [..] and no empty
    element but the last), routable or not; the answer is one and the
    same state, so it depends neither on the path nor on any handler or
    upstream.  A path that starts with a slash and is not in canonical
    form never reaches the middleware of the standalone server: the
    router redirects it to the cleaned path. *)
Theorem options_is_answered_with_cors_before_routing
  (W : World) (cfg : Main.Config) (r : Request) :
  Request_Method r = "OPTIONS" →
  (serve (Api.Handler W) r = preflight
   ∧ (canonical_path (Request_Path r) = true →
      serve (Router_ServeHTTP W (Main.router W cfg)) r = preflight)
   ∧ (String.prefix "/" (Request_Path r) = true →
      canonical_path (Request_Path r) = false →
      serve (Router_ServeHTTP W (Main.router W cfg)) r
      = redirect (URL_String W r (cleanPath (Request_Path r)))))
  ∧ status_of preflight = 200
  ∧ body_of preflight = []
  ∧ Calls preflight = []
  ∧ headers_of preflight !! "Access-Control-Allow-Origin" = Some "*"
  ∧ headers_of preflight !! "Access-Control-Allow-Methods"
    = Some "GET, POST, PUT, DELETE, OPTIONS"
  ∧ headers_of preflight !! "Access-Control-Allow-Headers"
    = Some "Content-Type, Authorization".
Proof.
  intros Hm. split; [split; [| split] |].
  - by apply Api_Handler_options.
  - intros Hclean%cleanPath_canonical. rewrite serve_exec, Main_router_fallback;
      [| by apply options_is_no_defined_route | done].
    rewrite Main_corsMiddleware_run. by case_decide.
  - intros _ Hcan%cleanPath_not_canonical. by apply Router_ServeHTTP_redirect.
  - by vm_compute.
Qed.

Lemma options_is_answered_with_cors_before_routing_witness :
  serve (Api.Handler W_no_credentials) (request "OPTIONS" "/no/such/path" ∅ "") = preflight
  ∧ serve (Router_ServeHTTP W0 (Main.router W0 mainConfig0))
          (request "OPTIONS" "/no/such/path" ∅ "") = preflight
  ∧ serve (Router_ServeHTTP W0 (Main.router W0 mainConfig0))
          (request "OPTIONS" "/no//such/path/." ∅ "") = redirect "/no/such/path".
Proof.
  split; [| split].
  - exact (proj1 (proj1 (options_is_answered_with_cors_before_routing
                           W_no_credentials mainConfig0
                           (request "OPTIONS" "/no/such/path" ∅ "") eq_refl))).
  - exact (proj1 (proj2 (proj1 (options_is_answered_with_cors_before_routing
                                  W0 mainConfig0
                                  (request "OPTIONS" "/no/such/path" ∅ "") eq_refl)))
                 eq_refl).
  - refine (proj2 (proj2 (proj1 (options_is_answered_with_cors_before_routing
                                   W0 mainConfig0
                                   (request "OPTIONS" "/no//such/path/." ∅ "") eq_refl)))
                  eq_refl eq_refl).
Defined.

(** C6 as stated fails in the standalone server for a path that is not in
    canonical form: an OPTIONS request for [/a//b] is answered by the
    router itself with status 301 and a [Location] header, before the
    CORS middleware is reached, so that none of the CORS headers is
    set. *)
Lemma options_on_unclean_path_is_redirected :
  let r := request "OPTIONS" "/a//b" ∅ "" in
  let st := serve (Router_ServeHTTP W0 (Main.router W0 mainConfig0)) r in
  Request_Method r = "OPTIONS"
  ∧ status_of st = 301
  ∧ status_of st ≠ 200
  ∧ headers_of st !! "Location" = Some "/a/b"
  ∧ headers_of st !! "Access-Control-Allow-Origin" = None
  ∧ headers_of st !! "Access-Control-Allow-Methods" = None
  ∧ headers_of st !! "Access-Control-Allow-Headers" = None.
Proof.
  cbv zeta. repeat split; try reflexivity. discriminate.
Qed.

(** C5, as the code has it.  A request other than OPTIONS that the
    serverless dispatcher hands to none of its handlers is answered 404
    with no upstream call, provided both credentials are set; this covers
    every request to the transform path that is not a POST.  In the
    standalone server a request other than OPTIONS, to a path in
    canonical form, that is none of the four API routes runs no API
    handler and makes no upstream call: it is handed to the static file
    server on top of the CORS headers, and its status is the file
    server's.  A path that starts with a slash and is not in canonical
    form is redirected by the router, which runs no handler and makes no
    upstream call either. *)
Theorem unrouted_request_runs_no_handler
  (W : World) (cfg : Main.Config) (r : Request) :
  Request_Method r ≠ "OPTIONS" →
  (¬ credentials_missing W → Api_dispatched r = false →
   serve (Api.Handler W) r
   = replied (errorHeaders corsHeaders) 404 [Text ("Not found" +:+ LF)] [])
  ∧ (¬ credentials_missing W →
     Request_Path r = "/api/transform" → Request_Method r ≠ "POST" →
     status_of (serve (Api.Handler W) r) = 404 ∧ Calls (serve (Api.Handler W) r) = [])
  ∧ (Main_defined_route r = false → canonical_path (Request_Path r) = true →
     serve (Router_ServeHTTP W (Main.router W cfg)) r
     = {| Resp := FileServer W r {| Header := corsHeaders; Status := None; Written := [] |};
          Calls := [] |})
  ∧ (String.prefix "/" (Request_Path r) = true →
     canonical_path (Request_Path r) = false →
     serve (Router_ServeHTTP W (Main.router W cfg)) r
     = redirect (URL_String W r (cleanPath (Request_Path r)))).
Proof.
  intros Hm. split; [| split; [| split]].
  - intros Hcfg Hnone. by apply Api_Handler_not_found.
  - intros Hcfg Hp Hpost. rewrite Api_Handler_not_found; [done | done | done |].
    unfold Api_dispatched. rewrite Hp.
    repeat (apply orb_false_intro); try done.
    apply bool_decide_eq_false. by intros [_ ?].
  - intros Hnone Hclean%cleanPath_canonical.
    rewrite serve_exec, Main_router_fallback, Main_corsMiddleware_run by done.
    by case_decide.
  - intros _ Hcan%cleanPath_not_canonical. by apply Router_ServeHTTP_redirect.
Qed.

Lemma unrouted_request_runs_no_handler_witness :
  let r := request "DELETE" "/api/transform" ∅ "" in
  let r' := request "DELETE" "/api//transform" ∅ "" in
  serve (Api.Handler W0) r
  = replied (errorHeaders corsHeaders) 404 [Text ("Not found" +:+ LF)] []
  ∧ (status_of (serve (Api.Handler W0) r) = 404 ∧ Calls (serve (Api.Handler W0) r) = [])
  ∧ serve (Router_ServeHTTP W0 (Main.router W0 mainConfig0)) r
    = {| Resp := FileServer W0 r {| Header := corsHeaders; Status := None; Written := [] |};
         Calls := [] |}
  ∧ serve (Router_ServeHTTP W0 (Main.router W0 mainConfig0)) r'
    = redirect "/api/transform".
Proof.
  cbv zeta.
  pose proof (unrouted_request_runs_no_handler W0 mainConfig0
                (request "DELETE" "/api/transform" ∅ "")
                ltac:(discriminate)) as (H1 & H2 & H3 & _).
  pose proof (unrouted_request_runs_no_handler W0 mainConfig0
                (request "DELETE" "/api//transform" ∅ "")
                ltac:(discriminate)) as (_ & _ & _ & H4).
  assert (¬ credentials_missing W0) as Hcfg.
  { intros [H | H]; vm_compute in H; discriminate H. }
  split; [exact (H1 Hcfg eq_refl) |].
  split; [apply (H2 Hcfg eq_refl); discriminate |].
  split; [exact (H3 eq_refl eq_refl) |].
  exact (H4 eq_refl eq_refl).
Defined.

(** C5 as stated fails in both entry points.  The serverless dispatcher
    routes the news prefixes whatever the method: a POST to the headlines
    path, which is none of the four routes, runs the headlines handler,
    which calls the upstream and replies 200.  The standalone server hands
    what is not an API route to the static files: a GET of the root path
    is answered by the file server, 200 when the file is there. *)
Lemma unrouted_request_is_not_always_404 :
  let r := request "POST" "/api/news/headlines" ∅ "" in
  let r' := request "GET" "/" ∅ "" in
  (Api_defined_route r = false
   ∧ Request_Method r ≠ "OPTIONS"
   ∧ status_of (serve (Api.Handler W0) r) = 200
   ∧ Calls (serve (Api.Handler W0) r)
     = [GET "https://newsapi.org/v2/top-headlines?country=us&apiKey=k-news"])
  ∧ (Main_defined_route r' = false
     ∧ Request_Method r' ≠ "OPTIONS"
     ∧ status_of (serve (Router_ServeHTTP W0 (Main.router W0 mainConfig0)) r') = 200).
Proof.
  cbv zeta. repeat split; try reflexivity; discriminate.
Qed.

(** C4, as the code has it.  The standalone server validates the
    configuration once, in [main], before it tries to listen: with a
    credential missing [main] leaves through [log.Fatalf], naming the
    first credential that is missing, and accepts no connection, whatever
    the listener would have done.  The serverless entry point has no
    start-up: it loads the configuration on every request other than
    OPTIONS, and with a credential missing it answers such a request 500
    without calling an upstream, while an OPTIONS request still gets the
    preflight answer. *)
Theorem missing_credentials_stop_the_server (W : World) :
  credentials_missing W →
  (Main.main W
   = Main.Fatal ("Failed to load configuration: "
                 +:+ (if decide (Getenv W "NEWS_API_KEY" = "") then "NEWS_API_KEY"
                      else "OPENAI_API_KEY")
                 +:+ " environment variable is required")
   ∧ Main.accepts_connections (Main.main W) = false)
  ∧ ∀ r, serve (Api.Handler W) r
         = if decide (Request_Method r = "OPTIONS") then preflight
           else replied (errorHeaders corsHeaders) 500
                        [Text ("Server configuration error" +:+ LF)] [].
Proof.
  intros Hmiss. split.
  - unfold Main.main, Main.loadConfig. cbv zeta.
    destruct (decide (Getenv W "NEWS_API_KEY" = "")) as [Hn | Hn]; [done |].
    destruct (decide (Getenv W "OPENAI_API_KEY" = "")) as [Ho | Ho]; [done |].
    by destruct Hmiss.
  - intros r. case_decide.
    + by apply Api_Handler_options.
    + by apply Api_Handler_missing.
Qed.

Lemma missing_credentials_stop_the_server_witness :
  let W := stubWorld (<["NEWS_API_KEY" := "k-news"]> ∅) upstreamOK in
  Main.main W
  = Main.Fatal "Failed to load configuration: OPENAI_API_KEY environment variable is required"
  ∧ Main.accepts_connections (Main.main W) = false
  ∧ serve (Api.Handler W) (request "GET" "/api/news/headlines" ∅ "")
    = replied (errorHeaders corsHeaders) 500
              [Text ("Server configuration error" +:+ LF)] [].
Proof.
  cbv zeta.
  pose proof (missing_credentials_stop_the_server
                (stubWorld (<["NEWS_API_KEY" := "k-news"]> ∅) upstreamOK))
    as Hthm.
  destruct Hthm as [[Hmain Hacc] Hapi]; [right; reflexivity |].
  split; [exact Hmain |]. split; [exact Hacc |].
  exact (Hapi (request "GET" "/api/news/headlines" ∅ "")).
Defined.

(** C4 as stated fails in the serverless entry point: with no credential
    in the environment it still serves requests, answering an OPTIONS
    request 200, and it finds the credential missing only when a request
    arrives, which it answers 500. *)
Lemma serverless_entry_point_validates_on_request :
  credentials_missing W_no_credentials
  ∧ status_of (serve (Api.Handler W_no_credentials)
                     (request "OPTIONS" "/api/transform" ∅ "")) = 200
  ∧ serve (Api.Handler W_no_credentials) (request "GET" "/api/health" ∅ "")
    = replied (errorHeaders corsHeaders) 500
              [Text ("Server configuration error" +:+ LF)] [].
Proof.
  split; [by left |]. split; reflexivity.
Qed.

(** C9, as the code has it.  A request to the health path gets the health
    report, with status 200, the [status] field ["healthy"], the service
    name and the current time, and with no upstream call, when it reaches
    the health handler: in the standalone server that is a GET of
    [/health]; in the serverless entry point every request for
    [/api/health] other than OPTIONS, provided both credentials are set.
    Other requests to the health path are answered otherwise: OPTIONS by
    the preflight answer, other methods of the standalone server by the
    static file server, and the serverless entry point without its
    credentials by status 500. *)
Theorem health_path_reports_healthy_when_routed
  (W : World) (config : Main.Config) (r : Request) :
  let report : gmap string string :=
    <["time" := Now W]>
      (<["service" := "Ministry of Truth Backend"]> (<["status" := "healthy"]> ∅)) in
  let healthy :=
    replied (<["Content-Type" := "application/json"]> corsHeaders) 200
            [JSON (MapPayload report)] [] in
  (Request_Path r = "/health" →
   (Request_Method r = "GET" →
    serve (Router_ServeHTTP W (Main.router W config)) r = healthy)
   ∧ (Request_Method r = "OPTIONS" →
      serve (Router_ServeHTTP W (Main.router W config)) r = preflight)
   ∧ (Request_Method r ≠ "GET" → Request_Method r ≠ "OPTIONS" →
      serve (Router_ServeHTTP W (Main.router W config)) r
      = {| Resp := FileServer W r {| Header := corsHeaders; Status := None; Written := [] |};
           Calls := [] |}))
  ∧ (Request_Path r = "/api/health" →
     (Request_Method r = "OPTIONS" → serve (Api.Handler W) r = preflight)
     ∧ (Request_Method r ≠ "OPTIONS" → credentials_missing W →
        serve (Api.Handler W) r
        = replied (errorHeaders corsHeaders) 500
                  [Text ("Server configuration error" +:+ LF)] [])
     ∧ (Request_Method r ≠ "OPTIONS" → ¬ credentials_missing W →
        serve (Api.Handler W) r = healthy))
  ∧ status_of healthy = 200
  ∧ Calls healthy = []
  ∧ report !! "status" = Some "healthy"
  ∧ report !! "service" = Some "Ministry of Truth Backend"
  ∧ report !! "time" = Some (Now W).
Proof.
  cbv zeta. split; [| split].
  - intros Hp.
    assert (cleanPath (Request_Path r) = Request_Path r) as Hclean by (by rewrite Hp).
    split; [| split].
    + intros Hm. rewrite serve_exec, Main_router_health, Main_corsMiddleware_run by done.
      rewrite decide_False by (by rewrite Hm). by rewrite healthCheck_run.
    + intros Hm. rewrite serve_exec, Main_router_fallback, Main_corsMiddleware_run;
        [by rewrite decide_True | by apply options_is_no_defined_route | done].
    + intros Hget Hopt.
      rewrite serve_exec, Main_router_fallback, Main_corsMiddleware_run;
        [by rewrite decide_False | | done].
      unfold Main_defined_route. rewrite Hp.
      repeat (apply orb_false_intro); apply bool_decide_eq_false; by intros [??].
  - intros Hp. split; [| split].
    + apply Api_Handler_options.
    + intros Hm Hmiss. by apply Api_Handler_missing.
    + intros Hm Hcfg%Api_loadConfig_present.
      unfold serve, Api.Handler. rewrite init_fresh. hsimpl.
      case_decide; [done |]. rewrite Hcfg. cbv zeta.
      case_decide; [| done].
      change ((Api.handleHealth W r (fresh corsHeaders [] [])).2)
        with (exec (Api.handleHealth W r) (fresh corsHeaders [] [])).
      by rewrite handleHealth_run.
  - split; [done |]. split; [done |].
    split; [by rewrite lookup_insert_ne, lookup_insert_ne, lookup_insert_eq |].
    split; [by rewrite lookup_insert_ne, lookup_insert_eq |].
    apply lookup_insert_eq.
Qed.

Lemma health_path_reports_healthy_when_routed_witness :
  let healthy :=
    replied (<["Content-Type" := "application/json"]> corsHeaders) 200
            [JSON (MapPayload
               (<["time" := "2025-07-01T12:00:00Z"]>
                  (<["service" := "Ministry of Truth Backend"]>
                     (<["status" := "healthy"]> ∅))))] [] in
  serve (Router_ServeHTTP W0 (Main.router W0 mainConfig0)) (request "GET" "/health" ∅ "")
  = healthy
  ∧ serve (Api.Handler W0) (request "POST" "/api/health" ∅ "") = healthy
  ∧ serve (Api.Handler W_no_credentials) (request "GET" "/api/health" ∅ "")
    = replied (errorHeaders corsHeaders) 500
              [Text ("Server configuration error" +:+ LF)] [].
Proof.
  cbv zeta.
  pose proof (health_path_reports_healthy_when_routed W0 mainConfig0
                (request "GET" "/health" ∅ "")) as [HM _].
  pose proof (health_path_reports_healthy_when_routed W0 mainConfig0
                (request "POST" "/api/health" ∅ "")) as [_ [HA _]].
  pose proof (health_path_reports_healthy_when_routed W_no_credentials mainConfig0
                (request "GET" "/api/health" ∅ "")) as [_ [HA' _]].
  cbv zeta in HM, HA, HA'.
  split; [exact (proj1 (HM eq_refl) eq_refl) |]. split.
  - refine (proj2 (proj2 (HA eq_refl)) _ _); [discriminate |].
    intros [H | H]; vm_compute in H; discriminate H.
  - refine (proj1 (proj2 (HA' eq_refl)) _ _); [discriminate | by left].
Defined.

(** C9 as stated fails on requests to the health path that do not reach
    the health handler.  The standalone server hands a POST of [/health]
    to the static files, which have no such file: 404.  The serverless
    entry point without credentials answers a GET of [/api/health] with
    500.  And an OPTIONS request gets status 200 with an empty body, in
    which there is no [status] field. *)
Lemma health_path_is_not_always_healthy :
  let post := serve (Router_ServeHTTP W0 (Main.router W0 mainConfig0))
                    (request "POST" "/health" ∅ "") in
  let unconfigured := serve (Api.Handler W_no_credentials)
                            (request "GET" "/api/health" ∅ "") in
  let options := serve (Api.Handler W0) (request "OPTIONS" "/api/health" ∅ "") in
  (status_of post = 404 ∧ status_of post ≠ 200)
  ∧ (status_of unconfigured = 500 ∧ status_of unconfigured ≠ 200)
  ∧ (status_of options = 200 ∧ body_of options = []).
Proof.
  cbv zeta. repeat split; try reflexivity; discriminate.
Qed.

(** * Further properties of the proxy *)

(** ** The router of [main] is the route table *)

Lemma Main_corsMiddleware_ext (next next' : HandlerFunc) (r : Request) :
  next r = next' r → Main.corsMiddleware next r = Main.corsMiddleware next' r.
Proof. intros H. unfold Main.corsMiddleware. by rewrite H. Qed.

(** The gorilla/mux router of [main] first looks at the form of the
    path.  On a path in canonical form, one that starts with a slash and
    has no element [.] or [..] and no empty element but the last, the
    router behaves as the CORS middleware around the plain route table:
    the four API routes reach their handlers, everything else the static
    files.  A path that starts with a slash and is not in canonical form
    is answered with a redirect to the cleaned URL and nothing else. *)
Theorem Main_router_is_route_table (W : World) (config : Main.Config) (r : Request) :
  (canonical_path (Request_Path r) = true →
   Router_ServeHTTP W (Main.router W config) r
   = Main.corsMiddleware (Main_dispatch W config) r)
  ∧ (String.prefix "/" (Request_Path r) = true →
     canonical_path (Request_Path r) = false →
     serve (Router_ServeHTTP W (Main.router W config)) r
     = redirect (URL_String W r (cleanPath (Request_Path r)))).
Proof.
  split;
    [| intros _ Hcan%cleanPath_not_canonical; by apply Router_ServeHTTP_redirect].
  intros Hclean%cleanPath_canonical.
  destruct (decide (Request_Method r = "GET" ∧ Request_Path r = "/api/news/headlines"))
    as [[Hm Hp] | H1].
  { rewrite Main_router_headlines by done. apply Main_corsMiddleware_ext.
    unfold Main_dispatch. by rewrite decide_True. }
  destruct (decide (Request_Method r = "GET" ∧ Request_Path r = "/api/news/search"))
    as [[Hm Hp] | H2].
  { rewrite Main_router_search by done. apply Main_corsMiddleware_ext.
    unfold Main_dispatch. by rewrite decide_False, decide_True. }
  destruct (decide (Request_Method r = "POST" ∧ Request_Path r = "/api/transform"))
    as [[Hm Hp] | H3].
  { rewrite Main_router_transform by done. apply Main_corsMiddleware_ext.
    unfold Main_dispatch. by rewrite decide_False, decide_False, decide_True. }
  destruct (decide (Request_Method r = "GET" ∧ Request_Path r = "/health"))
    as [[Hm Hp] | H4].
  { rewrite Main_router_health by done. apply Main_corsMiddleware_ext.
    unfold Main_dispatch.
    by rewrite decide_False, decide_False, decide_False, decide_True. }
  rewrite Main_router_fallback; [| | done].
  - apply Main_corsMiddleware_ext. unfold Main_dispatch.
    by rewrite !decide_False.
  - unfold Main_defined_route.
    repeat (apply orb_false_intro); by apply bool_decide_eq_false.
Qed.

Lemma Main_router_is_route_table_witness :
  Router_ServeHTTP W0 (Main.router W0 mainConfig0) (request "GET" "/health" ∅ "")
  = Main.corsMiddleware (Main_dispatch W0 mainConfig0) (request "GET" "/health" ∅ "")
  ∧ serve (Router_ServeHTTP W0 (Main.router W0 mainConfig0))
          (request "GET" "//health" ∅ "")
    = redirect "/health".
Proof.
  split.
  - exact (proj1 (Main_router_is_route_table W0 mainConfig0
                    (request "GET" "/health" ∅ "")) eq_refl).
  - exact (proj2 (Main_router_is_route_table W0 mainConfig0
                    (request "GET" "//health" ∅ "")) eq_refl eq_refl).
Defined.

(** ** Every reply is committed, keeps the CORS headers, and costs at most
    one upstream call *)

Lemma proxy_reply_replied h h' code w c c' :
  code ∈ [200; 400; 404; 405; 500] →
  (∀ k, k ≠ "Content-Type" → k ≠ "X-Content-Type-Options" → h' !! k = h !! k) →
  (c' = c ∨ ∃ call, c' = c ++ [call]) →
  proxy_reply h c (replied h' code w c').
Proof. intros Hcode Hh Hc. split; [by exists code | done]. Qed.

Ltac frame_tac :=
  intros k Hct Hx; unfold errorHeaders;
  repeat (rewrite lookup_insert_ne; [| done]); done.

Ltac code_tac :=
  unfold StatusOK, StatusBadRequest, StatusNotFound, StatusMethodNotAllowed,
    StatusInternalServerError;
  repeat first [ apply list_elem_of_here | apply list_elem_of_further ].

Ltac reply_tac :=
  hsimpl;
  repeat (first
    [ case_decide
    | match goal with
      | |- context [match ?x with _ => _ end] => destruct x eqn:?
      end ]; hsimpl);
  (apply proxy_reply_replied; [code_tac | frame_tac | eauto]).

Section Replies.

Variable W : World.

Lemma Main_getTopHeadlines_reply cfg r h w c :
  proxy_reply h c (exec (Main.getTopHeadlines W cfg r) (fresh h w c)).
Proof. unfold exec, Main.getTopHeadlines, Main.fetchNews. reply_tac. Qed.

Lemma Main_searchNews_reply cfg r h w c :
  proxy_reply h c (exec (Main.searchNews W cfg r) (fresh h w c)).
Proof. unfold exec, Main.searchNews, Main.fetchNews. reply_tac. Qed.

Lemma Main_transformNews_reply cfg r h w c :
  proxy_reply h c (exec (Main.transformNews W cfg r) (fresh h w c)).
Proof. unfold exec, Main.transformNews. reply_tac. Qed.

Lemma Main_healthCheck_reply r h w c :
  proxy_reply h c (exec (Main.healthCheck W r) (fresh h w c)).
Proof. unfold exec, Main.healthCheck. reply_tac. Qed.

Lemma Api_handleHeadlines_reply cfg r h w c :
  proxy_reply h c (exec (Api.handleHeadlines W r cfg) (fresh h w c)).
Proof. unfold exec, Api.handleHeadlines, Api.fetchNews. reply_tac. Qed.

Lemma Api_handleSearch_reply cfg r h w c :
  proxy_reply h c (exec (Api.handleSearch W r cfg) (fresh h w c)).
Proof. unfold exec, Api.handleSearch, Api.fetchNews. reply_tac. Qed.

Lemma Api_handleTransform_reply cfg r h w c :
  proxy_reply h c (exec (Api.handleTransform W r cfg) (fresh h w c)).
Proof. unfold exec, Api.handleTransform, Api.transformContent. reply_tac. Qed.

Lemma Api_handleHealth_reply r h w c :
  proxy_reply h c (exec (Api.handleHealth W r) (fresh h w c)).
Proof. unfold exec, Api.handleHealth. reply_tac. Qed.

End Replies.

(** Whatever the request and the world, the serverless entry point commits
    a status among 200, 400, 404 and 500, sends the three CORS headers,
    and calls an upstream at most once: there is no retry. *)
Theorem Api_Handler_always_replies (W : World) (r : Request) :
  let st := serve (Api.Handler W) r in
  (∃ code, Status (Resp st) = Some code ∧ code ∈ [200; 400; 404; 500])
  ∧ (∀ k v, corsHeaders !! k = Some v → headers_of st !! k = Some v)
  ∧ (List.length (Calls st) ≤ 1)%nat.
Proof.
  cbv zeta.
  assert (proxy_reply corsHeaders [] (serve (Api.Handler W) r)
          ∧ status_of (serve (Api.Handler W) r) ≠ 405) as [(Hcode & Hframe & Hcalls) H405].
  { unfold serve, Api.Handler. rewrite init_fresh. hsimpl.
    case_decide; hsimpl; [split; [apply proxy_reply_replied; [code_tac | done | eauto] | done] |].
    destruct (Api.loadConfig W) as [config | e]; hsimpl;
      [| split; [apply proxy_reply_replied; [code_tac | frame_tac | eauto] | done]].
    cbv zeta. case_decide.
    { split; [apply (Api_handleHealth_reply W r) |].
      unfold exec, Api.handleHealth. by hsimpl. }
    destruct (String.prefix "/api/news/headlines" (Request_Path r)).
    { split; [apply Api_handleHeadlines_reply |].
      unfold exec, Api.handleHeadlines, Api.fetchNews. hsimpl.
      repeat (first
        [ case_decide
        | match goal with
          | |- context [match ?x with _ => _ end] => destruct x eqn:?
          end ]; hsimpl); done. }
    destruct (String.prefix "/api/news/search" (Request_Path r)).
    { split; [apply Api_handleSearch_reply |].
      unfold exec, Api.handleSearch, Api.fetchNews. hsimpl.
      repeat (first
        [ case_decide
        | match goal with
          | |- context [match ?x with _ => _ end] => destruct x eqn:?
          end ]; hsimpl); done. }
    case_decide.
    { split; [apply Api_handleTransform_reply |].
      unfold exec, Api.handleTransform, Api.transformContent. hsimpl.
      repeat (first
        [ case_decide
        | match goal with
          | |- context [match ?x with _ => _ end] => destruct x eqn:?
          end ]; hsimpl); done. }
    hsimpl. split; [apply proxy_reply_replied; [code_tac | frame_tac | eauto] | done]. }
  split; [| split].
  - destruct Hcode as (code & Hst & Hin). exists code. split; [done |].
    unfold status_of in H405. rewrite Hst in H405. simpl in H405.
    repeat (apply elem_of_cons in Hin as [-> | Hin]);
      try (by apply elem_of_nil in Hin); try done; code_tac.
  - intros k v Hk. rewrite Hframe; [done | |]; intros ->; by vm_compute in Hk.
  - destruct Hcalls as [-> | [call ->]]; simpl; lia.
Qed.

(** The standalone server calls an upstream at most once per request. *)
Theorem Main_router_calls_upstream_at_most_once
  (W : World) (config : Main.Config) (r : Request) :
  String.prefix "/" (Request_Path r) = true →
  (List.length (Calls (serve (Router_ServeHTTP W (Main.router W config)) r)) ≤ 1)%nat.
Proof.
  intros Hslash.
  destruct (decide (cleanPath (Request_Path r) = Request_Path r)) as [Hclean | Hclean];
    [| rewrite Router_ServeHTTP_redirect by done; simpl; lia].
  rewrite serve_exec.
  assert (∀ st, proxy_reply corsHeaders [] st → (List.length (Calls st) ≤ 1)%nat) as Hone.
  { intros st (_ & _ & [-> | [call ->]]); simpl; lia. }
  assert (∀ hd,
            (Request_Method r ≠ "OPTIONS" →
             (List.length (Calls (exec (hd r) (fresh corsHeaders [] []))) ≤ 1)%nat) →
            (List.length (Calls (exec (Main.corsMiddleware hd r) init)) ≤ 1)%nat) as Hcors.
  { intros hd Hhd. rewrite Main_corsMiddleware_run. case_decide; [simpl; lia | auto]. }
  destruct (decide (Request_Method r = "GET")) as [Hget | Hget].
  - destruct (decide (Request_Path r = "/api/news/headlines")) as [Hp | H1];
      [rewrite Main_router_headlines by done; apply Hcors; intros _;
       apply Hone, Main_getTopHeadlines_reply |].
    destruct (decide (Request_Path r = "/api/news/search")) as [Hp | H2];
      [rewrite Main_router_search by done; apply Hcors; intros _;
       apply Hone, Main_searchNews_reply |].
    destruct (decide (Request_Path r = "/health")) as [Hp | H3];
      [rewrite Main_router_health by done; apply Hcors; intros _;
       apply Hone, (Main_healthCheck_reply W r) |].
    rewrite Main_router_fallback; [apply Hcors; intros _; simpl; lia | | done].
    unfold Main_defined_route. rewrite Hget.
    repeat (apply orb_false_intro); apply bool_decide_eq_false; by intros [??].
  - destruct (decide (Request_Method r = "POST" ∧ Request_Path r = "/api/transform"))
      as [[Hm Hp] | H1];
      [rewrite Main_router_transform by done; apply Hcors; intros _;
       apply Hone, Main_transformNews_reply |].
    rewrite Main_router_fallback; [apply Hcors; intros _; simpl; lia | | done].
    unfold Main_defined_route.
    repeat (apply orb_false_intro); apply bool_decide_eq_false; try tauto.
Qed.

Lemma Main_router_calls_upstream_at_most_once_witness :
  (List.length
     (Calls (serve (Router_ServeHTTP W0 (Main.router W0 mainConfig0))
                   (request "GET" "/api/news/headlines" ∅ ""))) ≤ 1)%nat.
Proof.
  exact (Main_router_calls_upstream_at_most_once W0 mainConfig0
           (request "GET" "/api/news/headlines" ∅ "") eq_refl).
Defined.

(** ** The health route, end to end *)

(** A GET of [/health] on the standalone server, and a request other than
    OPTIONS for [/api/health] on the serverless entry point with both
    credentials set, get the health report with the CORS headers and the
    JSON content type, status 200, and no upstream is called. *)
Theorem health_route_end_to_end (W : World) (config : Main.Config) (r : Request) :
  let report : gmap string string :=
    <["time" := Now W]>
      (<["service" := "Ministry of Truth Backend"]> (<["status" := "healthy"]> ∅)) in
  let reply :=
    replied (<["Content-Type" := "application/json"]> corsHeaders) 200
            [JSON (MapPayload report)] [] in
  (Request_Method r = "GET" → Request_Path r = "/health" →
   serve (Router_ServeHTTP W (Main.router W config)) r = reply)
  ∧ (Request_Method r ≠ "OPTIONS" → ¬ credentials_missing W →
     Request_Path r = "/api/health" →
     serve (Api.Handler W) r = reply).
Proof.
  cbv zeta. split.
  - intros Hm Hp.
    rewrite serve_exec, Main_router_health, Main_corsMiddleware_run by done.
    case_decide; [congruence |]. unfold exec, Main.healthCheck. by hsimpl.
  - intros Hm Hcfg%Api_loadConfig_present Hp.
    unfold serve, Api.Handler. rewrite init_fresh. hsimpl.
    case_decide; [done |]. rewrite Hcfg. cbv zeta.
    case_decide; [| done]. unfold Api.handleHealth. by hsimpl.
Qed.

Lemma health_route_end_to_end_witness :
  status_of (serve (Router_ServeHTTP W0 (Main.router W0 mainConfig0))
                   (request "GET" "/health" ∅ "")) = 200
  ∧ status_of (serve (Api.Handler W0) (request "GET" "/api/health" ∅ "")) = 200.
Proof.
  pose proof (health_route_end_to_end W0 mainConfig0 (request "GET" "/health" ∅ ""))
    as [HM _].
  pose proof (health_route_end_to_end W0 mainConfig0 (request "GET" "/api/health" ∅ ""))
    as [_ HA].
  cbv zeta in HM, HA.
  rewrite (HM eq_refl eq_refl).
  rewrite HA; [by split | discriminate | | reflexivity].
  intros [H | H]; vm_compute in H; discriminate H.
Defined.

(** ** The listen address *)

(** With both credentials set, [main] hands the address made of a colon
    and [PORT], or [:8080] when [PORT] is empty or absent, to
    [http.ListenAndServe] as it is, whatever [PORT] holds.  When the
    listener cannot be set up there, [main] leaves through [log.Fatal]
    with the listener's error and accepts no connection; otherwise it
    serves that address with the router built from the configuration it
    loaded. *)
Theorem main_serves_on_configured_port_or_exits (W : World) :
  ¬ credentials_missing W →
  let port := if decide (Getenv W "PORT" = "") then "8080" else Getenv W "PORT" in
  let config :=
    {| Main.Config_NewsAPIKey := Getenv W "NEWS_API_KEY";
       Main.Config_OpenAIAPIKey := Getenv W "OPENAI_API_KEY";
       Main.Config_Port := port |} in
  match Listen W (":" +:+ port) with
  | Some err =>
    Main.main W = Main.Fatal err ∧ Main.accepts_connections (Main.main W) = false
  | None =>
    Main.main W
    = Main.ListenAndServe (":" +:+ port) (Router_ServeHTTP W (Main.router W config))
    ∧ Main.accepts_connections (Main.main W) = true
  end.
Proof.
  intros Hok. cbv zeta. unfold Main.main, Main.loadConfig, credentials_missing in *.
  destruct (decide (Getenv W "NEWS_API_KEY" = "")); [tauto |].
  destruct (decide (Getenv W "OPENAI_API_KEY" = "")); [tauto |].
  cbv zeta. cbn [Main.Config_Port].
  by destruct (Listen W _).
Qed.

Lemma main_serves_on_configured_port_or_exits_witness :
  (Main.main W0
   = Main.ListenAndServe ":8080" (Router_ServeHTTP W0 (Main.router W0 mainConfig0))
   ∧ Main.accepts_connections (Main.main W0) = true)
  ∧ (let W := stubWorld (<["PORT" := "notaport"]> env0) upstreamOK in
     Main.main W = Main.Fatal "listen tcp: lookup tcp/notaport: unknown port"
     ∧ Main.accepts_connections (Main.main W) = false).
Proof.
  split.
  - refine (main_serves_on_configured_port_or_exits W0 _).
    intros [H | H]; vm_compute in H; discriminate H.
  - refine (main_serves_on_configured_port_or_exits
              (stubWorld (<["PORT" := "notaport"]> env0) upstreamOK) _).
    intros [H | H]; vm_compute in H; discriminate H.
Defined.

(** * The two entry points side by side *)

(** The news and health handlers of the serverless entry point are the
    handlers of the standalone server: given the same news key they
    change every state in the same way. *)
Theorem news_and_health_handlers_agree
  (W : World) (cfgM : Main.Config) (cfgA : Api.Config) (r : Request) (st : State) :
  Main.Config_NewsAPIKey cfgM = Api.Config_NewsAPIKey cfgA →
  Main.getTopHeadlines W cfgM r st = Api.handleHeadlines W r cfgA st
  ∧ Main.searchNews W cfgM r st = Api.handleSearch W r cfgA st
  ∧ Main.healthCheck W r st = Api.handleHealth W r st.
Proof.
  intros Hkey.
  unfold Main.getTopHeadlines, Api.handleHeadlines, Main.searchNews, Api.handleSearch,
    Main.fetchNews, Api.fetchNews. rewrite Hkey. done.
Qed.

Lemma news_and_health_handlers_agree_witness :
  let r := request "GET" "/api/news/search" (<["q" := ["oceania"]]> ∅) "" in
  Main.getTopHeadlines W0 mainConfig0 r init = Api.handleHeadlines W0 r apiConfig0 init
  ∧ Main.searchNews W0 mainConfig0 r init = Api.handleSearch W0 r apiConfig0 init
  ∧ Main.healthCheck W0 r init = Api.handleHealth W0 r init.
Proof.
  exact (news_and_health_handlers_agree W0 mainConfig0 apiConfig0
           (request "GET" "/api/news/search" (<["q" := ["oceania"]]> ∅) "") init eq_refl).
Defined.

(** * The transform handlers side by side *)

(** The transform handlers of the two entry points, given the same
    completion key and a POST, send the same call, commit the same status
    and leave the same headers; when the status is not 500 they end in
    the very same state, and when it is 500 the serverless one says
    ["Error transforming content"] whatever went wrong. *)
Theorem transform_handlers_agree
  (W : World) (cfgM : Main.Config) (cfgA : Api.Config) (r : Request)
  (h : gmap string string) (w : list Chunk) (c : list Call) :
  Request_Method r = "POST" →
  Main.Config_OpenAIAPIKey cfgM = Api.Config_OpenAIAPIKey cfgA →
  let stM := exec (Main.transformNews W cfgM r) (fresh h w c) in
  let stA := exec (Api.handleTransform W r cfgA) (fresh h w c) in
  status_of stM = status_of stA
  ∧ Calls stM = Calls stA
  ∧ headers_of stM = headers_of stA
  ∧ (status_of stM ≠ 500 → stM = stA)
  ∧ (status_of stA = 500 →
     body_of stA = w ++ [Text ("Error transforming content" +:+ LF)]).
Proof.
  intros Hm Hkey. cbv zeta.
  destruct (Decode_requestData W (Request_Body r)) as [data | e] eqn:Hdata.
  - rewrite (Main_transformNews_eq W cfgM r data), (Api_handleTransform_eq W cfgA r data),
      Hkey by done.
    destruct (completion_result W _); unfold transform_reply;
      repeat split; try done; by intros [].
  - rewrite (Main_transformNews_invalid W cfgM r e), (Api_handleTransform_invalid W cfgA r e)
      by done.
    repeat split; try done.
Qed.

Lemma transform_handlers_agree_witness :
  let W := stubWorld env0 (upstreamStatus 503) in
  let r := request "POST" "/api/transform" ∅ (transformBody "T" "D") in
  let stM := exec (Main.transformNews W mainConfig0 r) (fresh ∅ [] []) in
  let stA := exec (Api.handleTransform W r apiConfig0) (fresh ∅ [] []) in
  status_of stM = status_of stA
  ∧ Calls stM = Calls stA
  ∧ headers_of stM = headers_of stA
  ∧ (status_of stM ≠ 500 → stM = stA)
  ∧ (status_of stA = 500 →
     body_of stA = [] ++ [Text ("Error transforming content" +:+ LF)]).
Proof.
  exact (transform_handlers_agree (stubWorld env0 (upstreamStatus 503))
           mainConfig0 apiConfig0
           (request "POST" "/api/transform" ∅ (transformBody "T" "D")) ∅ [] []
           eq_refl eq_refl).
Defined.

(** * What an error reply tells the client *)

(** A transform handler that does not answer 200 answers with one of a
    few fixed texts: nothing of the upstream's answer, status or error
    reaches the client. *)
Theorem transform_errors_are_fixed_texts
  (W : World) (hd : HandlerFunc) (r : Request)
  (h : gmap string string) (w : list Chunk) (c : list Call) :
  transform_handler W hd →
  let st := exec (hd r) (fresh h w c) in
  status_of st ≠ 200 →
  ∃ msg, msg ∈ transform_error_texts ∧ body_of st = w ++ [Text (msg +:+ LF)].
Proof.
  assert (∀ msg, msg ∈ transform_error_texts →
            ∃ msg', msg' ∈ transform_error_texts
                    ∧ w ++ [Text (msg +:+ LF)] = w ++ [Text (msg' +:+ LF)]) as Hin
    by eauto.
  intros [cfg | cfg]; cbv zeta.
  - destruct (decide (Request_Method r = "POST")) as [Hm | Hm];
      [| rewrite Main_transformNews_not_post by done; intros _; apply Hin;
         in_list_tac].
    destruct (Decode_requestData W (Request_Body r)) as [data | e] eqn:Hdata;
      [| rewrite (Main_transformNews_invalid W cfg r e) by done; intros _; apply Hin;
         in_list_tac].
    rewrite (Main_transformNews_eq W cfg r data) by done.
    unfold completion_result.
    destruct (RoundTripper W _) as [e | code [b | e]]; [| case_decide |
      case_decide];
      [ | | destruct (Decode_OpenAIResponse W b) as [resp | e];
            [destruct (OpenAIResponse_Choices resp) |] | | ];
      first [ by intros [] | intros _; apply Hin; in_list_tac ].
  - destruct (Decode_requestData W (Request_Body r)) as [data | e] eqn:Hdata;
      [| rewrite (Api_handleTransform_invalid W cfg r e) by done; intros _; apply Hin;
         in_list_tac].
    rewrite (Api_handleTransform_eq W cfg r data) by done.
    destruct (completion_result W _);
      first [ by intros [] | intros _; apply Hin; in_list_tac ].
Qed.

Lemma transform_errors_are_fixed_texts_witness :
  let W := stubWorld env0 (upstreamStatus 401) in
  let st := exec (Main.transformNews W mainConfig0
                    (request "POST" "/api/transform" ∅ (transformBody "T" "D")))
                 (fresh ∅ [] []) in
  ∃ msg, msg ∈ transform_error_texts ∧ body_of st = [] ++ [Text (msg +:+ LF)].
Proof.
  refine (transform_errors_are_fixed_texts (stubWorld env0 (upstreamStatus 401))
            (Main.transformNews (stubWorld env0 (upstreamStatus 401)) mainConfig0)
            (request "POST" "/api/transform" ∅ (transformBody "T" "D")) ∅ [] []
            (transform_transformNews _ mainConfig0) _).
  intros H. vm_compute in H. discriminate H.
Defined.

(** When the upstream answers a transform handler 200 with a body that
    decodes, only the first choice counts: its text is the reply, however
    many choices follow and whatever its role; with no choice at all the
    reply is 500. *)
Theorem first_choice_is_the_reply
  (W : World) (hd : HandlerFunc) (r : Request)
  (h : gmap string string) (w : list Chunk) (c : list Call)
  (call : Call) (b : string) (resp : OpenAIResponse) :
  transform_handler W hd →
  let st := exec (hd r) (fresh h w c) in
  Calls st = c ++ [call] →
  RoundTripper W call = Response 200 (ReadOK b) →
  Decode_OpenAIResponse W b = Ok resp →
  match OpenAIResponse_Choices resp with
  | [] => status_of st = 500
  | ch :: _ =>
    status_of st = 200
    ∧ body_of st
      = w ++ [JSON (MapPayload
                {[ "transformedContent" := Message_Content (Choice_Message ch) ]})]
  end.
Proof.
  intros [cfg | cfg]; cbv zeta; intros Hc Hup Hdec.
  - destruct (decide (Request_Method r = "POST")) as [Hm | Hm];
      [| rewrite Main_transformNews_not_post, Calls_replied in Hc by done;
         by apply snoc_neq in Hc].
    destruct (Decode_requestData W (Request_Body r)) as [data | e] eqn:Hdata;
      [| rewrite (Main_transformNews_invalid W cfg r e), Calls_replied in Hc by done;
         by apply snoc_neq in Hc].
    rewrite (Main_transformNews_eq W cfg r data) in Hc |- * by done.
    rewrite Calls_transform_reply in Hc. apply snoc_inj in Hc. subst call.
    unfold completion_result. rewrite Hup.
    case_decide; [done |]. rewrite Hdec.
    by destruct (OpenAIResponse_Choices resp).
  - destruct (Decode_requestData W (Request_Body r)) as [data | e] eqn:Hdata;
      [| rewrite (Api_handleTransform_invalid W cfg r e), Calls_replied in Hc by done;
         by apply snoc_neq in Hc].
    rewrite (Api_handleTransform_eq W cfg r data) in Hc |- * by done.
    rewrite Calls_transform_reply in Hc. apply snoc_inj in Hc. subst call.
    unfold completion_result. rewrite Hup.
    case_decide; [done |]. rewrite Hdec.
    by destruct (OpenAIResponse_Choices resp).
Qed.

Lemma first_choice_is_the_reply_witness :
  let r := request "POST" "/api/transform" ∅ (transformBody "T" "D") in
  let st := exec (Api.handleTransform W0 r apiConfig0) (fresh ∅ [] []) in
  status_of st = 200
  ∧ body_of st = [] ++ [JSON (MapPayload {[ "transformedContent" := "X" ]})].
Proof.
  exact (first_choice_is_the_reply W0 (λ r, Api.handleTransform W0 r apiConfig0)
           (request "POST" "/api/transform" ∅ (transformBody "T" "D")) ∅ [] []
           (completionCall "sk-openai" "T" "D") (completionBody "X")
           (one_choice "assistant" "X")
           (transform_handleTransform W0 apiConfig0) eq_refl eq_refl eq_refl).
Defined.

(** A news handler that reached the upstream tells the client what went
    wrong in so many words: the text of the transport error, of the read
    error or of the decoder's error is part of the reply, and so is the
    upstream's status in decimal.  The checks come in this order: the
    body is read before the status is looked at, and it is decoded only
    when the status is 200. *)
Theorem news_reply_by_upstream_answer
  (W : World) (hd : HandlerFunc) (r : Request)
  (h : gmap string string) (w : list Chunk) (c : list Call) (call : Call) :
  news_handler W hd →
  let st := exec (hd r) (fresh h w c) in
  Calls st = c ++ [call] →
  ∃ what,
    what ∈ ["Error fetching news: "; "Error searching news: "]
    ∧ match RoundTripper W call with
      | TransportErr e =>
        internal_error st w (what +:+ "failed to fetch news: " +:+ e)
      | Response _ (ReadErr e) =>
        internal_error st w (what +:+ "failed to read response body: " +:+ e)
      | Response code (ReadOK b) =>
        if decide (code = 200) then
          match Unmarshal_NewsResponse W b with
          | Ok n => status_of st = 200 ∧ body_of st = w ++ [JSON (NewsPayload n)]
          | Err e =>
            internal_error st w (what +:+ "failed to parse JSON response: " +:+ e)
          end
        else
          internal_error st w (what +:+ "NewsAPI returned status " +:+ pretty code)
      end.
Proof.
  assert (∀ what h' c' answer,
            match answer with
            | TransportErr e =>
              internal_error (news_reply what h' w c' (news_fetch_result W answer)) w
                             (what +:+ "failed to fetch news: " +:+ e)
            | Response _ (ReadErr e) =>
              internal_error (news_reply what h' w c' (news_fetch_result W answer)) w
                             (what +:+ "failed to read response body: " +:+ e)
            | Response code (ReadOK b) =>
              if decide (code = 200) then
                match Unmarshal_NewsResponse W b with
                | Ok n =>
                  status_of (news_reply what h' w c' (news_fetch_result W answer)) = 200
                  ∧ body_of (news_reply what h' w c' (news_fetch_result W answer))
                    = w ++ [JSON (NewsPayload n)]
                | Err e =>
                  internal_error (news_reply what h' w c' (news_fetch_result W answer)) w
                                 (what +:+ "failed to parse JSON response: " +:+ e)
                end
              else
                internal_error (news_reply what h' w c' (news_fetch_result W answer)) w
                               (what +:+ "NewsAPI returned status " +:+ pretty code)
            end) as Hreply.
  { intros what h' c' [e | code [b | e]]; unfold internal_error, news_fetch_result;
      [done | | done].
    case_decide as Hcode.
    - subst code. rewrite decide_False by (intros Hne; by apply Hne).
      by destruct (Unmarshal_NewsResponse W b).
    - by rewrite decide_True. }
  intros [cfg | cfg | cfg | cfg]; cbv zeta; intros Hc.
  - exists "Error fetching news: ". split; [apply list_elem_of_here |].
    rewrite Main_getTopHeadlines_eq in Hc |- *.
    rewrite Calls_news_reply in Hc. apply snoc_inj in Hc. subst call. apply Hreply.
  - exists "Error searching news: ".
    split; [apply list_elem_of_further, list_elem_of_here |].
    destruct (decide (Values_Get (Request_Query r) "q" = "")) as [Hq | Hq];
      [rewrite Main_searchNews_no_query, Calls_replied in Hc by done;
       by apply snoc_neq in Hc |].
    rewrite Main_searchNews_eq in Hc |- * by done.
    rewrite Calls_news_reply in Hc. apply snoc_inj in Hc. subst call. apply Hreply.
  - exists "Error fetching news: ". split; [apply list_elem_of_here |].
    rewrite Api_handleHeadlines_eq in Hc |- *.
    rewrite Calls_news_reply in Hc. apply snoc_inj in Hc. subst call. apply Hreply.
  - exists "Error searching news: ".
    split; [apply list_elem_of_further, list_elem_of_here |].
    destruct (decide (Values_Get (Request_Query r) "q" = "")) as [Hq | Hq];
      [rewrite Api_handleSearch_no_query, Calls_replied in Hc by done;
       by apply snoc_neq in Hc |].
    rewrite Api_handleSearch_eq in Hc |- * by done.
    rewrite Calls_news_reply in Hc. apply snoc_inj in Hc. subst call. apply Hreply.
Qed.

Lemma news_reply_by_upstream_answer_witness :
  let W := stubWorld env0 (λ _, TransportErr "dial tcp: connection refused") in
  let st := exec (Main.getTopHeadlines W mainConfig0
                    (request "GET" "/api/news/headlines" ∅ ""))
                 (fresh ∅ [] []) in
  ∃ what,
    what ∈ ["Error fetching news: "; "Error searching news: "]
    ∧ internal_error st []
        (what +:+ "failed to fetch news: " +:+ "dial tcp: connection refused").
Proof.
  exact (news_reply_by_upstream_answer
           (stubWorld env0 (λ _, TransportErr "dial tcp: connection refused"))
           (Main.getTopHeadlines
              (stubWorld env0 (λ _, TransportErr "dial tcp: connection refused"))
              mainConfig0)
           (request "GET" "/api/news/headlines" ∅ "") ∅ [] []
           (GET "https://newsapi.org/v2/top-headlines?country=us&apiKey=k-news")
           (news_getTopHeadlines _ mainConfig0) eq_refl).
Defined.

(** * What the serverless dispatcher looks at *)

(** Apart from the OPTIONS short-circuit and the POST test of the
    transform path, the serverless dispatcher never looks at the method:
    a request to any other path gets the same reply under every method
    other than OPTIONS.  And of a news path it looks at the prefix only:
    whatever follows [/api/news/headlines] or [/api/news/search] in the
    path changes nothing. *)
Theorem Api_Handler_ignores_method_and_path_suffix (W : World) (r : Request) :
  Request_Method r ≠ "OPTIONS" →
  (∀ m, m ≠ "OPTIONS" → Request_Path r ≠ "/api/transform" →
        serve (Api.Handler W) (with_method m r) = serve (Api.Handler W) r)
  ∧ (∀ p, String.prefix "/api/news/headlines" (Request_Path r) = true →
          String.prefix "/api/news/headlines" p = true →
          serve (Api.Handler W) (with_path p r) = serve (Api.Handler W) r)
  ∧ (∀ p, String.prefix "/api/news/search" (Request_Path r) = true →
          String.prefix "/api/news/search" p = true →
          serve (Api.Handler W) (with_path p r) = serve (Api.Handler W) r).
Proof.
  intros Hm. split; [| split].
  - intros m Hm' Hp. unfold serve, Api.Handler.
    cbn [with_method Request_Method Request_Path].
    rewrite init_fresh. hsimpl. rewrite !decide_False by done.
    destruct (Api.loadConfig W) as [config | e]; [| done]. cbv zeta.
    rewrite !(decide_False (P := Request_Path r = "/api/transform" ∧ _))
      by (by intros [? _]).
    done.
  - intros p Hr Hp. unfold serve, Api.Handler.
    cbn [with_path Request_Method Request_Path].
    rewrite init_fresh. hsimpl. rewrite !decide_False by done.
    destruct (Api.loadConfig W) as [config | e]; [| done]. cbv zeta.
    rewrite Hr, Hp.
    rewrite !decide_False; [done | |]; intros Heq; rewrite Heq in *; done.
  - intros p Hr Hp. unfold serve, Api.Handler.
    cbn [with_path Request_Method Request_Path].
    rewrite init_fresh. hsimpl. rewrite !decide_False by done.
    destruct (Api.loadConfig W) as [config | e]; [| done]. cbv zeta.
    assert (∀ q, String.prefix "/api/news/search" q = true →
                 q ≠ "/api/health"
                 ∧ String.prefix "/api/news/headlines" q = false) as Hsearch.
    { intros q Hq. apply prefix_app_inv in Hq as [t ->].
      split; [intros [=] | reflexivity]. }
    destruct (Hsearch _ Hr) as [? Hr'], (Hsearch _ Hp) as [? Hp'].
    rewrite Hr, Hp, Hr', Hp', !decide_False by done. done.
Qed.

Lemma Api_Handler_ignores_method_and_path_suffix_witness :
  let search := request "GET" "/api/news/search" {[ "q" := ["war"] ]} "" in
  let headlines := request "GET" "/api/news/headlines" ∅ "" in
  serve (Api.Handler W0) (with_method "DELETE" search) = serve (Api.Handler W0) search
  ∧ serve (Api.Handler W0) (with_path "/api/news/headlines.json" headlines)
    = serve (Api.Handler W0) headlines
  ∧ serve (Api.Handler W0) (with_path "/api/news/searching/for" search)
    = serve (Api.Handler W0) search.
Proof.
  cbv zeta.
  pose proof (Api_Handler_ignores_method_and_path_suffix W0
                (request "GET" "/api/news/search" {[ "q" := ["war"] ]} "")) as Hs.
  pose proof (Api_Handler_ignores_method_and_path_suffix W0
                (request "GET" "/api/news/headlines" ∅ "")) as Hh.
  destruct Hs as (Hmeth & _ & Hsearch); [done |].
  destruct Hh as (_ & Hheadlines & _); [done |].
  split; [| split].
  - apply Hmeth; done.
  - apply Hheadlines; reflexivity.
  - apply Hsearch; reflexivity.
Defined.

(** * The two forms of a reply *)

Lemma json_reply_replied h v c :
  h !! "X-Content-Type-Options" = None →
  json_reply (replied (<["Content-Type" := "application/json"]> h) StatusOK
                      ([] ++ [JSON v]) c).
Proof.
  intros Hh. unfold json_reply, status_of, body_of, headers_of. cbn.
  split_and!; [done | by exists v | by rewrite lookup_insert_eq |].
  by rewrite lookup_insert_ne.
Qed.

Lemma error_reply_replied h code msg c :
  code ≠ 200 →
  error_reply (replied (errorHeaders h) code ([] ++ [Text (msg +:+ LF)]) c).
Proof.
  intros Hcode. unfold error_reply, status_of, body_of, headers_of, errorHeaders. cbn.
  split_and!; [done | by exists msg | |].
  - rewrite lookup_insert_ne by done. by rewrite lookup_insert_eq.
  - by rewrite lookup_insert_eq.
Qed.

Lemma news_reply_format what h c res :
  h !! "X-Content-Type-Options" = None →
  json_reply (news_reply what (<["Content-Type" := "application/json"]> h) [] c res)
  ∨ error_reply (news_reply what (<["Content-Type" := "application/json"]> h) [] c res).
Proof.
  intros Hh. destruct res as [n | e]; unfold news_reply.
  - left. by apply json_reply_replied.
  - right. by apply error_reply_replied.
Qed.

Lemma transform_reply_format say h c res :
  h !! "X-Content-Type-Options" = None →
  json_reply (transform_reply say (<["Content-Type" := "application/json"]> h) [] c res)
  ∨ error_reply (transform_reply say (<["Content-Type" := "application/json"]> h) [] c res).
Proof.
  intros Hh. destruct res as [n | e]; unfold transform_reply.
  - left. by apply json_reply_replied.
  - right. by apply error_reply_replied.
Qed.

(** Every handler, started on a writer that carries no
    [X-Content-Type-Options] header and no output, ends in one of the two
    forms. *)
Lemma handler_reply_format (W : World) (hd : HandlerFunc) (r : Request) h c :
  news_handler W hd ∨ transform_handler W hd
  ∨ hd = Main.healthCheck W ∨ hd = Api.handleHealth W →
  h !! "X-Content-Type-Options" = None →
  json_reply (exec (hd r) (fresh h [] c)) ∨ error_reply (exec (hd r) (fresh h [] c)).
Proof.
  intros Hhd Hh.
  destruct Hhd as [[cfg | cfg | cfg | cfg] | [[cfg | cfg] | [-> | ->]]].
  - rewrite Main_getTopHeadlines_eq. by apply news_reply_format.
  - destruct (decide (Values_Get (Request_Query r) "q" = "")) as [Hq | Hq].
    + rewrite Main_searchNews_no_query by done. right. by apply error_reply_replied.
    + rewrite Main_searchNews_eq by done. by apply news_reply_format.
  - rewrite Api_handleHeadlines_eq. by apply news_reply_format.
  - destruct (decide (Values_Get (Request_Query r) "q" = "")) as [Hq | Hq].
    + rewrite Api_handleSearch_no_query by done. right. by apply error_reply_replied.
    + rewrite Api_handleSearch_eq by done. by apply news_reply_format.
  - destruct (decide (Request_Method r = "POST")) as [Hm | Hm];
      [| rewrite Main_transformNews_not_post by done; right;
         by apply error_reply_replied].
    destruct (Decode_requestData W (Request_Body r)) as [data | e] eqn:Hdata.
    + rewrite (Main_transformNews_eq W cfg r data) by done.
      by apply transform_reply_format.
    + rewrite (Main_transformNews_invalid W cfg r e) by done. right.
      by apply error_reply_replied.
  - destruct (Decode_requestData W (Request_Body r)) as [data | e] eqn:Hdata.
    + rewrite (Api_handleTransform_eq W cfg r data) by done.
      by apply transform_reply_format.
    + rewrite (Api_handleTransform_invalid W cfg r e) by done. right.
      by apply error_reply_replied.
  - left. unfold exec, Main.healthCheck. hsimpl. by apply json_reply_replied.
  - left. unfold exec, Api.handleHealth. hsimpl. by apply json_reply_replied.
Qed.

(** Every reply of the API has one of two forms, and the status tells
    which: 200 with one JSON document and [Content-Type: application/json],
    or another status with one line of plain text, [Content-Type:
    text/plain; charset=utf-8] and [X-Content-Type-Options: nosniff].  The
    [application/json] a handler sets first never survives an error.
    This holds for every request but OPTIONS on the serverless entry
    point, and for the four API routes of the standalone server. *)
Theorem replies_are_json_or_plain_text (W : World) (config : Main.Config) (r : Request) :
  (Request_Method r ≠ "OPTIONS" →
   json_reply (serve (Api.Handler W) r) ∨ error_reply (serve (Api.Handler W) r))
  ∧ (Main_defined_route r = true →
     json_reply (serve (Router_ServeHTTP W (Main.router W config)) r)
     ∨ error_reply (serve (Router_ServeHTTP W (Main.router W config)) r)).
Proof.
  assert (corsHeaders !! "X-Content-Type-Options" = None) as Hcors by reflexivity.
  split.
  - intros Hm. unfold serve, Api.Handler. rewrite init_fresh. hsimpl.
    case_decide; [done |].
    destruct (Api.loadConfig W) as [cfg | e]; hsimpl;
      [| right; by apply (error_reply_replied _ _ _ [])].
    cbv zeta. case_decide.
    { exact (handler_reply_format W (Api.handleHealth W) r corsHeaders []
               (or_intror (or_intror (or_intror eq_refl))) Hcors). }
    destruct (String.prefix "/api/news/headlines" (Request_Path r)).
    { exact (handler_reply_format W (λ r, Api.handleHeadlines W r cfg) r corsHeaders []
               (or_introl (news_handleHeadlines W cfg)) Hcors). }
    destruct (String.prefix "/api/news/search" (Request_Path r)).
    { exact (handler_reply_format W (λ r, Api.handleSearch W r cfg) r corsHeaders []
               (or_introl (news_handleSearch W cfg)) Hcors). }
    case_decide.
    { exact (handler_reply_format W (λ r, Api.handleTransform W r cfg) r corsHeaders []
               (or_intror (or_introl (transform_handleTransform W cfg))) Hcors). }
    hsimpl. right. by apply (error_reply_replied _ _ _ []).
  - unfold Main_defined_route. intros Hroute.
    repeat (apply orb_prop in Hroute as [Hroute | Hroute]);
      apply bool_decide_eq_true in Hroute as [Hm Hp]; rewrite serve_exec.
    + rewrite Main_router_health, Main_corsMiddleware_run by done.
      rewrite decide_False by (by rewrite Hm).
      apply (handler_reply_format W (Main.healthCheck W) r); auto.
    + rewrite Main_router_headlines, Main_corsMiddleware_run by done.
      rewrite decide_False by (by rewrite Hm).
      apply (handler_reply_format W (Main.getTopHeadlines W config) r);
        [left; constructor | done].
    + rewrite Main_router_search, Main_corsMiddleware_run by done.
      rewrite decide_False by (by rewrite Hm).
      apply (handler_reply_format W (Main.searchNews W config) r);
        [left; constructor | done].
    + rewrite Main_router_transform, Main_corsMiddleware_run by done.
      rewrite decide_False by (by rewrite Hm).
      apply (handler_reply_format W (Main.transformNews W config) r);
        [right; left; constructor | done].
Qed.

Lemma replies_are_json_or_plain_text_witness :
  error_reply (serve (Api.Handler W_no_credentials)
                     (request "GET" "/api/news/headlines" ∅ ""))
  ∧ json_reply (serve (Router_ServeHTTP W0 (Main.router W0 mainConfig0))
                      (request "GET" "/api/news/headlines" ∅ "")).
Proof.
  pose proof (replies_are_json_or_plain_text W_no_credentials mainConfig0
                (request "GET" "/api/news/headlines" ∅ "")) as [HA _].
  pose proof (replies_are_json_or_plain_text W0 mainConfig0
                (request "GET" "/api/news/headlines" ∅ "")) as [_ HM].
  split.
  - destruct HA as [[H _] | H]; [discriminate | vm_compute in H; discriminate H | exact H].
  - destruct (HM eq_refl) as [H | [H _]]; [exact H | exfalso; apply H; reflexivity].
Defined.

(** * Where the upstream calls go *)

(** The router of [main] on a fresh writer, for every request but
    OPTIONS to a path in canonical form: the route table on top of the
    CORS headers. *)
Lemma Main_router_serve (W : World) (config : Main.Config) (r : Request) :
  cleanPath (Request_Path r) = Request_Path r →
  Request_Method r ≠ "OPTIONS" →
  serve (Router_ServeHTTP W (Main.router W config)) r
  = exec (Main_dispatch W config r) (fresh corsHeaders [] []).
Proof.
  intros Hclean Hopt. rewrite serve_exec. unfold Main_dispatch.
  destruct (decide (Request_Method r = "GET" ∧ Request_Path r = "/api/news/headlines"))
    as [[Hm Hp] | H1].
  { rewrite Main_router_headlines, Main_corsMiddleware_run by done.
    by rewrite decide_False. }
  destruct (decide (Request_Method r = "GET" ∧ Request_Path r = "/api/news/search"))
    as [[Hm Hp] | H2].
  { rewrite Main_router_search, Main_corsMiddleware_run by done.
    by rewrite decide_False. }
  destruct (decide (Request_Method r = "POST" ∧ Request_Path r = "/api/transform"))
    as [[Hm Hp] | H3].
  { rewrite Main_router_transform, Main_corsMiddleware_run by done.
    by rewrite decide_False. }
  destruct (decide (Request_Method r = "GET" ∧ Request_Path r = "/health"))
    as [[Hm Hp] | H4].
  { rewrite Main_router_health, Main_corsMiddleware_run by done.
    by rewrite decide_False. }
  rewrite Main_router_fallback, Main_corsMiddleware_run; [by rewrite decide_False | | done].
  unfold Main_defined_route.
  repeat (apply orb_false_intro); by apply bool_decide_eq_false.
Qed.

Lemma upstream_target_headlines category newsKey openAIKey :
  upstream_target newsKey openAIKey (GET (headlinesURL category newsKey)).
Proof.
  unfold upstream_target, headlinesURL. case_decide.
  - by exists ("top-headlines?country=us&category=" +:+ category).
  - by exists "top-headlines?country=us".
Qed.

Lemma upstream_target_search q newsKey openAIKey :
  upstream_target newsKey openAIKey (GET (searchURL q newsKey)).
Proof. by exists ("everything?q=" +:+ q). Qed.

Lemma upstream_target_completion title description newsKey openAIKey :
  upstream_target newsKey openAIKey (completionCall openAIKey title description).
Proof. unfold upstream_target, completionCall, openAIRequest. split_and!; eauto. Qed.

Lemma elem_of_snoc_nil (call call' : Call) : call ∈ [] ++ [call'] → call = call'.
Proof. intros H%list_elem_of_singleton. done. Qed.

(** The calls of each handler with the keys of its configuration. *)
Lemma Main_handlers_target (W : World) (config : Main.Config) (r : Request) h c call :
  call ∈ Calls (exec (Main_dispatch W config r) (fresh h [] c)) →
  call ∈ c
  ∨ upstream_target (Main.Config_NewsAPIKey config) (Main.Config_OpenAIAPIKey config) call.
Proof.
  unfold Main_dispatch. repeat case_decide.
  - rewrite Main_getTopHeadlines_eq, Calls_news_reply.
    intros [Hin | ->%list_elem_of_singleton]%elem_of_app; [by left | right].
    apply upstream_target_headlines.
  - destruct (decide (Values_Get (Request_Query r) "q" = "")) as [Hq | Hq].
    + rewrite Main_searchNews_no_query, Calls_replied by done. by left.
    + rewrite Main_searchNews_eq, Calls_news_reply by done.
      intros [Hin | ->%list_elem_of_singleton]%elem_of_app; [by left | right].
      apply upstream_target_search.
  - destruct (Decode_requestData W (Request_Body r)) as [data | e] eqn:Hdata.
    + rewrite (Main_transformNews_eq W config r data), Calls_transform_reply by tauto.
      intros [Hin | ->%list_elem_of_singleton]%elem_of_app; [by left | right].
      apply upstream_target_completion.
    + rewrite (Main_transformNews_invalid W config r e), Calls_replied by tauto.
      by left.
  - unfold exec, Main.healthCheck. hsimpl. by left.
  - unfold exec, Main.staticFiles, modify_resp. by left.
Qed.

(** Every upstream call of the proxy goes to one of two fixed endpoints
    and carries the key the environment names for that endpoint, where
    that endpoint expects it: the news key ends the URL of a GET under
    [https://newsapi.org/v2/], the completion key is the bearer token of
    a POST to the completion endpoint, whose model, limits and system
    prompt are fixed.  Nothing of the request chooses the host, and
    neither key is sent to the other service in these places.  The
    serverless entry point reads the environment on every request; the
    standalone server serves with what [main] read at start-up. *)
Theorem upstream_calls_carry_the_environment_keys
  (W : World) (r : Request) (call : Call) :
  (call ∈ Calls (serve (Api.Handler W) r) →
   upstream_target (Getenv W "NEWS_API_KEY") (Getenv W "OPENAI_API_KEY") call)
  ∧ (∀ addr handler,
       Main.main W = Main.ListenAndServe addr handler →
       String.prefix "/" (Request_Path r) = true →
       call ∈ Calls (serve handler r) →
       upstream_target (Getenv W "NEWS_API_KEY") (Getenv W "OPENAI_API_KEY") call).
Proof.
  split.
  - unfold serve, Api.Handler. rewrite init_fresh. hsimpl.
    case_decide; hsimpl; [by intros ?%elem_of_nil |].
    unfold Api.loadConfig. cbv zeta.
    destruct (decide (Getenv W "NEWS_API_KEY" = "")); hsimpl; [by intros ?%elem_of_nil |].
    destruct (decide (Getenv W "OPENAI_API_KEY" = "")); hsimpl; [by intros ?%elem_of_nil |].
    case_decide.
    { unfold Api.handleHealth. hsimpl. by intros ?%elem_of_nil. }
    destruct (String.prefix "/api/news/headlines" (Request_Path r)).
    { change (Calls (?m ?st).2) with (Calls (exec m st)).
      rewrite Api_handleHeadlines_eq, Calls_news_reply.
      intros ->%elem_of_snoc_nil. apply upstream_target_headlines. }
    destruct (String.prefix "/api/news/search" (Request_Path r)).
    { change (Calls (?m ?st).2) with (Calls (exec m st)).
      destruct (decide (Values_Get (Request_Query r) "q" = "")) as [Hq | Hq].
      - rewrite Api_handleSearch_no_query, Calls_replied by done.
        by intros ?%elem_of_nil.
      - rewrite Api_handleSearch_eq, Calls_news_reply by done.
        intros ->%elem_of_snoc_nil. apply upstream_target_search. }
    case_decide; [| hsimpl; by intros ?%elem_of_nil].
    change (Calls (?m ?st).2) with (Calls (exec m st)).
    destruct (Decode_requestData W (Request_Body r)) as [data | e] eqn:Hdata.
    + rewrite (Api_handleTransform_eq W _ r data), Calls_transform_reply by done.
      intros ->%elem_of_snoc_nil. apply upstream_target_completion.
    + rewrite (Api_handleTransform_invalid W _ r e), Calls_replied by done.
      by intros ?%elem_of_nil.
  - intros addr handler. unfold Main.main, Main.loadConfig. cbv zeta.
    destruct (decide (Getenv W "NEWS_API_KEY" = "")); [done |].
    destruct (decide (Getenv W "OPENAI_API_KEY" = "")); [done |].
    cbv zeta. destruct (Listen W _); [done |].
    intros [= _ <-] Hslash.
    destruct (decide (cleanPath (Request_Path r) = Request_Path r)) as [Hclean | Hclean];
      [| rewrite Router_ServeHTTP_redirect by done; by intros ?%elem_of_nil].
    destruct (decide (Request_Method r = "OPTIONS")) as [Hopt | Hopt].
    + rewrite serve_exec.
      destruct (decide (Main_defined_route r = true)) as [Hr | Hr%not_true_is_false].
      * unfold Main_defined_route in Hr. rewrite Hopt in Hr. done.
      * rewrite Main_router_fallback, Main_corsMiddleware_run, decide_True by done.
        by intros ?%elem_of_nil.
    + rewrite Main_router_serve by done.
      intros [?%elem_of_nil | Hin]%Main_handlers_target; [done | exact Hin].
Qed.

Lemma upstream_calls_carry_the_environment_keys_witness :
  upstream_target "k-news" "sk-openai" (GET (searchURL "war" "k-news"))
  ∧ upstream_target "k-news" "sk-openai" (completionCall "sk-openai" "T" "D").
Proof.
  split.
  - refine (proj1 (upstream_calls_carry_the_environment_keys W0
              (request "GET" "/api/news/search" {[ "q" := ["war"] ]} "")
              (GET (searchURL "war" "k-news"))) _).
    apply list_elem_of_here.
  - refine (proj2 (upstream_calls_carry_the_environment_keys W0
              (request "POST" "/api/transform" ∅ (transformBody "T" "D"))
              (completionCall "sk-openai" "T" "D"))
              _ _ eq_refl eq_refl _).
    apply list_elem_of_here.
Defined.

(** * The method check of [transformNews] *)

(** [transformNews] answers every method but POST with 405 and the text
    [Method not allowed], before it looks at the body and without an
    upstream call.  Behind the router of [main] that answer is never
    given: the transform route matches POST only, so each of the four API
    routes is answered 200, 400 or 500, on top of the CORS headers. *)
Theorem method_not_allowed_is_never_routed
  (W : World) (config : Main.Config) (r : Request) :
  (∀ h w c,
     Request_Method r ≠ "POST" →
     exec (Main.transformNews W config r) (fresh h w c)
     = replied (errorHeaders (<["Content-Type" := "application/json"]> h))
               405 (w ++ [Text ("Method not allowed" +:+ LF)]) c)
  ∧ (Main_defined_route r = true →
     status_of (serve (Router_ServeHTTP W (Main.router W config)) r) ∈ [200; 400; 500]
     ∧ ∀ k v, corsHeaders !! k = Some v →
              headers_of (serve (Router_ServeHTTP W (Main.router W config)) r) !! k = Some v).
Proof.
  split; [intros h w c Hm; by apply Main_transformNews_not_post |].
  assert (∀ h' code w,
            (∀ k, k ≠ "Content-Type" → k ≠ "X-Content-Type-Options" →
                  h' !! k = corsHeaders !! k) →
            code ∈ [200; 400; 500] →
            ∀ c, status_of (replied h' code w c) ∈ [200; 400; 500]
                 ∧ ∀ k v, corsHeaders !! k = Some v →
                          headers_of (replied h' code w c) !! k = Some v) as Hreply.
  { intros h' code w Hframe Hcode c. split; [done |]. intros k v Hk.
    unfold headers_of. cbn. rewrite Hframe; [done | |]; intros ->; discriminate Hk. }
  assert (∀ what c res,
            status_of (news_reply what (<["Content-Type" := "application/json"]> corsHeaders)
                                  [] c res) ∈ [200; 400; 500]
            ∧ ∀ k v, corsHeaders !! k = Some v →
                     headers_of (news_reply what
                                   (<["Content-Type" := "application/json"]> corsHeaders)
                                   [] c res) !! k = Some v) as Hnews.
  { intros what c [n | e]; apply Hreply; first [frame_tac | code_tac]. }
  unfold Main_defined_route. intros Hroute.
  repeat (apply orb_prop in Hroute as [Hroute | Hroute]);
    apply bool_decide_eq_true in Hroute as [Hm Hp]; rewrite serve_exec.
  - rewrite Main_router_health, Main_corsMiddleware_run by done.
    rewrite decide_False by (by rewrite Hm).
    unfold exec, Main.healthCheck. hsimpl. apply Hreply; first [frame_tac | code_tac].
  - rewrite Main_router_headlines, Main_corsMiddleware_run by done.
    rewrite decide_False by (by rewrite Hm).
    rewrite Main_getTopHeadlines_eq. apply Hnews.
  - rewrite Main_router_search, Main_corsMiddleware_run by done.
    rewrite decide_False by (by rewrite Hm).
    destruct (decide (Values_Get (Request_Query r) "q" = "")) as [Hq | Hq].
    + rewrite Main_searchNews_no_query by done.
      apply Hreply; first [frame_tac | code_tac].
    + rewrite Main_searchNews_eq by done. apply Hnews.
  - rewrite Main_router_transform, Main_corsMiddleware_run by done.
    rewrite decide_False by (by rewrite Hm).
    destruct (Decode_requestData W (Request_Body r)) as [data | e] eqn:Hdata.
    + rewrite (Main_transformNews_eq W config r data) by done.
      destruct (completion_result W _); apply Hreply; first [frame_tac | code_tac].
    + rewrite (Main_transformNews_invalid W config r e) by done.
      apply Hreply; first [frame_tac | code_tac].
Qed.

Lemma method_not_allowed_is_never_routed_witness :
  status_of (exec (Main.transformNews W0 mainConfig0
                     (request "GET" "/api/transform" ∅ "")) (fresh ∅ [] [])) = 405
  ∧ status_of (serve (Router_ServeHTTP W0 (Main.router W0 mainConfig0))
                     (request "POST" "/api/transform" ∅ (transformBody "T" "D")))
    ∈ [200; 400; 500].
Proof.
  pose proof (method_not_allowed_is_never_routed W0 mainConfig0
                (request "GET" "/api/transform" ∅ "")) as [H405 _].
  pose proof (method_not_allowed_is_never_routed W0 mainConfig0
                (request "POST" "/api/transform" ∅ (transformBody "T" "D"))) as [_ Hrouted].
  split.
  - rewrite H405; [reflexivity | discriminate].
  - exact (proj1 (Hrouted eq_refl)).
Defined.

(** * Loading the configuration *)

(** The two entry points load their keys alike: both succeed exactly when
    neither key is empty, and then hold the environment's values as they
    are; both fail with the same message, which names the news key
    whenever that one is empty (also when both are) and the completion
    key otherwise.  [main] puts that message into its fatal log line. *)
Theorem loadConfig_agrees_and_names_the_first_missing_key (W : World) :
  match Main.loadConfig W, Api.loadConfig W with
  | Ok cfgM, Ok cfgA =>
    ¬ credentials_missing W
    ∧ Main.Config_NewsAPIKey cfgM = Getenv W "NEWS_API_KEY"
    ∧ Main.Config_OpenAIAPIKey cfgM = Getenv W "OPENAI_API_KEY"
    ∧ Api.Config_NewsAPIKey cfgA = Getenv W "NEWS_API_KEY"
    ∧ Api.Config_OpenAIAPIKey cfgA = Getenv W "OPENAI_API_KEY"
  | Err errM, Err errA =>
    credentials_missing W
    ∧ errM = errA
    ∧ errM = (if decide (Getenv W "NEWS_API_KEY" = "") then "NEWS_API_KEY" else "OPENAI_API_KEY")
             +:+ " environment variable is required"
    ∧ Main.main W = Main.Fatal ("Failed to load configuration: " +:+ errM)
  | _, _ => False
  end.
Proof.
  unfold Main.main, Main.loadConfig, Api.loadConfig, credentials_missing. cbv zeta.
  destruct (decide (Getenv W "NEWS_API_KEY" = "")) as [Hn | Hn]; [by auto |].
  destruct (decide (Getenv W "OPENAI_API_KEY" = "")) as [Ho | Ho]; [by auto |].
  split_and!; try done. tauto.
Qed.

(** * The request log of [fetchNews] *)

Lemma prefix_app_refl (k t : string) : String.prefix k (k +:+ t) = true.
Proof.
  induction k as [| a k IH]; [by destruct t |].
  change (String a k +:+ t) with (String a (k +:+ t)). cbn.
  by destruct (Ascii.ascii_dec a a).
Qed.

Lemma string_drop_app (k t : string) : string_drop (String.length k) (k +:+ t) = t.
Proof. induction k as [| a k IH]; [done | exact IH]. Qed.

Lemma prefix_app_l (k p t : string) :
  String.prefix k p = true → String.prefix k (p +:+ t) = true.
Proof. intros [u ->]%prefix_app_inv. rewrite app_assoc_string. apply prefix_app_refl. Qed.

Lemma string_length_app (a b : string) :
  String.length (a +:+ b) = (String.length a + String.length b)%nat.
Proof.
  induction a as [| x a IH]; [done |].
  change (S (String.length (a +:+ b)) = S (String.length a + String.length b)).
  by rewrite IH.
Qed.

(** What follows the first [|old|] characters plays no part in the test. *)
Lemma prefix_app_short (old p t : string) :
  (String.length old ≤ String.length p)%nat →
  String.prefix old (p +:+ t) = String.prefix old p.
Proof.
  revert p. induction old as [| a old IH]; intros p Hlen.
  - destruct p; [by destruct t | done].
  - destruct p as [| b p]; [cbn in Hlen; lia |].
    change (String b p +:+ t) with (String b (p +:+ t)). cbn.
    destruct (Ascii.ascii_dec a b); [| done]. apply IH. cbn in Hlen. lia.
Qed.

Lemma strings_Replace1_unfold (s old new : string) :
  strings_Replace1 s old new
  = if String.prefix old s then new +:+ string_drop (String.length old) s
    else match s with
         | EmptyString => EmptyString
         | String a s' => String a (strings_Replace1 s' old new)
         end.
Proof. by destruct s. Qed.

(** An occurrence in the front part is the one that gets replaced. *)
Lemma strings_Replace1_app (p t old new : string) :
  contains old p →
  strings_Replace1 (p +:+ t) old new = strings_Replace1 p old new +:+ t.
Proof.
  intros (pre & post & ->). induction pre as [| a pre IH].
  - change ("" +:+ old +:+ post) with (old +:+ post).
    rewrite app_assoc_string, !strings_Replace1_unfold, !prefix_app_refl,
      !string_drop_app.
    by rewrite app_assoc_string.
  - change (String a pre +:+ old +:+ post) with (String a (pre +:+ old +:+ post)).
    change (String a (pre +:+ old +:+ post) +:+ t)
      with (String a ((pre +:+ old +:+ post) +:+ t)).
    rewrite (strings_Replace1_unfold (String a ((pre +:+ old +:+ post) +:+ t))),
      (strings_Replace1_unfold (String a (pre +:+ old +:+ post))).
    change (String a ((pre +:+ old +:+ post) +:+ t))
      with (String a (pre +:+ old +:+ post) +:+ t).
    rewrite prefix_app_short
      by (cbn; rewrite !string_length_app; lia).
    destruct (String.prefix old (String a (pre +:+ old +:+ post))) eqn:Hpre.
    + apply prefix_app_inv in Hpre as [u Hu].
      rewrite Hu, app_assoc_string, !string_drop_app.
      by rewrite app_assoc_string.
    + change (String a (pre +:+ old +:+ post) +:+ t)
        with (String a ((pre +:+ old +:+ post) +:+ t)).
      cbv beta iota. rewrite IH. done.
Qed.

(** With no occurrence before it, the one at the end is replaced. *)
Lemma strings_Replace1_end (p old new : string) :
  occurs_within (String.length p) old (p +:+ old) = false →
  strings_Replace1 (p +:+ old) old new = p +:+ new.
Proof.
  induction p as [| a p IH]; intros Hocc.
  - change ("" +:+ old) with old. change ("" +:+ new) with new.
    pose proof (prefix_app_refl old "") as Hpre.
    pose proof (string_drop_app old "") as Hdrop.
    rewrite append_empty_r in Hpre, Hdrop.
    rewrite strings_Replace1_unfold, Hpre, Hdrop. apply append_empty_r.
  - change (String a p +:+ old) with (String a (p +:+ old)) in *.
    change (occurs_within (String.length (String a p)) old (String a (p +:+ old)))
      with (String.prefix old (String a (p +:+ old))
            || occurs_within (String.length p) old (p +:+ old)) in Hocc.
    apply orb_false_elim in Hocc as [Hpre Hocc].
    rewrite strings_Replace1_unfold, Hpre, IH by done. done.
Qed.

Lemma fetchNews_url_split (endpoint key : string) :
  "https://newsapi.org/v2" +:+ endpoint +:+ "&apiKey=" +:+ key
  = ("https://newsapi.org/v2" +:+ endpoint +:+ "&apiKey=") +:+ key.
Proof. by rewrite !app_assoc_string. Qed.

(** The occurrence that starts first is the one that gets replaced. *)
Lemma strings_Replace1_first (n : nat) (s old new : string) :
  occurs_within n old s = true →
  ∃ pre post,
    s = pre +:+ old +:+ post
    ∧ (String.length pre < n)%nat
    ∧ strings_Replace1 s old new = pre +:+ new +:+ post.
Proof.
  revert s. induction n as [| n IH]; intros s Hocc; [done |].
  destruct (String.prefix old s) eqn:Hpre.
  - apply prefix_app_inv in Hpre as [post ->]. exists "", post.
    split; [done |]. split; [simpl; lia |].
    by rewrite strings_Replace1_unfold, prefix_app_refl, string_drop_app.
  - destruct s as [| a s].
    + destruct old; [done |]. cbn in Hocc. done.
    + change (occurs_within (S n) old (String a s))
        with (String.prefix old (String a s) || occurs_within n old s) in Hocc.
      rewrite Hpre in Hocc. destruct (IH s Hocc) as (pre & post & -> & Hlen & Hrep).
      exists (String a pre), post.
      split; [done |]. split; [simpl; lia |].
      rewrite strings_Replace1_unfold, Hpre, Hrep. done.
Qed.

(** After an occurrence that starts inside [front], something is left. *)
Lemma rest_after_early_occurrence (front key pre post : string) :
  front +:+ key = pre +:+ key +:+ post →
  (String.length pre < String.length front)%nat →
  post ≠ "".
Proof.
  intros Heq Hlen ->. apply (f_equal String.length) in Heq.
  rewrite (string_length_app front key), (string_length_app pre (key +:+ "")),
    (string_length_app key "") in Heq.
  simpl in Heq. lia.
Qed.

(** The log line of [fetchNews] masks the first occurrence of the key's
    text in the URL, and only that one.  When no occurrence starts before
    the key itself, the line ends in [&apiKey=[REDACTED]] and nothing
    else of the URL is changed.  When one does, that occurrence is masked
    instead, and the rest of the URL after it, which is not empty and
    ends the key, is logged as it is; in particular, when the key's text
    occurs before the key without overlapping it, in the search text for
    instance, the line ends in the whole key, in clear. *)
Theorem fetchNews_log_masks_the_first_occurrence_only
  (config : Main.Config) (endpoint : string) :
  let key := Main.Config_NewsAPIKey config in
  let front := "https://newsapi.org/v2" +:+ endpoint +:+ "&apiKey=" in
  (if occurs_within (String.length front) key (front +:+ key) then
     ∃ pre post,
       front +:+ key = pre +:+ key +:+ post
       ∧ (String.length pre < String.length front)%nat
       ∧ post ≠ ""
       ∧ fetchNews_maskedURL config endpoint = pre +:+ "[REDACTED]" +:+ post
   else fetchNews_maskedURL config endpoint = front +:+ "[REDACTED]")
  ∧ (contains key front →
     fetchNews_maskedURL config endpoint
     = strings_Replace1 front key "[REDACTED]" +:+ key).
Proof.
  cbv zeta. unfold fetchNews_maskedURL. rewrite fetchNews_url_split. split.
  - destruct (occurs_within _ _ _) eqn:Hocc; [| by apply strings_Replace1_end].
    destruct (strings_Replace1_first _ _ _ "[REDACTED]" Hocc)
      as (pre & post & Heq & Hlen & Hrep).
    exists pre, post. split; [done |]. split; [done |]. split; [| done].
    by eapply rest_after_early_occurrence.
  - apply strings_Replace1_app.
Qed.

Lemma fetchNews_log_masks_the_first_occurrence_only_witness :
  fetchNews_maskedURL mainConfig0 "/everything?q=war"
  = "https://newsapi.org/v2/everything?q=war&apiKey=[REDACTED]"
  ∧ fetchNews_maskedURL
      {| Main.Config_NewsAPIKey := "k-news"; Main.Config_OpenAIAPIKey := "sk-openai";
         Main.Config_Port := "8080" |}
      "/everything?q=k-news"
    = "https://newsapi.org/v2/everything?q=[REDACTED]&apiKey=k-news"
  ∧ ∃ pre post,
      (String.length pre < String.length "https://newsapi.org/v2/top-headlines?country=us&apiKey=")%nat
      ∧ post ≠ ""
      ∧ fetchNews_maskedURL
          {| Main.Config_NewsAPIKey := "=="; Main.Config_OpenAIAPIKey := "sk-openai";
             Main.Config_Port := "8080" |}
          "/top-headlines?country=us"
        = pre +:+ "[REDACTED]" +:+ post.
Proof.
  split; [| split].
  - exact (proj1 (fetchNews_log_masks_the_first_occurrence_only mainConfig0
                    "/everything?q=war")).
  - refine (proj2 (fetchNews_log_masks_the_first_occurrence_only
                     {| Main.Config_NewsAPIKey := "k-news";
                        Main.Config_OpenAIAPIKey := "sk-openai";
                        Main.Config_Port := "8080" |}
                     "/everything?q=k-news") _).
    by exists "https://newsapi.org/v2/everything?q=", "&apiKey=".
  - destruct (proj1 (fetchNews_log_masks_the_first_occurrence_only
                       {| Main.Config_NewsAPIKey := "==";
                          Main.Config_OpenAIAPIKey := "sk-openai";
                          Main.Config_Port := "8080" |}
                       "/top-headlines?country=us"))
      as (pre & post & _ & Hlen & Hpost & Hmask).
    by exists pre, post.
Defined.

(** * The two deployments, end to end *)

(** A client cannot tell the two deployments apart on the routes they
    share.  Started in the same world, the server [main] listens with and
    the serverless entry point give the very same reply, after the very
    same upstream call, to GET [/api/news/headlines] and GET
    [/api/news/search]; to POST [/api/transform] they give the same
    status and headers after the same call, and the same body as well
    unless the status is 500. *)
Theorem entry_points_agree_on_shared_routes
  (W : World) (r : Request) (addr : string) (handler : HandlerFunc) :
  Main.main W = Main.ListenAndServe addr handler →
  (Request_Method r = "GET" →
   Request_Path r = "/api/news/headlines" ∨ Request_Path r = "/api/news/search" →
   serve handler r = serve (Api.Handler W) r)
  ∧ (Request_Method r = "POST" → Request_Path r = "/api/transform" →
     status_of (serve handler r) = status_of (serve (Api.Handler W) r)
     ∧ Calls (serve handler r) = Calls (serve (Api.Handler W) r)
     ∧ headers_of (serve handler r) = headers_of (serve (Api.Handler W) r)
     ∧ (status_of (serve handler r) ≠ 500 → serve handler r = serve (Api.Handler W) r)).
Proof.
  unfold Main.main, Main.loadConfig. cbv zeta.
  destruct (decide (Getenv W "NEWS_API_KEY" = "")) as [| Hnews]; [done |].
  destruct (decide (Getenv W "OPENAI_API_KEY" = "")) as [| Hopenai]; [done |].
  cbv zeta. destruct (Listen W _); [done |].
  intros [= _ <-].
  assert (∀ m, m ≠ "OPTIONS" → Request_Method r = m →
            serve (Api.Handler W) r
            = exec (let config := {| Api.Config_NewsAPIKey := Getenv W "NEWS_API_KEY";
                                     Api.Config_OpenAIAPIKey := Getenv W "OPENAI_API_KEY" |} in
                    if decide (Request_Path r = "/api/health") then Api.handleHealth W r
                    else if String.prefix "/api/news/headlines" (Request_Path r)
                    then Api.handleHeadlines W r config
                    else if String.prefix "/api/news/search" (Request_Path r)
                    then Api.handleSearch W r config
                    else if decide (Request_Path r = "/api/transform"
                                    ∧ Request_Method r = "POST")
                    then Api.handleTransform W r config
                    else http_Error "Not found" StatusNotFound)
                   (fresh corsHeaders [] [])) as HApi.
  { intros m Hopt Hm. unfold serve, Api.Handler, Api.loadConfig. rewrite init_fresh. hsimpl.
    rewrite Hm, !decide_False by done. done. }
  split.
  - intros Hm [Hp | Hp].
    + rewrite (HApi "GET"), serve_exec, Main_router_headlines, Main_corsMiddleware_run
        by done.
      rewrite Hp, Hm. cbv zeta.
      rewrite (decide_False (P := "GET" = "OPTIONS")),
        (decide_False (P := "/api/news/headlines" = "/api/health")) by done.
      change (String.prefix "/api/news/headlines" "/api/news/headlines") with true.
      cbv iota. by rewrite Main_getTopHeadlines_eq, Api_handleHeadlines_eq.
    + rewrite (HApi "GET"), serve_exec, Main_router_search, Main_corsMiddleware_run
        by done.
      rewrite Hp, Hm. cbv zeta.
      rewrite (decide_False (P := "GET" = "OPTIONS")),
        (decide_False (P := "/api/news/search" = "/api/health")) by done.
      change (String.prefix "/api/news/headlines" "/api/news/search") with false.
      change (String.prefix "/api/news/search" "/api/news/search") with true.
      cbv iota.
      destruct (decide (Values_Get (Request_Query r) "q" = "")) as [Hq | Hq].
      * by rewrite Main_searchNews_no_query, Api_handleSearch_no_query.
      * by rewrite Main_searchNews_eq, Api_handleSearch_eq.
  - intros Hm Hp.
    rewrite (HApi "POST"), serve_exec, Main_router_transform, Main_corsMiddleware_run
      by done.
    rewrite Hp, Hm. cbv zeta.
    rewrite (decide_False (P := "POST" = "OPTIONS")),
      (decide_False (P := "/api/transform" = "/api/health")),
      (decide_True (P := "/api/transform" = "/api/transform" ∧ "POST" = "POST")) by done.
    change (String.prefix "/api/news/headlines" "/api/transform") with false.
    change (String.prefix "/api/news/search" "/api/transform") with false.
    cbv iota.
    destruct (Decode_requestData W (Request_Body r)) as [data | e] eqn:Hdata.
    + rewrite (Main_transformNews_eq W _ r data), (Api_handleTransform_eq W _ r data)
        by done.
      cbn [Main.Config_OpenAIAPIKey Api.Config_OpenAIAPIKey].
      destruct (completion_result W _); unfold transform_reply;
        repeat split; try done; by intros [].
    + rewrite (Main_transformNews_invalid W _ r e), (Api_handleTransform_invalid W _ r e)
        by done.
      repeat split; done.
Qed.

Lemma entry_points_agree_on_shared_routes_witness :
  let search := request "GET" "/api/news/search" {[ "q" := ["war"] ]} "" in
  let transform := request "POST" "/api/transform" ∅ (transformBody "T" "D") in
  serve (Router_ServeHTTP W0 (Main.router W0 mainConfig0)) search
  = serve (Api.Handler W0) search
  ∧ status_of (serve (Router_ServeHTTP W0 (Main.router W0 mainConfig0)) transform)
    = status_of (serve (Api.Handler W0) transform).
Proof.
  cbv zeta. split.
  - exact (proj1 (entry_points_agree_on_shared_routes W0
                    (request "GET" "/api/news/search" {[ "q" := ["war"] ]} "")
                    ":8080" (Router_ServeHTTP W0 (Main.router W0 mainConfig0)) eq_refl)
                 eq_refl (or_intror eq_refl)).
  - exact (proj1 (proj2 (entry_points_agree_on_shared_routes W0
                           (request "POST" "/api/transform" ∅ (transformBody "T" "D"))
                           ":8080" (Router_ServeHTTP W0 (Main.router W0 mainConfig0))
                           eq_refl)
                        eq_refl eq_refl)).
Defined.
